(** * HRRR Zarr example notebooks: URL templating, loading and combination

    A shallow embedding of the three notebooks of the repository

      - [part_000]  (one day of analysis files through [open_mfdataset],
        combined by repeated pairwise [xr.concat]),
      - [hrrr_zarr_one_day_analysis_not_mf.ipynb]  (the same through
        [open_dataset] and one [xr.concat]; the file also carries the
        projection notebook with [load_example_data] and
        [assign_coordinates]),
      - [thread_locking.ipynb]  (the mean over time of a forecast variable),

    together with the fragment of the libraries they call: Python's
    [datetime] (ordinal arithmetic and [strftime]), xarray's labelled
    datasets ([rename], [set_coords], item assignment, [concat], reduction
    over a dimension) and MetPy's coordinate helpers. *)

From Stdlib Require Import ZArith Lia Ascii String List Bool.
From stdpp Require Import base decidable option list sorting gmap strings fin_maps.

Set Warnings "-clear-no-such-hyp".

Open Scope Z_scope.

(** ** Exceptions and the effect monad *)

(** Python exceptions raised on the modelled paths.  [Unsupported] marks an
    input outside the fragment of a library that is modelled here; it is
    never the outcome of the repository's own code. *)
Inductive exn : Type :=
  | OverflowError
  | ValueError
  | KeyError
  | AttributeError
  | FileNotFoundError
  | Unsupported.

Inductive result (A : Type) : Type :=
  | Ok (a : A)
  | Raise (e : exn).
Arguments Ok {A} a.
Arguments Raise {A} e.

Definition rbind {A B : Type} (r : result A) (k : A -> result B) : result B :=
  match r with
  | Ok a => k a
  | Raise e => Raise e
  end.

Definition of_option {A : Type} (e : exn) (o : option A) : result A :=
  match o with
  | Some a => Ok a
  | None => Raise e
  end.

(** A test on the value of a computation that has not raised. *)
Definition holds {A : Type} (r : result A) (f : A -> bool) : bool :=
  match r with
  | Ok a => f a
  | Raise _ => false
  end.

#[global] Instance exn_eq_dec : EqDecision exn.
Proof. solve_decision. Defined.

(** ** Python's [datetime] *)

Module PyDatetime.

Record datetime : Type := mkDatetime {
  year : Z;
  month : Z;
  day : Z;
  hour : Z;
  minute : Z;
  second : Z;
  microsecond : Z
}.

#[global] Instance datetime_eq_dec : EqDecision datetime.
Proof. solve_decision. Defined.

Definition MINYEAR : Z := 1.
Definition MAXYEAR : Z := 9999.
Definition _MAXORDINAL : Z := 3652059.

(** [_is_leap] *)
Definition _is_leap (y : Z) : bool :=
  (y mod 4 =? 0) && (negb (y mod 100 =? 0) || (y mod 400 =? 0)).

(** [_days_before_year] *)
Definition _days_before_year (yr : Z) : Z :=
  let y := yr - 1 in
  y * 365 + y / 4 - y / 100 + y / 400.

(** The table [_DAYS_IN_MONTH]; index 0 is the placeholder -1. *)
Definition _DAYS_IN_MONTH (m : Z) : Z :=
  nth (Z.to_nat m) [-1; 31; 28; 31; 30; 31; 30; 31; 31; 30; 31; 30; 31] (-1).

(** The table [_DAYS_BEFORE_MONTH], the running sum of the previous one. *)
Definition _DAYS_BEFORE_MONTH (m : Z) : Z :=
  nth (Z.to_nat m) [-1; 0; 31; 59; 90; 120; 151; 181; 212; 243; 273; 304; 334] (-1).

Definition _days_in_month (y m : Z) : Z :=
  if (m =? 2) && _is_leap y then 29 else _DAYS_IN_MONTH m.

Definition _days_before_month (y m : Z) : Z :=
  _DAYS_BEFORE_MONTH m + (if (2 <? m) && _is_leap y then 1 else 0).

(** [_ymd2ord] *)
Definition _ymd2ord (y m d : Z) : Z :=
  _days_before_year y + _days_before_month y m + d.

Definition _DI400Y : Z := 146097.
Definition _DI100Y : Z := 36524.
Definition _DI4Y : Z := 1461.

(** [_ord2ymd] *)
Definition _ord2ymd (n0 : Z) : Z * Z * Z :=
  let n := n0 - 1 in
  let n400 := n / _DI400Y in
  let n := n mod _DI400Y in
  let yr := n400 * 400 + 1 in
  let n100 := n / _DI100Y in
  let n := n mod _DI100Y in
  let n4 := n / _DI4Y in
  let n := n mod _DI4Y in
  let n1 := n / 365 in
  let n := n mod 365 in
  let yr := yr + n100 * 100 + n4 * 4 + n1 in
  if (n1 =? 4) || (n100 =? 4) then (yr - 1, 12, 31)
  else
    let leapyear := (n1 =? 3) && (negb (n4 =? 24) || (n100 =? 3)) in
    let mth := Z.shiftr (n + 50) 5 in
    let preceding :=
      _DAYS_BEFORE_MONTH mth + (if (2 <? mth) && leapyear then 1 else 0) in
    if n <? preceding then
      let mth := mth - 1 in
      let preceding :=
        preceding
        - (_DAYS_IN_MONTH mth + (if (mth =? 2) && leapyear then 1 else 0)) in
      (yr, mth, n - preceding + 1)
    else (yr, mth, n - preceding + 1).

(** The range checks of the [datetime] constructor. *)
Definition valid (t : datetime) : bool :=
  (MINYEAR <=? year t) && (year t <=? MAXYEAR)
  && (1 <=? month t) && (month t <=? 12)
  && (1 <=? day t) && (day t <=? _days_in_month (year t) (month t))
  && (0 <=? hour t) && (hour t <=? 23)
  && (0 <=? minute t) && (minute t <=? 59)
  && (0 <=? second t) && (second t <=? 59)
  && (0 <=? microsecond t) && (microsecond t <=? 999999).

Definition toordinal (t : datetime) : Z :=
  _ymd2ord (year t) (month t) (day t).

(** [start + datetime.timedelta(hours=i)], following [datetime.__add__]:
    the time of day is turned into seconds, the hours are added, the sum
    is normalised into days and seconds, and the day count must be a
    representable ordinal.  A [timedelta] of more than 999999999 days
    cannot be built; that is an [OverflowError] as well. *)
Definition add_hours (t : datetime) (i : Z) : result datetime :=
  let secs := hour t * 3600 + minute t * 60 + second t + i * 3600 in
  let days := toordinal t + secs / 86400 in
  let secs := secs mod 86400 in
  if 999999999 <? Z.abs (i * 3600 / 86400) then Raise OverflowError
  else if (0 <? days) && (days <=? _MAXORDINAL) then
    let '(y, m, d) := _ord2ymd days in
    Ok {| year := y; month := m; day := d;
          hour := secs / 3600;
          minute := (secs mod 3600) / 60;
          second := (secs mod 3600) mod 60;
          microsecond := microsecond t |}
  else Raise OverflowError.

(** *** [strftime] *)

Definition digit (d : Z) : ascii := ascii_of_nat (48 + Z.to_nat (d mod 10)).

(** [w] decimal digits of [n], zero padded: the C conversions [%02d],
    [%04d] and [%06d] on a number that fits. *)
Fixpoint dec_pad (w : nat) (n : Z) : string :=
  match w with
  | O => EmptyString
  | S w' => String.append (dec_pad w' (n / 10)) (String (digit n) EmptyString)
  end.

(** One conversion.  The numeric conversions the notebooks use, and their
    siblings, are those of the Python documentation ([%Y] is the year with
    century, [0001] to [9999]); the locale and platform dependent ones are
    left out. *)
Definition directive (c : ascii) (t : datetime) : result string :=
  if Ascii.eqb c "Y" then Ok (dec_pad 4 (year t))
  else if Ascii.eqb c "m" then Ok (dec_pad 2 (month t))
  else if Ascii.eqb c "d" then Ok (dec_pad 2 (day t))
  else if Ascii.eqb c "H" then Ok (dec_pad 2 (hour t))
  else if Ascii.eqb c "M" then Ok (dec_pad 2 (minute t))
  else if Ascii.eqb c "S" then Ok (dec_pad 2 (second t))
  else if Ascii.eqb c "f" then Ok (dec_pad 6 (microsecond t))
  else if Ascii.eqb c "%" then Ok (String "%" EmptyString)
  else Raise Unsupported.

(** [t.strftime(fmt)]: every character is copied, except that a percent
    sign consumes the next character as a conversion. *)
Fixpoint strftime (fmt : string) (t : datetime) : result string :=
  match fmt with
  | EmptyString => Ok EmptyString
  | String c rest =>
      if Ascii.eqb c "%" then
        match rest with
        | EmptyString => Raise Unsupported
        | String d rest' =>
            rbind (directive d t) (fun s =>
            rbind (strftime rest' t) (fun r => Ok (String.append s r)))
        end
      else rbind (strftime rest t) (fun r => Ok (String c r))
  end.

End PyDatetime.

(** ** xarray: labelled arrays and datasets *)

Module Xarray.
Import PyDatetime.

(** An array element.  Numbers are kept as the stored payload and are
    never interpreted: the archive holds half-precision floats, and the
    statistics computed on them enter below as a function parameter.
    [SCrs] is the projection object MetPy stores in its [metpy_crs]
    coordinate, given by its CF attributes. *)
Inductive scalar : Type :=
  | SNone
  | STime (t : datetime)
  | SNum (payload : Z)
  | SCrs (cf : gmap string string).

#[global] Instance scalar_eq_dec : EqDecision scalar.
Proof. solve_decision. Defined.

(** [xarray.Variable]: dimension names, shape, the values in row-major
    order, and attributes. *)
Record XrVariable : Type := mkVariable {
  vdims : list string;
  vshape : list nat;
  vvalues : list scalar;
  vattrs : gmap string string
}.

#[global] Instance Variable_eq_dec : EqDecision XrVariable.
Proof. solve_decision. Defined.

(** [xarray.Dataset]: [_variables], [_coord_names], [_dims], [_attrs]. *)
Record Dataset : Type := mkDataset {
  variables : gmap string XrVariable;
  coord_names : gset string;
  dims : gmap string nat;
  attrs : gmap string string
}.

#[global] Instance Dataset_eq_dec : EqDecision Dataset.
Proof. solve_decision. Defined.

(** [xarray.DataArray]: one variable with the coordinates that lie on its
    dimensions. *)
Record DataArray : Type := mkDataArray {
  da_name : string;
  da_variable : XrVariable;
  da_coords : gmap string XrVariable
}.

Definition scalar_variable (s : scalar) : XrVariable :=
  {| vdims := []; vshape := []; vvalues := [s]; vattrs := ∅ |}.

(** The data variables are the variables that are not coordinates. *)
Definition data_vars (ds : Dataset) : gmap string XrVariable :=
  filter (λ kv, kv.1 ∉ coord_names ds) (variables ds).

(** [Dataset.__bool__] is [bool(self.data_vars)]. *)
Definition ds_bool (ds : Dataset) : bool :=
  negb (bool_decide (data_vars ds = ∅)).

(** *** [merge_attrs] *)

Inductive combine_attrs : Type := Override | DropConflicts.

(** One round of the [drop_conflicts] loop: keys that are neither present
    nor dropped are added, keys whose value differs from the incoming one
    are removed, and the removed keys are remembered for the rest of this
    call. *)
Definition drop_conflicts_step
    (acc : gmap string string * gset string) (a : gmap string string)
    : gmap string string * gset string :=
  let res1 := acc.1 ∪ filter (λ kv, kv.1 ∉ acc.2) a in
  let res2 := filter (λ kv, a !! kv.1 = None ∨ a !! kv.1 = Some kv.2) res1 in
  (res2, acc.2 ∪ (dom a ∖ dom res2)).

Definition merge_attrs (mode : combine_attrs) (l : list (gmap string string))
    : gmap string string :=
  match mode with
  | Override => default ∅ (head l)
  | DropConflicts => (foldl drop_conflicts_step (∅, ∅) l).1
  end.

(** *** [concat] *)

(** Give [v] the dimension [dim] of length [len] in front, repeating its
    values ([Variable.set_dims]); a variable that has [dim] must have it
    in front and with that length. *)
Definition expand (dim : string) (len : nat) (v : XrVariable) : option XrVariable :=
  if bool_decide (dim ∈ vdims v) then
    if bool_decide (head (vdims v) = Some dim ∧ head (vshape v) = Some len)
    then Some v else None
  else Some {| vdims := dim :: vdims v;
               vshape := len :: vshape v;
               vvalues := mjoin (replicate len (vvalues v));
               vattrs := vattrs v |}.

Definition same_data (v w : XrVariable) : bool :=
  bool_decide (vdims v = vdims w ∧ vshape v = vshape w ∧ vvalues v = vvalues w).

(** Whether the variable [name] is stacked along [dim].  With the
    defaults [data_vars="all"] and [coords="different"] these are the
    data variables, the coordinate [dim] itself and the variables that
    have the dimension in some dataset. *)
Definition concat_over (dim name : string) (isdata : bool)
    (items : list (nat * XrVariable)) : bool :=
  isdata || bool_decide (name = dim)
  || existsb (λ it, bool_decide (dim ∈ vdims it.2)) items.

(** The variable [name] of the result, from the variable of that name in
    each dataset paired with the dataset's length along [dim].  A
    stacked variable is brought to the common dimensions and its values
    are appended; any other coordinate has to agree in all datasets and
    is taken from the first. *)
Definition concat_var (dim name : string) (isdata : bool)
    (mode : combine_attrs) (items : list (nat * XrVariable)) : option XrVariable :=
  if concat_over dim name isdata items
  then
    ex ← mapM (λ it, expand dim it.1 it.2) items;
    e0 ← head ex;
    if forallb (λ e, bool_decide (vdims e = vdims e0
                                  ∧ tail (vshape e) = tail (vshape e0))) ex
    then Some {| vdims := vdims e0;
                 vshape := sum_list (fst <$> items) :: tail (vshape e0);
                 vvalues := mjoin (vvalues <$> ex);
                 vattrs := merge_attrs mode (vattrs <$> (snd <$> items)) |}
    else None
  else
    v0 ← head (snd <$> items);
    if forallb (λ it, same_data it.2 v0) items then Some v0 else None.

(** The length a dataset contributes along [dim]. *)
Definition concat_len (dim : string) (ds : Dataset) : nat :=
  default 1%nat (dims ds !! dim).

Definition concat_items (dim name : string) (dss : list Dataset)
    : option (list (nat * XrVariable)) :=
  mapM (λ ds, pair (concat_len dim ds) <$> variables ds !! name) dss.

(** The variable [name] of the concatenation of [dss], whose first
    dataset is [d0]. *)
Definition concat_at (dim : string) (mode : combine_attrs)
    (dss : list Dataset) (d0 : Dataset) (name : string) : option XrVariable :=
  concat_items dim name dss
    ≫= concat_var dim name (bool_decide (name ∉ coord_names d0)) mode.

(** [d] has the variables, the coordinates and, apart from [dim], the
    dimensions of [d0]. *)
Definition fits (dim : string) (d0 d : Dataset) : Prop :=
  dom (variables d) = dom (variables d0)
  ∧ coord_names d = coord_names d0
  ∧ delete dim (dims d) = delete dim (dims d0).

#[global] Instance fits_dec dim d0 d : Decision (fits dim d0 d).
Proof. unfold fits. apply _. Defined.

(** [xr.concat(dss, dim=dim, combine_attrs=mode)].  The datasets must
    fit the first one; where xarray would align or broadcast differing
    ones the outcome is [Unsupported]. *)
Definition concat (dss : list Dataset) (dim : string) (mode : combine_attrs)
    : result Dataset :=
  match dss with
  | [] => Raise ValueError
  | d0 :: _ =>
      if forallb (λ d, bool_decide (fits dim d0 d)) dss
      then
        let vars := map_imap (λ k _, concat_at dim mode dss d0 k) (variables d0) in
        if bool_decide (dom vars = dom (variables d0)
                        ∧ (is_Some (vars !! dim) ∨ data_vars d0 ≠ ∅))
        then Ok {| variables := vars;
                   coord_names :=
                     if bool_decide (is_Some (vars !! dim))
                     then coord_names d0 ∪ {[dim]} else coord_names d0;
                   dims := <[dim := sum_list (concat_len dim <$> dss)]> (dims d0);
                   attrs := merge_attrs mode (attrs <$> dss) |}
        else Raise Unsupported
      else Raise Unsupported
  end.

(** *** Renaming, coordinates and item access *)

Definition rename_key (nd : gmap string string) (k : string) : string :=
  default k (nd !! k).

Definition rename_variable (nd : gmap string string) (v : XrVariable) : XrVariable :=
  {| vdims := rename_key nd <$> vdims v;
     vshape := vshape v;
     vvalues := vvalues v;
     vattrs := vattrs v |}.

(** [ds.rename(name_dict)]: every old name must be a variable or a
    dimension, and two variables may not end up under one name (both are
    a [ValueError]).  Two dimensions under one name would be resolved by
    dictionary order, which is not modelled. *)
Definition rename (nd : gmap string string) (ds : Dataset) : result Dataset :=
  if bool_decide (dom nd ⊆ dom (variables ds) ∪ dom (dims ds)) then
    if bool_decide (NoDup (rename_key nd <$> (map_to_list (variables ds)).*1)) then
      if bool_decide (NoDup (rename_key nd <$> (map_to_list (dims ds)).*1)) then
        Ok {| variables :=
                rename_variable nd
                  <$> (kmap (M2 := gmap string) (rename_key nd) (variables ds));
              coord_names := set_map (rename_key nd) (coord_names ds);
              dims := kmap (M2 := gmap string) (rename_key nd) (dims ds);
              attrs := attrs ds |}
      else Raise Unsupported
    else Raise ValueError
  else Raise ValueError.

(** [ds.set_coords(name)] *)
Definition set_coords (name : string) (ds : Dataset) : result Dataset :=
  if bool_decide (name ∈ dom (variables ds)) then
    Ok {| variables := variables ds;
          coord_names := coord_names ds ∪ {[name]};
          dims := dims ds;
          attrs := attrs ds |}
  else Raise ValueError.

(** [ds[key] = value] for a scalar value: the variable [key] becomes a
    zero-dimensional variable.  A name that is already a dimension is
    rejected by xarray; replacing an array of that name would change the
    dimensions of the dataset and is not modelled. *)
Definition setitem_scalar (key : string) (s : scalar) (ds : Dataset)
    : result Dataset :=
  if bool_decide (key ∈ dom (dims ds)) then Raise ValueError
  else
    match variables ds !! key with
    | Some v =>
        if bool_decide (vdims v = []) then
          Ok {| variables := <[key := scalar_variable s]> (variables ds);
                coord_names := coord_names ds;
                dims := dims ds;
                attrs := attrs ds |}
        else Raise Unsupported
    | None =>
        Ok {| variables := <[key := scalar_variable s]> (variables ds);
              coord_names := coord_names ds;
              dims := dims ds;
              attrs := attrs ds |}
    end.

(** [ds[key]] (also [ds.key]): the variable with the coordinates whose
    dimensions are among its own.  For a dimension without a coordinate
    xarray makes up a range; that case is not modelled. *)
Definition getitem (ds : Dataset) (key : string) : result DataArray :=
  match variables ds !! key with
  | Some v =>
      Ok {| da_name := key;
            da_variable := v;
            da_coords :=
              filter (λ kv, kv.1 ∈ coord_names ds ∧ vdims kv.2 ⊆ vdims v)
                     (variables ds) |}
  | None =>
      if bool_decide (key ∈ dom (dims ds)) then Raise Unsupported
      else Raise KeyError
  end.

Definition var_sizes (v : XrVariable) : gmap string nat :=
  list_to_map (zip (vdims v) (vshape v)).

(** Two maps that give the same value to every key they share. *)
Definition agree {A : Type} `{EqDecision A} (m1 m2 : gmap string A) : bool :=
  bool_decide (map_Forall (λ k x, m2 !! k = None ∨ m2 !! k = Some x) m1).

(** [ds[key] = da] for a [DataArray] ([Dataset.update]): coordinates of
    [da] that are not among its dimensions and are coordinates of [ds]
    already are dropped from [da].  The sizes of the dimensions must
    fit.  Not modelled: coordinates of [da] that would come along into
    [ds], re-indexing against an index that [ds] already has, and
    overwriting an existing variable. *)
Definition setitem_da (key : string) (da : DataArray) (ds : Dataset)
    : result Dataset :=
  let v := da_variable da in
  let extra :=
    filter (λ kv, kv.1 ≠ key
                  ∧ (kv.1 ∈ vdims v ∨ (kv.1 ∉ coord_names ds)))
           (da_coords da) in
  if bool_decide ((key ∉ dom (variables ds))
                  ∧ Forall (λ d, d ∉ dom (variables ds)) (vdims v)
                  ∧ extra = ∅)
  then
    if agree (var_sizes v) (dims ds) then
      Ok {| variables := <[key := v]> (variables ds);
            coord_names :=
              if bool_decide (key ∈ vdims v)
              then coord_names ds ∪ {[key]} else coord_names ds;
            dims := dims ds ∪ var_sizes v;
            attrs := attrs ds |}
    else Raise ValueError
  else Raise Unsupported.

(** *** Merging the datasets of [open_mfdataset] *)

(** Python's order on tuples of strings. *)
Fixpoint names_ltb (l1 l2 : list string) : bool :=
  match l1, l2 with
  | [], [] => false
  | [], _ :: _ => true
  | _ :: _, [] => false
  | a :: l1', b :: l2' =>
      if String.ltb a b then true
      else if String.eqb a b then names_ltb l1' l2' else false
  end.

Definition vars_as_keys (ds : Dataset) : list string :=
  merge_sort (λ a b, Is_true (String.leb a b)) (elements (dom (data_vars ds))).

(** [combine_by_coords] on two datasets with different sets of data
    variables sorts them by the names of their data variables and merges
    them; the attributes are those of the first in that order
    ([combine_attrs="override"]).  Variables and dimensions that both
    have must be identical, and a name is a coordinate in both or in
    neither. *)
Definition merge2 (a b : Dataset) : result Dataset :=
  if bool_decide (vars_as_keys a ≠ vars_as_keys b)
     && agree (dims a) (dims b)
     && agree (variables a) (variables b)
     && bool_decide (coord_names a ∩ dom (variables b) ⊆ coord_names b
                     ∧ coord_names b ∩ dom (variables a) ⊆ coord_names a)
  then
    Ok {| variables := variables a ∪ variables b;
          coord_names := coord_names a ∪ coord_names b;
          dims := dims a ∪ dims b;
          attrs := if names_ltb (vars_as_keys b) (vars_as_keys a)
                   then attrs b else attrs a |}
  else Raise Unsupported.

(** *** Reduction over a dimension *)

Definition product (l : list nat) : nat := foldr Nat.mul 1%nat l.

Definition index_of (d : string) (l : list string) : option nat :=
  fst <$> list_find (λ x, x = d) l.

(** The array of shape [outer * n * inner] reduced along its middle
    axis: the cell [(o, j)] of the result is [f] applied to the [n]
    values at [(o, 0, j)], ..., [(o, n - 1, j)]. *)
Definition reduce_values (f : list scalar -> scalar) (outer n inner : nat)
    (vals : list scalar) : list scalar :=
  o ← seq 0 outer;
  j ← seq 0 inner;
  [f ((λ i, default SNone (vals !! ((o * n + i) * inner + j)%nat)) <$> seq 0 n)].

Definition reduce_variable (f : list scalar -> scalar) (dim : string)
    (v : XrVariable) : option XrVariable :=
  k ← index_of dim (vdims v);
  n ← vshape v !! k;
  Some {| vdims := delete k (vdims v);
          vshape := delete k (vshape v);
          vvalues := reduce_values f (product (take k (vshape v))) n
                                   (product (drop (S k) (vshape v))) (vvalues v);
          vattrs := ∅ |}.

(** [da.std(dim=dim)], [da.mean(dim=dim)]: the statistic [f] along [dim];
    attributes are not kept, and coordinates along [dim] are dropped. *)
Definition da_reduce (f : list scalar -> scalar) (dim : string) (da : DataArray)
    : result DataArray :=
  match reduce_variable f dim (da_variable da) with
  | Some v =>
      Ok {| da_name := da_name da;
            da_variable := v;
            da_coords := filter (λ kv, dim ∉ vdims kv.2) (da_coords da) |}
  | None => Raise ValueError
  end.

(** [da.values] *)
Definition da_values (da : DataArray) : list scalar := vvalues (da_variable da).

End Xarray.

(** ** cartopy / pyproj: the projection and its CF description *)

Module Cartopy.

(** A projection by its PROJ parameters (numbers as written in the
    notebooks). *)
Record Projection : Type := mkProjection {
  proj : string;
  lon_0 : string;
  lat_0 : string;
  lat_1 : string;
  lat_2 : string;
  semi_major : string;
  semi_minor : string
}.

(** [projection.to_cf()]: the CF grid mapping attributes.  PROJ's [lcc]
    is CF's [lambert_conformal_conic]; other projections are not
    modelled, and the WKT text and datum names of the export are left
    out. *)
Definition to_cf (p : Projection) : result (gmap string string) :=
  if String.eqb (proj p) "lcc" then
    Ok (<["grid_mapping_name" := "lambert_conformal_conic"]>
       (<["standard_parallel" := "(" +:+ lat_1 p +:+ ", " +:+ lat_2 p +:+ ")"]>
       (<["latitude_of_projection_origin" := lat_0 p]>
       (<["longitude_of_central_meridian" := lon_0 p]>
       (<["false_easting" := "0.0"]>
       (<["false_northing" := "0.0"]>
       (<["semi_major_axis" := semi_major p]>
       (<["semi_minor_axis" := semi_minor p]> ∅))))))))
  else Raise Unsupported.

End Cartopy.

(** ** MetPy's dataset accessor *)

Module Metpy.
Import Xarray.

(** [ds.metpy.assign_crs(cf)]: a scalar coordinate [metpy_crs] holding
    the projection. *)
Definition assign_crs (cf : gmap string string) (ds : Dataset) : result Dataset :=
  rbind (setitem_scalar "metpy_crs" (SCrs cf) ds) (fun d =>
  Ok {| variables := variables d;
        coord_names := coord_names d ∪ {["metpy_crs"]};
        dims := dims d;
        attrs := attrs d |}).

Section Transform.

(** The inverse projection of pyproj: from a projection and a grid
    point [(x, y)] to [(longitude, latitude)].  It is floating point
    geodesy and stays a parameter. *)
Variable transform : gmap string string -> scalar -> scalar -> scalar * scalar.

Definition crs_of (ds : Dataset) : option (gmap string string) :=
  v ← variables ds !! "metpy_crs";
  match vvalues v with
  | [SCrs cf] => if bool_decide ("metpy_crs" ∈ coord_names ds) then Some cf else None
  | _ => None
  end.

(** A one-dimensional coordinate along the dimension of its own name. *)
Definition axis (ds : Dataset) (name : string) : option (list scalar) :=
  v ← variables ds !! name;
  if bool_decide (name ∈ coord_names ds ∧ vdims v = [name]
                  ∧ vshape v = [length (vvalues v)])
  then Some (vvalues v) else None.

Definition has_grid_variable (ds : Dataset) : bool :=
  bool_decide (map_Exists (λ _ v, "y" ∈ vdims v ∧ "x" ∈ vdims v) (data_vars ds)).

Definition lonlat_variable (pick : scalar * scalar -> scalar)
    (cf : gmap string string) (xs ys : list scalar)
    (units name : string) : XrVariable :=
  {| vdims := ["y"; "x"];
     vshape := [length ys; length xs];
     vvalues := yv ← ys; xv ← xs; [pick (transform cf xv yv)];
     vattrs := <["units" := units]> (<["standard_name" := name]> ∅) |}.

(** [ds.metpy.assign_latitude_longitude()]: two-dimensional
    [latitude] and [longitude] coordinates over [(y, x)], computed from
    the [x] and [y] coordinates through the projection.  A projection
    must have been assigned ([AttributeError] otherwise).  A dataset
    without a data variable on the grid, or one that has these
    coordinates already, is outside the modelled fragment. *)
Definition assign_latitude_longitude (ds : Dataset) : result Dataset :=
  match crs_of ds with
  | None => Raise AttributeError
  | Some cf =>
      match axis ds "x", axis ds "y" with
      | Some xs, Some ys =>
          if has_grid_variable ds
             && bool_decide ("latitude" ∉ dom (variables ds))
             && bool_decide ("longitude" ∉ dom (variables ds))
          then
            Ok {| variables :=
                    <["latitude" :=
                        lonlat_variable snd cf xs ys "degrees_north" "latitude"]>
                    (<["longitude" :=
                        lonlat_variable fst cf xs ys "degrees_east" "longitude"]>
                     (variables ds));
                  coord_names := coord_names ds ∪ {["latitude"; "longitude"]};
                  dims := dims ds;
                  attrs := attrs ds |}
          else Raise Unsupported
      | _, _ => Raise Unsupported
      end
  end.

End Transform.

End Metpy.

(** ** Remote opens: s3fs and the zarr engine *)

Module Remote.
Import Xarray.

(** What the program does to the object store. *)
Inductive event : Type :=
  | EvOpen (url : string).

#[global] Instance event_eq_dec : EqDecision event.
Proof. solve_decision. Defined.

(** Computations that may raise and that log their opens, oldest first. *)
Definition M (A : Type) : Type := list event -> result A * list event.

Definition mret {A : Type} (a : A) : M A := fun tr => (Ok a, tr).

Definition mbind {A B : Type} (c : M A) (k : A -> M B) : M B :=
  fun tr =>
    match c tr with
    | (Ok a, tr') => k a tr'
    | (Raise e, tr') => (Raise e, tr')
    end.

Definition lift {A : Type} (r : result A) : M A := fun tr => (r, tr).

Definition run {A : Type} (c : M A) : result A * list event := c [].

Fixpoint for_each {A B : Type} (body : B -> A -> M B) (l : list A) (acc : B)
    : M B :=
  match l with
  | [] => mret acc
  | x :: l' => mbind (body acc x) (for_each body l')
  end.

Fixpoint collect {A B : Type} (body : A -> M B) (l : list A) : M (list B) :=
  match l with
  | [] => mret []
  | x :: l' =>
      mbind (body x) (fun y => mbind (collect body l') (fun ys => mret (y :: ys)))
  end.

Section Store.

(** The bucket as the zarr engine decodes it: the dataset of the group
    at a URL, if there is one. *)
Variable store : string -> option Dataset.

(** [xr.open_dataset(s3fs.S3Map(url, s3=fs), engine="zarr")], also
    [xr.open_zarr]. *)
Definition open_dataset (url : string) : M Dataset :=
  fun tr => (of_option FileNotFoundError (store url), tr ++ [EvOpen url]).

(** [xr.open_mfdataset([S3Map(url) for url in urls], engine="zarr")]
    on the two URLs the notebooks pass. *)
Definition open_mfdataset (urls : list string) : M Dataset :=
  mbind (collect open_dataset urls) (fun dss =>
  match dss with
  | [a] => mret a
  | [a; b] => lift (merge2 a b)
  | _ => lift (Raise Unsupported)
  end).

End Store.

End Remote.

Notation "'let*' x := c 'in' k" := (Remote.mbind c (fun x => k))
  (at level 10, x name, c at level 100, k at level 200).

(** ** The repository's code *)

Definition px : string := "projection_x_coordinate".
Definition py : string := "projection_y_coordinate".

(** The keyword arguments [projection_x_coordinate="x",
    projection_y_coordinate="y"] of every [rename] call. *)
Definition xy_names : gmap string string := <[px := "x"]> (<[py := "y"]> ∅).

(** *** [part_000]: analysis files through [open_mfdataset] *)

Module Part000.
Import PyDatetime Xarray Metpy Remote.

(** The keyword arguments of [assign_crs]. *)
Definition crs_kwargs : gmap string string :=
  <["grid_mapping_name" := "lambert_conformal_conic"]>
  (<["longitude_of_central_meridian" := "-97.5"]>
  (<["latitude_of_projection_origin" := "38.5"]>
  (<["standard_parallel" := "38.5"]> ∅))).

(** The f-string handed to [strftime]: the level and the variable name
    are spliced into the format before the date is formatted. *)
Definition group_url_format (level param_short_name : string) : string :=
  "s3://hrrrzarr/sfc/%Y%m%d/%Y%m%d_%Hz_anl.zarr/" +:+ level +:+ "/"
    +:+ param_short_name.

(** [not combined_ds] *)
Definition py_not (combined_ds : option Dataset) : bool :=
  match combined_ds with
  | None => true
  | Some ds => negb (ds_bool ds)
  end.

Section Session.
Variable store : string -> option Dataset.
Variable transform : gmap string string -> scalar -> scalar -> scalar * scalar.

Definition load_dataset (urls : list string) : M Dataset :=
  let* ds := open_mfdataset store urls in
  let* ds := lift (rename xy_names ds) in
  let* ds := lift (assign_crs crs_kwargs ds) in
  let* ds := lift (assign_latitude_longitude transform ds) in
  let* ds := lift (set_coords "time" ds) in
  mret ds.

(** The first half of the loop body: the time of hour [i], the two
    URLs, and the dataset opened from them. *)
Definition load_hour (start_date : datetime) (level param_short_name : string)
    (i : Z) : M Dataset :=
  let* time := lift (add_hours start_date i) in
  let* group_url :=
    lift (strftime (group_url_format level param_short_name) time) in
  let subgroup_url := group_url +:+ "/" +:+ level in
  load_dataset [group_url; subgroup_url].

(** The second half: [if not combined_ds: ... else: xr.concat(...)]. *)
Definition combine_step (combined_ds : option Dataset) (partial_ds : Dataset)
    : result (option Dataset) :=
  if py_not combined_ds then Ok (Some partial_ds)
  else
    match combined_ds with
    | Some c =>
        rbind (concat [c; partial_ds] "time" DropConflicts) (fun r => Ok (Some r))
    | None => Ok (Some partial_ds)
    end.

Definition loop_body (start_date : datetime) (level param_short_name : string)
    (combined_ds : option Dataset) (i : Z) : M (option Dataset) :=
  let* partial_ds := load_hour start_date level param_short_name i in
  lift (combine_step combined_ds partial_ds).

(** The loop on datasets that are loaded already. *)
Fixpoint combine_all (combined_ds : option Dataset) (parts : list Dataset)
    : result (option Dataset) :=
  match parts with
  | [] => Ok combined_ds
  | p :: parts' =>
      rbind (combine_step combined_ds p) (fun c => combine_all c parts')
  end.

(** [load_combined_dataset]; the result is [None] when the loop never
    assigns [combined_ds]. *)
Definition load_combined_dataset (start_date : datetime) (num_hours : Z)
    (level param_short_name : string) : M (option Dataset) :=
  for_each (loop_body start_date level param_short_name)
           (seqZ 0 num_hours) None.

(** [ds.TMP.std(dim="time")], for the statistic [std] of the array
    library. *)
Definition std_dev (std : list scalar -> scalar) (ds : Dataset)
    : result DataArray :=
  rbind (getitem ds "TMP") (da_reduce std "time").

End Session.

End Part000.

(** *** [hrrr_zarr_one_day_analysis_not_mf.ipynb] *)

Module NotMf.
Import PyDatetime Xarray Metpy Remote Cartopy.

(** [ccrs.LambertConformal(central_longitude=262.5, central_latitude=38.5,
    standard_parallels=(38.5, 38.5), globe=Globe(6371229, 6371229))] *)
Definition projection : Projection :=
  {| proj := "lcc"; lon_0 := "262.5"; lat_0 := "38.5";
     lat_1 := "38.5"; lat_2 := "38.5";
     semi_major := "6371229"; semi_minor := "6371229" |}.

Definition group_url_format (level param_short_name : string) : string :=
  "s3://hrrrzarr/sfc/%Y%m%d/%Y%m%d_%Hz_anl.zarr/" +:+ level +:+ "/"
    +:+ param_short_name.

Definition time_value (time : option datetime) : scalar :=
  match time with
  | Some t => STime t
  | None => SNone
  end.

Section Session.
(** The bucket behind the session's file system handle [fs]. *)
Variable store : string -> option Dataset.
Variable transform : gmap string string -> scalar -> scalar -> scalar * scalar.

Definition load (url : string) (time : option datetime) : M Dataset :=
  let* ds := open_dataset store url in
  let* ds := lift (setitem_scalar "time" (time_value time) ds) in
  let* ds := lift (set_coords "time" ds) in
  let* ds := lift (rename xy_names ds) in
  mret ds.

(** The body of the loop that fills [datasets]. *)
Definition load_hour (start_date : datetime) (level param_short_name : string)
    (i : Z) : M Dataset :=
  let* time := lift (add_hours start_date i) in
  let* url := lift (strftime (group_url_format level param_short_name) time) in
  let subgroup_url := url +:+ "/" +:+ level in
  load subgroup_url (Some time).

(** [ds["x"] = grid["x"]; ds["y"] = grid["y"]] *)
Definition add_grid (grid ds : Dataset) : result Dataset :=
  rbind (getitem grid "x") (fun gx =>
  rbind (setitem_da "x" gx ds) (fun ds =>
  rbind (getitem grid "y") (fun gy =>
  setitem_da "y" gy ds))).

Definition load_combined_dataset (start_date : datetime) (num_hours : Z)
    (level param_short_name : string) : M Dataset :=
  let* group_url :=
    lift (strftime (group_url_format level param_short_name) start_date) in
  let* grid := load group_url None in
  let* datasets :=
    collect (load_hour start_date level param_short_name) (seqZ 0 num_hours) in
  let* ds := lift (concat datasets "time" Override) in
  let* ds := lift (add_grid grid ds) in
  let* cf := lift (to_cf projection) in
  let* ds := lift (assign_crs cf ds) in
  let* ds := lift (assign_latitude_longitude transform ds) in
  mret ds.

Definition std_dev (std : list scalar -> scalar) (ds : Dataset)
    : result DataArray :=
  rbind (getitem ds "TMP") (da_reduce std "time").

End Session.

End NotMf.

(** *** The projection notebook (second document of the same file) *)

Module ProjectionNotebook.
Import PyDatetime Xarray Metpy Remote Cartopy.

(** [ccrs.CRS(proj_params)] *)
Definition projection : Projection :=
  {| proj := "lcc"; lon_0 := "262.5"; lat_0 := "38.5";
     lat_1 := "38.5"; lat_2 := "38.5";
     semi_major := "6371229"; semi_minor := "6371229" |}.

Definition reference_time : datetime := mkDatetime 2021 7 5 19 0 0 0.
Definition var_name : string := "TMP".
Definition var_level : string := "surface".

Section Session.
Variable store : string -> option Dataset.
Variable transform : gmap string string -> scalar -> scalar -> scalar * scalar.

(** Here the date is formatted first and the level and variable are
    appended to the formatted root. *)
Definition load_example_data : M Dataset :=
  let* root_url :=
    lift (strftime "s3://hrrrzarr/sfc/%Y%m%d/%Y%m%d_%Hz_anl.zarr" reference_time) in
  open_mfdataset store
    [root_url +:+ "/" +:+ var_level +:+ "/" +:+ var_name;
     root_url +:+ "/" +:+ var_level +:+ "/" +:+ var_name +:+ "/" +:+ var_level].

Definition assign_coordinates (ds : Dataset) : result Dataset :=
  rbind (rename xy_names ds) (fun ds =>
  rbind (to_cf projection) (fun cf =>
  rbind (assign_crs cf ds) (fun ds =>
  assign_latitude_longitude transform ds))).

End Session.

End ProjectionNotebook.

(** *** [thread_locking.ipynb] *)

Module ThreadLocking.
Import Xarray Remote.

Definition path_forecast : string :=
  "hrrrzarr/sfc/20211124/20211124_00z_fcst.zarr/surface/PRES".

Section Session.
Variable store : string -> option Dataset.

(** [ds_from_s3 = xr.open_zarr(lookup(f"{path_forecast}/surface"))] *)
Definition ds_from_s3 : M Dataset :=
  open_dataset store (path_forecast +:+ "/surface").

(** [ds.PRES.mean(dim="time").values], for the statistic [mean] of the
    array library. *)
Definition mean_over_time (mean : list scalar -> scalar) (ds : Dataset)
    : result (list scalar) :=
  rbind (getitem ds "PRES") (fun pres =>
  rbind (da_reduce mean "time" pres) (fun m => Ok (da_values m))).

End Session.

End ThreadLocking.

(** *** The plotting cells *)

Module PlotCells.
Import Xarray.



End PlotCells.

(** ** The statements of the specification *)

Module Spec.
Import PyDatetime Xarray Remote.

(** [{date:%Y%m%d}] and [{hour:%H}] of the path convention. *)
Definition yyyymmdd (t : datetime) : string :=
  dec_pad 4 (year t) +:+ dec_pad 2 (month t) +:+ dec_pad 2 (day t).

Definition hh (t : datetime) : string := dec_pad 2 (hour t).

(** [bucket/sfc/{date}/{date}_{hour}z_anl.zarr/{level}/{variable}] *)
Definition group_url (t : datetime) (level variable : string) : string :=
  "s3://hrrrzarr/sfc/" +:+ yyyymmdd t +:+ "/" +:+ yyyymmdd t +:+ "_" +:+ hh t
    +:+ "z_anl.zarr/" +:+ level +:+ "/" +:+ variable.

(** [.../{level}/{variable}/{level}] *)
Definition subgroup_url (t : datetime) (level variable : string) : string :=
  group_url t level variable +:+ "/" +:+ level.


(** The seconds from the start of the calendar to [t]. *)
Definition epoch_seconds (t : datetime) : Z :=
  toordinal t * 86400 + hour t * 3600 + minute t * 60 + second t.

(** The values of the time coordinate, in order. *)
Definition time_values (ds : Dataset) : option (list scalar) :=
  vvalues <$> variables ds !! "time".

(** A dataset without its attributes and those of its variables. *)
Definition strip_variable (v : XrVariable) : XrVariable :=
  {| vdims := vdims v; vshape := vshape v; vvalues := vvalues v; vattrs := ∅ |}.

(** The [time] of [ds] is, attributes apart, the single value [s], and
    is not a dimension yet: what a dataset of one hour looks like before
    it is stacked. *)
Definition scalar_time (ds : Dataset) (s : scalar) : Prop :=
  strip_variable <$> variables ds !! "time" = Some (scalar_variable s)
  /\ dims ds !! "time" = None.

#[global] Instance scalar_time_dec ds s : Decision (scalar_time ds s).
Proof. unfold scalar_time. apply _. Defined.

Definition strip_attrs (ds : Dataset) : Dataset :=
  {| variables := strip_variable <$> variables ds;
     coord_names := coord_names ds;
     dims := dims ds;
     attrs := ∅ |}.

(** [a] carries the attributes of [b], on the dataset and on every
    variable. *)
Definition same_attrs (a b : Dataset) : Prop :=
  attrs a = attrs b /\ vattrs <$> variables a = vattrs <$> variables b.

#[global] Instance same_attrs_dec a b : Decision (same_attrs a b).
Proof. unfold same_attrs. apply _. Defined.

(** The reference the loop of [part_000] is compared with: the per-hour
    datasets gathered in a list and concatenated once along the time
    dimension, as the other notebook does. *)
Definition hourly_datasets (store : string -> option Dataset)
    (transform : gmap string string -> scalar -> scalar -> scalar * scalar)
    (start_date : datetime) (num_hours : Z) (level param_short_name : string)
    : M (list Dataset) :=
  collect (Part000.load_hour store transform start_date level param_short_name)
          (seqZ 0 num_hours).

Definition single_concat (store : string -> option Dataset)
    (transform : gmap string string -> scalar -> scalar -> scalar * scalar)
    (mode : combine_attrs)
    (start_date : datetime) (num_hours : Z) (level param_short_name : string)
    : M Dataset :=
  let* datasets :=
    hourly_datasets store transform start_date num_hours level param_short_name in
  lift (concat datasets "time" mode).

(** [ds] is [raw] with [projection_x_coordinate] and
    [projection_y_coordinate] renamed to [x] and [y]: the old names are
    gone, their variables are found under the new names, and every
    variable under another name (those in [later], which the next steps
    add, apart) is the one [raw] had under that name, up to the names
    of its dimensions. *)
Definition renamed (later : list string) (raw ds : Dataset) : Prop :=
  (px ∉ dom (variables ds))
  /\ (py ∉ dom (variables ds))
  /\ (forall v, variables raw !! px = Some v ->
       variables ds !! "x" = Some (rename_variable xy_names v))
  /\ (forall v, variables raw !! py = Some v ->
       variables ds !! "y" = Some (rename_variable xy_names v))
  /\ (forall k, k <> px -> k <> py -> k <> "x" -> k <> "y" -> k ∉ later ->
       variables ds !! k = rename_variable xy_names <$> variables raw !! k).

(** [ds] carries a Lambert conformal conic projection and the latitude
    and longitude derived through it from its [x] and [y]. *)
Definition georeferenced
    (transform : gmap string string -> scalar -> scalar -> scalar * scalar)
    (ds : Dataset) : Prop :=
  exists cf xs ys,
    Metpy.crs_of ds = Some cf
    /\ cf !! "grid_mapping_name" = Some "lambert_conformal_conic"
    /\ Metpy.axis ds "x" = Some xs
    /\ Metpy.axis ds "y" = Some ys
    /\ variables ds !! "latitude"
       = Some (Metpy.lonlat_variable transform snd cf xs ys "degrees_north" "latitude")
    /\ variables ds !! "longitude"
       = Some (Metpy.lonlat_variable transform fst cf xs ys "degrees_east" "longitude")
    /\ "latitude" ∈ coord_names ds
    /\ "longitude" ∈ coord_names ds.

(** The cell [(t, iy, ix)] of a [(time, y, x)] array in row-major order. *)
Definition cell (ny nx : nat) (vals : list scalar) (t iy ix : nat) : scalar :=
  default SNone (vals !! ((t * ny + iy) * nx + ix)%nat).

End Spec.

(** ** A miniature archive

    Three hours of one day on a two by two grid, laid out like the real
    bucket: the group of an hour holds the grid coordinates and the time
    stamp, its subgroup holds the data variable. *)

Module Mini.
Import PyDatetime Xarray Remote.

Definition stamp (h : Z) : datetime := mkDatetime 2021 4 1 h 0 0 0.

Definition group_ds (t : datetime) : Dataset :=
  {| variables :=
       <[px := {| vdims := [px]; vshape := [2%nat];
                  vvalues := [SNum 0; SNum 3000]; vattrs := ∅ |}]>
       (<[py := {| vdims := [py]; vshape := [2%nat];
                   vvalues := [SNum 0; SNum 3000]; vattrs := ∅ |}]>
       (<["time" := scalar_variable (STime t)]> ∅));
     coord_names := {[px; py]};
     dims := <[px := 2%nat]> (<[py := 2%nat]> ∅);
     attrs := ∅ |}.

Definition subgroup_ds (h : Z) : Dataset :=
  {| variables :=
       <["TMP" := {| vdims := [py; px]; vshape := [2%nat; 2%nat];
                     vvalues := [SNum (280 + h); SNum (281 + h);
                                 SNum (282 + h); SNum (283 + h)];
                     vattrs := ∅ |}]> ∅;
     coord_names := ∅;
     dims := <[px := 2%nat]> (<[py := 2%nat]> ∅);
     attrs := <["analysis_hour" := dec_pad 2 h]> ∅ |}.

Definition hour_url (h : Z) : string :=
  "s3://hrrrzarr/sfc/20210401/20210401_" +:+ dec_pad 2 h
    +:+ "z_anl.zarr/1000mb/TMP".

(** The bucket, with the time stamp of each hour given by [stamps]. *)
Definition bucket (stamps : Z -> datetime) (url : string) : option Dataset :=
  if String.eqb url (hour_url 0) then Some (group_ds (stamps 0))
  else if String.eqb url (hour_url 0 +:+ "/1000mb") then Some (subgroup_ds 0)
  else if String.eqb url (hour_url 1) then Some (group_ds (stamps 1))
  else if String.eqb url (hour_url 1 +:+ "/1000mb") then Some (subgroup_ds 1)
  else if String.eqb url (hour_url 2) then Some (group_ds (stamps 2))
  else if String.eqb url (hour_url 2 +:+ "/1000mb") then Some (subgroup_ds 2)
  else None.

(** Every hour stamped with its own time. *)
Definition store : string -> option Dataset := bucket stamp.

(** Hour 1 stamped like hour 0. *)
Definition stale_store : string -> option Dataset :=
  bucket (fun h => if h =? 1 then stamp 0 else stamp h).

(** The archive with the attributes taken off: all hours alike. *)
Definition uniform_store : string -> option Dataset :=
  fun url => Spec.strip_attrs <$> store url.


(** A stand-in for the inverse projection. *)
Definition transform (cf : gmap string string) (x y : scalar) : scalar * scalar :=
  (x, y).

Definition start : datetime := stamp 0.
Definition half_past : datetime := mkDatetime 2021 4 1 0 30 0 0.

(** Two hours of a variable over the grid, and a dataset that has it
    under the names the notebooks reduce. *)
Definition cube : XrVariable :=
  {| vdims := ["time"; "y"; "x"]; vshape := [2%nat; 2%nat; 2%nat];
     vvalues := [SNum 280; SNum 281; SNum 282; SNum 283;
                 SNum 290; SNum 291; SNum 292; SNum 293];
     vattrs := ∅ |}.

Definition cube_ds : Dataset :=
  {| variables := <["TMP" := cube]> (<["PRES" := cube]> ∅);
     coord_names := ∅;
     dims := <["time" := 2%nat]> (<["y" := 2%nat]> (<["x" := 2%nat]> ∅));
     attrs := ∅ |}.

(** A stand-in for a statistic. *)
Definition first_value (l : list scalar) : scalar := default SNone (head l).

End Mini.

(** * Properties *)

Import PyDatetime Xarray Metpy Remote Cartopy.

(** ** Strings and [strftime] *)

Lemma append_nil (s : string) : "" +:+ s = s.
Proof. reflexivity. Qed.

Lemma append_cons (c : ascii) (s r : string) :
  String c s +:+ r = String c (s +:+ r).
Proof. reflexivity. Qed.

Lemma append_assoc (a b c : string) : (a +:+ b) +:+ c = a +:+ (b +:+ c).
Proof.
  induction a as [|x a IH]; [reflexivity|].
  rewrite !append_cons. f_equal. exact IH.
Qed.




(** ** The calendar *)

Ltac Zify.zify_post_hook ::= Z.to_euclidean_division_equations.

Ltac bool_to_prop :=
  repeat match goal with
  | H : (_ && _) = true |- _ => apply andb_prop in H as [? ?]
  | H : (_ || _) = false |- _ => apply orb_false_elim in H as [? ?]
  | H : (_ && _) = false |- _ => apply andb_false_iff in H as [?|?]
  | H : (_ || _) = true |- _ => apply orb_prop in H as [?|?]
  | H : negb _ = true |- _ => apply negb_true_iff in H
  | H : negb _ = false |- _ => apply negb_false_iff in H
  | H : (_ =? _) = true |- _ => apply Z.eqb_eq in H
  | H : (_ =? _) = false |- _ => apply Z.eqb_neq in H
  | H : (_ <? _) = true |- _ => apply Z.ltb_lt in H
  | H : (_ <? _) = false |- _ => apply Z.ltb_ge in H
  | H : (_ <=? _) = true |- _ => apply Z.leb_le in H
  | H : (_ <=? _) = false |- _ => apply Z.leb_gt in H
  end.

Ltac eval_tables :=
  repeat match goal with
  | |- context [_DAYS_BEFORE_MONTH ?m] =>
      let v := eval vm_compute in (_DAYS_BEFORE_MONTH m) in
      change (_DAYS_BEFORE_MONTH m) with v
  | |- context [_DAYS_IN_MONTH ?m] =>
      let v := eval vm_compute in (_DAYS_IN_MONTH m) in
      change (_DAYS_IN_MONTH m) with v
  | |- context [Z.ltb 2 ?m] =>
      let v := eval vm_compute in (Z.ltb 2 m) in
      change (Z.ltb 2 m) with v
  | |- context [Z.eqb (?m - 1) 2] =>
      let v := eval vm_compute in (Z.eqb (m - 1) 2) in
      change (Z.eqb (m - 1) 2) with v
  end; cbn [andb].

(** [_ord2ymd] is a right inverse of [_ymd2ord]: the date it returns has
    the ordinal it was given. *)
Lemma ymd2ord_ord2ymd (n0 : Z) :
  let '(y, m, d) := _ord2ymd n0 in _ymd2ord y m d = n0.
Proof.
  unfold _ord2ymd. cbv zeta.
  set (n := n0 - 1).
  set (n400 := n / _DI400Y). set (r400 := n mod _DI400Y).
  set (n100 := r400 / _DI100Y). set (r100 := r400 mod _DI100Y).
  set (n4 := r100 / _DI4Y). set (r4 := r100 mod _DI4Y).
  set (n1 := r4 / 365). set (r1 := r4 mod 365).
  assert (Hn : n = n400 * 146097 + n100 * 36524 + n4 * 1461 + n1 * 365 + r1
               /\ 0 <= n100 <= 4 /\ 0 <= n4 <= 24 /\ 0 <= n1 <= 4 /\ 0 <= r1 < 365
               /\ 0 <= n100 * 36524 + n4 * 1461 + n1 * 365 + r1 < 146097
               /\ 0 <= n4 * 1461 + n1 * 365 + r1 < 36524
               /\ 0 <= n1 * 365 + r1 < 1461).
  { unfold n400, r400, n100, r100, n4, r4, n1, r1, _DI400Y, _DI100Y, _DI4Y in *. lia. }
  clearbody n400 r400 n100 r100 n4 r4 n1 r1.
  destruct Hn as (Hn & H100 & H4 & H1 & Hr1 & Hb & Hc & Hq).
  destruct ((n1 =? 4) || (n100 =? 4)) eqn:E; bool_to_prop.
  - unfold _ymd2ord, _days_before_month, _days_before_year, _is_leap.
    eval_tables. cbv zeta.
    destruct (_ && _) eqn:E'; bool_to_prop; subst n; lia.
  - unfold _ymd2ord, _days_before_month, _days_before_year, _is_leap.
    eval_tables. cbv zeta.
    destruct (_ && _) eqn:E'; bool_to_prop; subst n; lia.
  - rewrite Z.shiftr_div_pow2 by lia. change (2 ^ 5) with 32.
    set (mth := (r1 + 50) / 32).
    assert (Hm : 1 <= mth <= 12 /\ 32 * mth <= r1 + 50 < 32 * mth + 32)
      by (unfold mth; lia).
    clearbody mth.
    assert (mth = 1 \/ mth = 2 \/ mth = 3 \/ mth = 4 \/ mth = 5 \/ mth = 6 \/
            mth = 7 \/ mth = 8 \/ mth = 9 \/ mth = 10 \/ mth = 11 \/ mth = 12)
      as Hcase by lia.
    unfold _ymd2ord, _days_before_month, _days_before_year, _is_leap.
    cbv zeta.
    repeat (destruct Hcase as [->|Hcase]); [ .. | subst mth];
    eval_tables;
    repeat match goal with
    | |- context [if ?b then _ else _] => destruct b eqn:?
    end; eval_tables; bool_to_prop; subst n; lia.
Qed.

(** Adding hours adds that many times 3600 seconds, and yields a time of
    day in range. *)
Lemma add_hours_seconds (s t : datetime) (i : Z) :
  add_hours s i = Ok t ->
  Spec.epoch_seconds t = Spec.epoch_seconds s + i * 3600
  /\ 0 <= hour t < 24 /\ 0 <= minute t < 60 /\ 0 <= second t < 60
  /\ microsecond t = microsecond s.
Proof.
  unfold add_hours, Spec.epoch_seconds. cbv zeta.
  destruct (999999999 <? _); [discriminate|].
  destruct (_ && _); [|discriminate].
  set (secs := hour s * 3600 + minute s * 60 + second s + i * 3600).
  pose proof (ymd2ord_ord2ymd (toordinal s + secs / 86400)) as Hord.
  destruct (_ord2ymd _) as [[y m] d].
  intros [= <-]. unfold toordinal at 1. cbn [year month day hour minute second microsecond].
  rewrite Hord.
  assert (Hsecs : secs = hour s * 3600 + minute s * 60 + second s + i * 3600)
    by reflexivity.
  clearbody secs. lia.
Qed.

(** Distinct hour offsets give distinct times. *)
Lemma add_hours_inj (s t : datetime) (i j : Z) :
  add_hours s i = Ok t -> add_hours s j = Ok t -> i = j.
Proof.
  intros Hi Hj.
  apply add_hours_seconds in Hi as [Hi _], Hj as [Hj _]. lia.
Qed.

(** The hour wraps around 24 and carries into the date: rollover at
    midnight. *)
Lemma add_hours_rollover (s t : datetime) (i : Z) :
  valid s = true -> add_hours s i = Ok t ->
  hour t = (hour s + i) mod 24
  /\ toordinal t = toordinal s + (hour s + i) / 24
  /\ minute t = minute s /\ second t = second s.
Proof.
  intros Hv H. apply add_hours_seconds in H as (H & Hh & Hm & Hs & _).
  unfold valid in Hv. bool_to_prop. unfold Spec.epoch_seconds in H. lia.
Qed.

(** ** URL templating *)




(** The projection notebook formats the date first and appends the level
    and the name afterwards: there they are never read as conversions. *)
Lemma load_example_data_urls (store : string -> option Dataset) :
  ProjectionNotebook.load_example_data store
  = open_mfdataset store
      [Spec.group_url ProjectionNotebook.reference_time "surface" "TMP";
       Spec.subgroup_url ProjectionNotebook.reference_time "surface" "TMP"].
Proof. reflexivity. Qed.

(** ** No hours *)

(** Claim C9.  With [num_hours = 0] the loop of [part_000] does not run:
    the function returns [None], and the log of opens is as it was.  The
    same holds below zero, where [range] is empty as well. *)
Theorem no_hours_returns_none
    (store : string -> option Dataset)
    (transform : gmap string string -> scalar -> scalar -> scalar * scalar)
    (start_date : datetime) (num_hours : Z) (level param_short_name : string)
    (log : list event) :
  num_hours <= 0 ->
  seqZ 0 num_hours = []
  /\ Part000.load_combined_dataset store transform start_date num_hours level
       param_short_name log
     = (Ok None, log).
Proof.
  intros H. unfold Part000.load_combined_dataset.
  rewrite seqZ_nil by exact H. split; reflexivity.
Qed.

(** No hours on the miniature archive. *)
Lemma no_hours_returns_none_witness :
  run (Part000.load_combined_dataset Mini.store Mini.transform Mini.start 0
         "1000mb" "TMP")
  = (Ok None, []).
Proof.
  apply (no_hours_returns_none Mini.store Mini.transform Mini.start 0
           "1000mb" "TMP" []). lia.
Defined.

(** ** Reduction over the time dimension *)

Lemma bind_unit {A B : Type} (g : A -> B) (l : list A) :
  (x ← l; [g x]) = g <$> l.
Proof. induction l as [|a l IH]; [reflexivity|]. cbn. congruence. Qed.

Lemma index_of_head (d : string) (l : list string) :
  index_of d (d :: l) = Some 0%nat.
Proof. unfold index_of. cbn [list_find]. rewrite decide_True by reflexivity. reflexivity. Qed.

(** Reducing an array whose first axis is the reduced one. *)
Lemma reduce_values_first_axis (f : list scalar -> scalar) (n inner : nat)
    (vals : list scalar) :
  reduce_values f 1 n inner vals
  = (fun j => f ((fun i => default SNone (vals !! (i * inner + j)%nat)) <$> seq 0 n))
      <$> seq 0 inner.
Proof.
  unfold reduce_values. cbn [seq].
  rewrite bind_cons. change ([] ≫= _) with (@nil scalar).
  rewrite app_nil_r, bind_unit.
  apply list_fmap_ext. intros _ j _. do 2 f_equal.
Qed.

Lemma reduce_time_first (f : list scalar -> scalar) (ds : Dataset)
    (name dy dx : string) (v : XrVariable) (nt ny nx : nat) :
  variables ds !! name = Some v ->
  vdims v = ["time"; dy; dx] ->
  vshape v = [nt; ny; nx] ->
  dy <> "time" -> dx <> "time" ->
  exists r,
    rbind (getitem ds name) (da_reduce f "time") = Ok r
    /\ vdims (da_variable r) = [dy; dx]
    /\ vshape (da_variable r) = [ny; nx]
    /\ length (da_values r) = (ny * nx)%nat
    /\ (forall iy ix, (iy < ny)%nat -> (ix < nx)%nat ->
        da_values r !! (iy * nx + ix)%nat
        = Some (f ((fun t => Spec.cell ny nx (vvalues v) t iy ix) <$> seq 0 nt)))
    /\ ("time" ∉ vdims (da_variable r))
    /\ (forall k c, da_coords r !! k = Some c -> "time" ∉ vdims c).
Proof.
  intros Hv Hd Hs Hy Hx.
  unfold getitem. rewrite Hv. cbn [rbind]. unfold da_reduce, reduce_variable.
  cbn [da_variable da_name da_coords]. rewrite Hd, Hs, index_of_head.
  simpl.
  rewrite reduce_values_first_axis.
  eexists. split; [reflexivity|].
  unfold da_values. cbn [da_variable da_coords vdims vshape vvalues].
  repeat split.
  - rewrite length_fmap, length_seq. lia.
  - intros iy ix Hiy Hix.
    rewrite list_lookup_fmap, lookup_seq_lt by nia.
    cbn [fmap option_fmap option_map Nat.add]. do 2 f_equal.
    apply list_fmap_ext. intros _ t _. unfold Spec.cell. do 2 f_equal. lia.
  - rewrite !elem_of_cons, elem_of_nil. intros [?|[?|[]]]; congruence.
  - intros k c Hc. apply map_lookup_filter_Some in Hc as [_ Hc]. exact Hc.
Qed.

(** Claim C6.  The standard deviation and the mean are taken along the
    time dimension only.  For a variable over [(time, y, x)] of shape
    [(nt, ny, nx)] the result keeps the two spatial axes, has no time axis
    and no coordinate along time, and holds one value per grid cell: the
    statistic of the [nt] values of that cell. *)
Theorem reduction_over_time
    (stat : list scalar -> scalar) (ds_tmp ds_pres : Dataset)
    (dy dx : string) (v : XrVariable) (nt ny nx : nat) :
  variables ds_tmp !! "TMP" = Some v ->
  variables ds_pres !! "PRES" = Some v ->
  vdims v = ["time"; dy; dx] ->
  vshape v = [nt; ny; nx] ->
  dy <> "time" -> dx <> "time" ->
  exists r r',
    Part000.std_dev stat ds_tmp = Ok r
    /\ NotMf.std_dev stat ds_tmp = Ok r
    /\ ThreadLocking.mean_over_time stat ds_pres = Ok (da_values r')
    /\ da_values r' = da_values r
    /\ vdims (da_variable r) = [dy; dx]
    /\ vshape (da_variable r) = [ny; nx]
    /\ ("time" ∉ vdims (da_variable r))
    /\ (forall k c, da_coords r !! k = Some c -> "time" ∉ vdims c)
    /\ length (da_values r) = (ny * nx)%nat
    /\ (forall iy ix, (iy < ny)%nat -> (ix < nx)%nat ->
        da_values r !! (iy * nx + ix)%nat
        = Some (stat ((fun t => Spec.cell ny nx (vvalues v) t iy ix) <$> seq 0 nt))).
Proof.
  intros Ht Hp Hd Hs Hy Hx.
  destruct (reduce_time_first stat ds_tmp "TMP" dy dx v nt ny nx Ht Hd Hs Hy Hx)
    as (r & Hr & Hrd & Hrs & Hlen & Hval & Hnt & Hco).
  destruct (reduce_time_first stat ds_pres "PRES" dy dx v nt ny nx Hp Hd Hs Hy Hx)
    as (r' & Hr' & _ & _ & Hlen' & Hval' & _ & _).
  exists r, r'. unfold Part000.std_dev, NotMf.std_dev, ThreadLocking.mean_over_time.
  repeat split; try assumption.
  - unfold rbind in Hr' |- *. destruct (getitem ds_pres "PRES"); [|discriminate].
    rewrite Hr'. reflexivity.
  - apply list_eq. intros j.
    destruct (decide (j < ny * nx)%nat) as [Hj|Hj].
    + assert (nx <> 0%nat) by nia.
      rewrite (Nat.div_mod j nx) by assumption.
      rewrite (Nat.mul_comm nx).
      assert (j `div` nx < ny)%nat by (apply Nat.Div0.div_lt_upper_bound; lia).
      assert (j `mod` nx < nx)%nat by (apply Nat.mod_upper_bound; assumption).
      rewrite Hval, Hval' by assumption. reflexivity.
    + rewrite !lookup_ge_None_2 by lia. reflexivity.
Qed.

(** ** Renaming *)

(** Lookup in a map whose keys were renamed without collision. *)
Lemma lookup_kmap_nodup {A : Type} (f : string -> string) (m : gmap string A)
    (j : string) (x : A) :
  NoDup (f <$> (map_to_list m).*1) ->
  kmap (M2 := gmap string) f m !! j = Some x
  <-> exists k, j = f k /\ m !! k = Some x.
Proof.
  intros Hnd. unfold kmap.
  assert (Hnd' : NoDup (prod_map f id <$> map_to_list m).*1).
  { replace ((prod_map f id <$> map_to_list m).*1) with (f <$> (map_to_list m).*1);
      [exact Hnd|].
    clear Hnd. induction (map_to_list m) as [|[k y] l IH]; [reflexivity|].
    cbn. f_equal. exact IH. }
  rewrite <- (elem_of_list_to_map _ _ _ Hnd').
  rewrite list_elem_of_fmap. split.
  - intros [[k y] [Heq Hin]]. cbn in Heq. injection Heq as -> ->.
    exists k. split; [reflexivity|]. apply elem_of_map_to_list. exact Hin.
  - intros [k [-> Hk]]. exists (k, x). split; [reflexivity|].
    apply elem_of_map_to_list. exact Hk.
Qed.

Lemma rename_key_px : rename_key xy_names px = "x".
Proof. reflexivity. Qed.

Lemma rename_key_py : rename_key xy_names py = "y".
Proof. reflexivity. Qed.

Lemma rename_key_other (k : string) :
  k <> px -> k <> py -> rename_key xy_names k = k.
Proof.
  intros Hx Hy. unfold rename_key, xy_names.
  rewrite lookup_insert_ne by congruence.
  rewrite lookup_insert_ne by congruence.
  rewrite lookup_empty. reflexivity.
Qed.

Lemma rename_key_cases (k : string) :
  (k = px /\ rename_key xy_names k = "x")
  \/ (k = py /\ rename_key xy_names k = "y")
  \/ (k <> px /\ k <> py /\ rename_key xy_names k = k).
Proof.
  destruct (decide (k = px)) as [->|Hx]; [left; split; reflexivity|].
  destruct (decide (k = py)) as [->|Hy]; [right; left; split; reflexivity|].
  right; right. repeat split; try assumption. apply rename_key_other; assumption.
Qed.

(** What a successful [rename] returns. *)
Lemma rename_ok (nd : gmap string string) (ds ds' : Dataset) :
  rename nd ds = Ok ds' ->
  NoDup (rename_key nd <$> (map_to_list (variables ds)).*1)
  /\ variables ds'
     = rename_variable nd <$> kmap (M2 := gmap string) (rename_key nd) (variables ds)
  /\ coord_names ds' = set_map (rename_key nd) (coord_names ds)
  /\ dims ds' = kmap (M2 := gmap string) (rename_key nd) (dims ds)
  /\ attrs ds' = attrs ds.
Proof.
  unfold rename. repeat case_bool_decide; try discriminate.
  intros [= <-]. repeat split; assumption || reflexivity.
Qed.

Lemma lookup_rename (nd : gmap string string) (ds ds' : Dataset) (j : string)
    (w : XrVariable) :
  rename nd ds = Ok ds' ->
  variables ds' !! j = Some w
  <-> exists k v, j = rename_key nd k /\ variables ds !! k = Some v
                  /\ w = rename_variable nd v.
Proof.
  intros H. apply rename_ok in H as (Hnd & -> & _).
  rewrite lookup_fmap, fmap_Some. split.
  - intros [v [Hv ->]]. apply (lookup_kmap_nodup _ _ _ _ Hnd) in Hv as [k [-> Hk]].
    exists k, v. repeat split; assumption || reflexivity.
  - intros [k [v [-> [Hk ->]]]]. exists v. split; [|reflexivity].
    apply (lookup_kmap_nodup _ _ _ _ Hnd). exists k. split; [reflexivity|exact Hk].
Qed.

(** Renaming to [x] and [y] in the terms of the claim. *)
Lemma rename_xy_renamed (ds ds' : Dataset) :
  rename xy_names ds = Ok ds' -> Spec.renamed [] ds ds'.
Proof.
  intros H. unfold Spec.renamed. repeat split.
  - intros Hin. apply elem_of_dom in Hin as [w Hw].
    apply (lookup_rename _ _ _ _ _ H) in Hw as (k & v & Hk & _).
    destruct (rename_key_cases k) as [[_ E]|[[_ E]|[? [? E]]]];
      rewrite E in Hk; subst; discriminate || congruence.
  - intros Hin. apply elem_of_dom in Hin as [w Hw].
    apply (lookup_rename _ _ _ _ _ H) in Hw as (k & v & Hk & _).
    destruct (rename_key_cases k) as [[_ E]|[[_ E]|[? [? E]]]];
      rewrite E in Hk; subst; discriminate || congruence.
  - intros v Hv. apply (lookup_rename _ _ _ _ _ H). exists px, v.
    repeat split; assumption || reflexivity.
  - intros v Hv. apply (lookup_rename _ _ _ _ _ H). exists py, v.
    repeat split; assumption || reflexivity.
  - intros k Hx Hy Hx' Hy' _.
    destruct (variables ds !! k) as [v|] eqn:Hk; cbn.
    + apply (lookup_rename _ _ _ _ _ H). exists k, v.
      repeat split; try assumption || reflexivity.
      symmetry. apply rename_key_other; assumption.
    + destruct (variables ds' !! k) as [w|] eqn:Hw; [|reflexivity].
      apply (lookup_rename _ _ _ _ _ H) in Hw as (k0 & v & Hk0 & Hv & _).
      destruct (rename_key_cases k0) as [[_ E]|[[_ E]|[? [? E]]]];
        rewrite E in Hk0; subst; congruence.
Qed.

(** ** The effect monad *)

Lemma mbind_ok {A B : Type} (c : M A) (k : A -> M B) (log log' : list event) (b : B) :
  mbind c k log = (Ok b, log') ->
  exists a log1, c log = (Ok a, log1) /\ k a log1 = (Ok b, log').
Proof.
  unfold mbind. destruct (c log) as [[a|e] log1]; [|discriminate].
  intros H. exists a, log1. split; [reflexivity|exact H].
Qed.

Lemma lift_ok {A : Type} (r : result A) (log log' : list event) (a : A) :
  lift r log = (Ok a, log') -> r = Ok a /\ log' = log.
Proof. unfold lift. intros [= -> ->]. split; reflexivity. Qed.

Lemma mret_ok {A : Type} (x a : A) (log log' : list event) :
  mret x log = (Ok a, log') -> a = x /\ log' = log.
Proof. unfold mret. intros [= -> ->]. split; reflexivity. Qed.

Lemma rbind_ok {A B : Type} (r : result A) (k : A -> result B) (b : B) :
  rbind r k = Ok b -> exists a, r = Ok a /\ k a = Ok b.
Proof. destruct r as [a|e]; [|discriminate]. intros H. exists a. split; [reflexivity|exact H]. Qed.

(** Take a successful run apart, step by step. *)
Ltac inv_run :=
  repeat match goal with
  | H : mbind _ _ _ = (Ok _, _) |- _ =>
      let a := fresh "a" in let l := fresh "log" in
      let H1 := fresh "Hstep" in let H2 := fresh "Hrest" in
      apply mbind_ok in H as (a & l & H1 & H2)
  | H : lift _ _ = (Ok _, _) |- _ =>
      let H1 := fresh "Hval" in
      apply lift_ok in H as [H1 ->]
  | H : mret _ _ = (Ok _, _) |- _ =>
      apply mret_ok in H as [-> ->]
  | H : rbind _ _ = Ok _ |- _ =>
      let a := fresh "a" in
      let H1 := fresh "Hval" in let H2 := fresh "Hrest" in
      apply rbind_ok in H as (a & H1 & H2)
  end.

(** ** Coordinates and the projection *)

Lemma set_coords_ok (name : string) (ds ds' : Dataset) :
  set_coords name ds = Ok ds' ->
  name ∈ dom (variables ds)
  /\ variables ds' = variables ds
  /\ coord_names ds' = coord_names ds ∪ {[name]}
  /\ dims ds' = dims ds /\ attrs ds' = attrs ds.
Proof.
  unfold set_coords. case_bool_decide; [|discriminate].
  intros [= <-]. repeat split; assumption || reflexivity.
Qed.

Lemma setitem_scalar_ok (key : string) (s : scalar) (ds ds' : Dataset) :
  setitem_scalar key s ds = Ok ds' ->
  (key ∉ dom (dims ds))
  /\ variables ds' = <[key := scalar_variable s]> (variables ds)
  /\ coord_names ds' = coord_names ds
  /\ dims ds' = dims ds /\ attrs ds' = attrs ds.
Proof.
  unfold setitem_scalar. case_bool_decide; [discriminate|].
  destruct (variables ds !! key) as [v|].
  - case_bool_decide; [|discriminate].
    intros [= <-]. repeat split; assumption || reflexivity.
  - intros [= <-]. repeat split; assumption || reflexivity.
Qed.

Lemma assign_crs_ok (cf : gmap string string) (ds ds' : Dataset) :
  assign_crs cf ds = Ok ds' ->
  variables ds' = <["metpy_crs" := scalar_variable (SCrs cf)]> (variables ds)
  /\ coord_names ds' = coord_names ds ∪ {["metpy_crs"]}
  /\ dims ds' = dims ds /\ attrs ds' = attrs ds.
Proof.
  unfold assign_crs. intros H. inv_run.
  apply setitem_scalar_ok in Hval as (_ & Hv & Hc & Hd & Ha).
  injection Hrest as <-. cbn. rewrite Hv, Hc, Hd, Ha. repeat split; reflexivity.
Qed.

Lemma assign_latitude_longitude_ok
    (transform : gmap string string -> scalar -> scalar -> scalar * scalar)
    (ds ds' : Dataset) :
  assign_latitude_longitude transform ds = Ok ds' ->
  exists cf xs ys,
    crs_of ds = Some cf /\ axis ds "x" = Some xs /\ axis ds "y" = Some ys
    /\ variables ds'
       = <["latitude" := lonlat_variable transform snd cf xs ys "degrees_north" "latitude"]>
         (<["longitude" := lonlat_variable transform fst cf xs ys "degrees_east" "longitude"]>
          (variables ds))
    /\ coord_names ds' = coord_names ds ∪ {["latitude"; "longitude"]}
    /\ dims ds' = dims ds /\ attrs ds' = attrs ds.
Proof.
  unfold assign_latitude_longitude.
  destruct (crs_of ds) as [cf|]; [|discriminate].
  destruct (axis ds "x") as [xs|]; [|discriminate].
  destruct (axis ds "y") as [ys|]; [|discriminate].
  destruct (_ && _); [|discriminate].
  intros [= <-]. exists cf, xs, ys. repeat split; reflexivity.
Qed.

(** A coordinate axis survives steps that leave its variable alone and
    keep the coordinates. *)
Lemma axis_preserved (ds ds' : Dataset) (name : string) (vals : list scalar) :
  variables ds' !! name = variables ds !! name ->
  coord_names ds ⊆ coord_names ds' ->
  axis ds name = Some vals -> axis ds' name = Some vals.
Proof.
  unfold axis. intros -> Hsub.
  destruct (variables ds !! name) as [v|]; [|discriminate]. cbn.
  case_bool_decide as Hc; [|discriminate].
  intros H. rewrite bool_decide_true; [exact H|].
  destruct Hc as (? & ? & ?). repeat split; try assumption. set_solver.
Qed.

Lemma crs_of_preserved (ds ds' : Dataset) (cf : gmap string string) :
  variables ds' !! "metpy_crs" = variables ds !! "metpy_crs" ->
  coord_names ds ⊆ coord_names ds' ->
  crs_of ds = Some cf -> crs_of ds' = Some cf.
Proof.
  unfold crs_of. intros -> Hsub.
  destruct (variables ds !! "metpy_crs") as [v|]; [|discriminate]. cbn.
  destruct (vvalues v) as [|[| | |cf'] [|]]; try discriminate.
  case_bool_decide as Hc; [|discriminate].
  intros H. rewrite bool_decide_true; [exact H|]. set_solver.
Qed.

(** The two MetPy calls of every notebook, together. *)
Lemma georeference_steps
    (transform : gmap string string -> scalar -> scalar -> scalar * scalar)
    (cf : gmap string string) (d1 d2 d3 : Dataset) :
  cf !! "grid_mapping_name" = Some "lambert_conformal_conic" ->
  assign_crs cf d1 = Ok d2 ->
  assign_latitude_longitude transform d2 = Ok d3 ->
  Spec.georeferenced transform d3
  /\ (forall k, k <> "metpy_crs" -> k <> "latitude" -> k <> "longitude" ->
      variables d3 !! k = variables d1 !! k)
  /\ coord_names d1 ⊆ coord_names d3
  /\ attrs d3 = attrs d1 /\ dims d3 = dims d1.
Proof.
  intros Hcf H2 H3.
  apply assign_crs_ok in H2 as (Hv2 & Hc2 & Hd2 & Ha2).
  pose proof H3 as H3'.
  apply assign_latitude_longitude_ok in H3
    as (cf' & xs & ys & Hcrs & Hx & Hy & Hv3 & Hc3 & Hd3 & Ha3).
  assert (cf' = cf) as ->.
  { unfold crs_of in Hcrs. rewrite Hv2, lookup_insert_eq in Hcrs. cbn in Hcrs.
    case_bool_decide; congruence. }
  repeat split.
  - exists cf, xs, ys. repeat split; try assumption.
    + apply (crs_of_preserved d2); [|set_solver|assumption].
      rewrite Hv3. rewrite !lookup_insert_ne by done. reflexivity.
    + apply (axis_preserved d2); [|set_solver|assumption].
      rewrite Hv3. rewrite !lookup_insert_ne by done. reflexivity.
    + apply (axis_preserved d2); [|set_solver|assumption].
      rewrite Hv3. rewrite !lookup_insert_ne by done. reflexivity.
    + rewrite Hv3. apply lookup_insert_eq.
    + rewrite Hv3. rewrite lookup_insert_ne by done. apply lookup_insert_eq.
    + set_solver.
    + set_solver.
  - intros k Hk1 Hk2 Hk3. rewrite Hv3, Hv2.
    rewrite !lookup_insert_ne by congruence. reflexivity.
  - set_solver.
  - congruence.
  - congruence.
Qed.



(** ** The metadata repair *)

Lemma crs_kwargs_lcc :
  Part000.crs_kwargs !! "grid_mapping_name" = Some "lambert_conformal_conic".
Proof. reflexivity. Qed.



(** The steps of a successful [load_dataset]. *)
Lemma load_dataset_ok
    (store : string -> option Dataset)
    (transform : gmap string string -> scalar -> scalar -> scalar * scalar)
    (urls : list string) (log log' : list event) (ds : Dataset) :
  Part000.load_dataset store transform urls log = (Ok ds, log') ->
  exists raw d1 d2 d3,
    open_mfdataset store urls log = (Ok raw, log')
    /\ rename xy_names raw = Ok d1
    /\ assign_crs Part000.crs_kwargs d1 = Ok d2
    /\ assign_latitude_longitude transform d2 = Ok d3
    /\ set_coords "time" d3 = Ok ds.
Proof.
  unfold Part000.load_dataset. intros H.
  apply mbind_ok in H as (raw & l0 & H0 & H).
  apply mbind_ok in H as (d1 & l1 & H1 & H). apply lift_ok in H1 as [H1 ->].
  apply mbind_ok in H as (d2 & l2 & H2 & H). apply lift_ok in H2 as [H2 ->].
  apply mbind_ok in H as (d3 & l3 & H3 & H). apply lift_ok in H3 as [H3 ->].
  apply mbind_ok in H as (d4 & l4 & H4 & H). apply lift_ok in H4 as [H4 ->].
  apply mret_ok in H as [-> ->].
  exists raw, d1, d2, d3. repeat split; assumption.
Qed.

Lemma assign_coordinates_ok
    (transform : gmap string string -> scalar -> scalar -> scalar * scalar)
    (ds0 ds : Dataset) :
  ProjectionNotebook.assign_coordinates transform ds0 = Ok ds ->
  exists d1 cf d2,
    rename xy_names ds0 = Ok d1
    /\ to_cf ProjectionNotebook.projection = Ok cf
    /\ assign_crs cf d1 = Ok d2
    /\ assign_latitude_longitude transform d2 = Ok ds.
Proof.
  unfold ProjectionNotebook.assign_coordinates. intros H.
  apply rbind_ok in H as (d1 & H1 & H).
  apply rbind_ok in H as (cf & H2 & H).
  apply rbind_ok in H as (d2 & H3 & H).
  exists d1, cf, d2. repeat split; assumption.
Qed.

(** The steps of a successful [load] of the third notebook. *)
Lemma load_ok (store : string -> option Dataset) (url : string)
    (time : option datetime) (log log' : list event) (ds : Dataset) :
  NotMf.load store url time log = (Ok ds, log') ->
  exists raw d1 d2,
    store url = Some raw
    /\ log' = log ++ [EvOpen url]
    /\ setitem_scalar "time" (NotMf.time_value time) raw = Ok d1
    /\ set_coords "time" d1 = Ok d2
    /\ rename xy_names d2 = Ok ds.
Proof.
  unfold NotMf.load. intros H.
  apply mbind_ok in H as (raw & l0 & H0 & H).
  apply mbind_ok in H as (d1 & l1 & H1 & H). apply lift_ok in H1 as [H1 ->].
  apply mbind_ok in H as (d2 & l2 & H2 & H). apply lift_ok in H2 as [H2 ->].
  apply mbind_ok in H as (d3 & l3 & H3 & H). apply lift_ok in H3 as [H3 ->].
  apply mret_ok in H as [-> ->].
  unfold open_dataset in H0. injection H0 as Hst <-.
  destruct (store url) as [raw'|]; [|discriminate]. injection Hst as ->.
  exists raw, d1, d2. repeat split; assumption || reflexivity.
Qed.

(** The steps of a successful [load_combined_dataset] of the third
    notebook. *)
Lemma notmf_load_combined_dataset_ok
    (store : string -> option Dataset)
    (transform : gmap string string -> scalar -> scalar -> scalar * scalar)
    (start_date : datetime) (num_hours : Z) (level param_short_name : string)
    (log log' : list event) (ds : Dataset) :
  NotMf.load_combined_dataset store transform start_date num_hours level
    param_short_name log = (Ok ds, log') ->
  exists group_url grid log1 datasets cat ds1 cf ds2,
    strftime (NotMf.group_url_format level param_short_name) start_date = Ok group_url
    /\ NotMf.load store group_url None log = (Ok grid, log1)
    /\ collect (NotMf.load_hour store start_date level param_short_name)
         (seqZ 0 num_hours) log1 = (Ok datasets, log')
    /\ concat datasets "time" Override = Ok cat
    /\ NotMf.add_grid grid cat = Ok ds1
    /\ to_cf NotMf.projection = Ok cf
    /\ assign_crs cf ds1 = Ok ds2
    /\ assign_latitude_longitude transform ds2 = Ok ds.
Proof.
  unfold NotMf.load_combined_dataset. intros H.
  apply mbind_ok in H as (u & l0 & H0 & H). apply lift_ok in H0 as [H0 ->].
  apply mbind_ok in H as (grid & l1 & H1 & H).
  apply mbind_ok in H as (dss & l2 & H2 & H).
  apply mbind_ok in H as (cat & l3 & H3 & H). apply lift_ok in H3 as [H3 ->].
  apply mbind_ok in H as (ds1 & l4 & H4 & H). apply lift_ok in H4 as [H4 ->].
  apply mbind_ok in H as (cf & l5 & H5 & H). apply lift_ok in H5 as [H5 ->].
  apply mbind_ok in H as (ds2 & l6 & H6 & H). apply lift_ok in H6 as [H6 ->].
  apply mbind_ok in H as (ds3 & l7 & H7 & H). apply lift_ok in H7 as [H7 ->].
  apply mret_ok in H as [-> ->].
  exists u, grid, l1, dss, cat, ds1, cf, ds2. repeat split; assumption.
Qed.


(** ** Assigning the grid *)

Lemma getitem_ok (ds : Dataset) (key : string) (da : DataArray) :
  getitem ds key = Ok da ->
  variables ds !! key = Some (da_variable da).
Proof.
  unfold getitem. destruct (variables ds !! key) as [v|].
  - intros [= <-]. reflexivity.
  - case_bool_decide; discriminate.
Qed.

Lemma setitem_da_ok (key : string) (da : DataArray) (ds ds' : Dataset) :
  setitem_da key da ds = Ok ds' ->
  (key ∉ dom (variables ds))
  /\ variables ds' = <[key := da_variable da]> (variables ds)
  /\ coord_names ds ⊆ coord_names ds'
  /\ coord_names ds' ⊆ coord_names ds ∪ {[key]}
  /\ attrs ds' = attrs ds.
Proof.
  unfold setitem_da. cbv zeta.
  case_bool_decide as Hc; [|discriminate].
  destruct (agree _ _); [|discriminate].
  intros [= <-]. cbn. destruct Hc as (Hk & _ & _).
  repeat split; try assumption || reflexivity; case_bool_decide; set_solver.
Qed.

(** [ds["x"] = grid["x"]; ds["y"] = grid["y"]]: the variables of the
    dataset are kept, [x] and [y] are new and are those of the grid, and
    the attributes stay. *)
Lemma add_grid_ok (grid cat ds1 : Dataset) :
  NotMf.add_grid grid cat = Ok ds1 ->
  exists gx gy,
    variables grid !! "x" = Some gx
    /\ variables grid !! "y" = Some gy
    /\ variables ds1 = <["y" := gy]> (<["x" := gx]> (variables cat))
    /\ ("x" ∉ dom (variables cat))
    /\ ("y" ∉ dom (variables cat))
    /\ coord_names cat ⊆ coord_names ds1
    /\ coord_names ds1 ⊆ coord_names cat ∪ {["x"; "y"]}
    /\ attrs ds1 = attrs cat.
Proof.
  unfold NotMf.add_grid. intros H.
  apply rbind_ok in H as (dax & Hx & H).
  apply rbind_ok in H as (d & Hsx & H).
  apply rbind_ok in H as (day & Hy & Hsy).
  apply getitem_ok in Hx, Hy.
  apply setitem_da_ok in Hsx as (Hnx & Hvx & Hc1 & Hc2 & Hax).
  apply setitem_da_ok in Hsy as (Hny & Hvy & Hc3 & Hc4 & Hay).
  exists (da_variable dax), (da_variable day).
  split; [exact Hx|]. split; [exact Hy|].
  split; [rewrite Hvy, Hvx; reflexivity|].
  split; [exact Hnx|].
  split; [rewrite Hvx, dom_insert in Hny; set_solver|].
  split; [set_solver|]. split; [set_solver|]. congruence.
Qed.


(** ** Concatenation, variable by variable *)

Lemma strip_variable_eq (v w : XrVariable) :
  Spec.strip_variable v = Spec.strip_variable w
  <-> vdims v = vdims w /\ vshape v = vshape w /\ vvalues v = vvalues w.
Proof.
  unfold Spec.strip_variable. split.
  - intros [= ? ? ?]. auto.
  - intros (-> & -> & ->). reflexivity.
Qed.

Lemma same_data_strip (v w : XrVariable) :
  same_data v w = true <-> Spec.strip_variable v = Spec.strip_variable w.
Proof.
  unfold same_data. rewrite bool_decide_eq_true. symmetry. apply strip_variable_eq.
Qed.

Lemma forallb_all {A : Type} (f : A -> bool) (l : list A) :
  forallb f l = true <-> Forall (fun x => f x = true) l.
Proof.
  induction l as [|a l IH]; cbn.
  - split; [constructor|reflexivity].
  - rewrite andb_true_iff, Forall_cons, IH. reflexivity.
Qed.

(** Items that agree up to attributes. *)
Abbreviation items_agree :=
  (Forall2 (fun a b : nat * XrVariable =>
              a.1 = b.1 /\ Spec.strip_variable a.2 = Spec.strip_variable b.2)).

Lemma expand_head (dim : string) (n : nat) (v e : XrVariable) :
  expand dim n v = Some e ->
  head (vdims e) = Some dim /\ head (vshape e) = Some n.
Proof.
  unfold expand. case_bool_decide.
  - case_bool_decide as Hh; [|discriminate]. intros [= <-]. exact Hh.
  - intros [= <-]. split; reflexivity.
Qed.

Lemma expand_strip (dim : string) (n : nat) (v w e : XrVariable) :
  Spec.strip_variable v = Spec.strip_variable w ->
  expand dim n v = Some e ->
  exists e', expand dim n w = Some e'
             /\ Spec.strip_variable e = Spec.strip_variable e'.
Proof.
  intros Hs. pose proof Hs as Hs'. apply strip_variable_eq in Hs' as (Hd & Hsh & Hv).
  unfold expand. rewrite <- Hd, <- Hsh, <- Hv.
  case_bool_decide.
  - case_bool_decide; [|discriminate]. intros [= <-]. exists w. split; [reflexivity|exact Hs].
  - intros [= <-]. eexists. split; [reflexivity|]. reflexivity.
Qed.

Lemma mapM_expand_strip (dim : string) (items1 items2 : list (nat * XrVariable))
    (ex1 : list XrVariable) :
  items_agree items1 items2 ->
  mapM (fun it => expand dim it.1 it.2) items1 = Some ex1 ->
  exists ex2,
    mapM (fun it => expand dim it.1 it.2) items2 = Some ex2
    /\ Forall2 (fun a b => Spec.strip_variable a = Spec.strip_variable b) ex1 ex2.
Proof.
  intros Hag. revert ex1. induction Hag as [|[n v] [m w] l1 l2 [Hn Hs] _ IH]; intros ex1.
  - intros [= <-]. exists []. split; [reflexivity|constructor].
  - cbn in Hn, Hs. subst m. rewrite mapM_Some. intros Hf.
    apply Forall2_cons_inv_l in Hf as (e & ex & He & Hex & ->).
    apply mapM_Some in Hex. destruct (IH _ Hex) as (ex2 & Hex2 & Hall).
    cbn in He. destruct (expand_strip _ _ _ _ _ Hs He) as (e' & He' & Hse).
    exists (e' :: ex2). split.
    + apply mapM_Some. constructor; [exact He'|]. apply mapM_Some. exact Hex2.
    + constructor; assumption.
Qed.

Lemma concat_over_agree (dim name : string) (isd : bool)
    (items1 items2 : list (nat * XrVariable)) :
  items_agree items1 items2 ->
  concat_over dim name isd items1 = concat_over dim name isd items2.
Proof.
  intros Hag. unfold concat_over. f_equal.
  induction Hag as [|[n v] [m w] l1 l2 [_ Hs] _ IH]; [reflexivity|].
  cbn in *. apply strip_variable_eq in Hs as (-> & _). rewrite IH. reflexivity.
Qed.

Lemma items_agree_fst (items1 items2 : list (nat * XrVariable)) :
  items_agree items1 items2 -> items1.*1 = items2.*1.
Proof.
  induction 1 as [|[n v] [m w] l1 l2 [Hn _] _ IH]; [reflexivity|].
  cbn in *. congruence.
Qed.

Lemma strip_values (ex1 ex2 : list XrVariable) :
  Forall2 (fun a b => Spec.strip_variable a = Spec.strip_variable b) ex1 ex2 ->
  vvalues <$> ex1 = vvalues <$> ex2.
Proof.
  induction 1 as [|a b l1 l2 Hs _ IH]; [reflexivity|].
  cbn. apply strip_variable_eq in Hs as (_ & _ & ->). rewrite IH. reflexivity.
Qed.

(** The two cases of [concat_var], as propositions. *)
Lemma concat_var_stacked (dim name : string) (isd : bool) (m : combine_attrs)
    (items : list (nat * XrVariable)) (r : XrVariable) :
  concat_over dim name isd items = true ->
  concat_var dim name isd m items = Some r
  <-> exists ex e0,
        mapM (fun it => expand dim it.1 it.2) items = Some ex
        /\ head ex = Some e0
        /\ Forall (fun e => vdims e = vdims e0
                            /\ tail (vshape e) = tail (vshape e0)) ex
        /\ r = {| vdims := vdims e0;
                  vshape := sum_list (items.*1) :: tail (vshape e0);
                  vvalues := mjoin (vvalues <$> ex);
                  vattrs := merge_attrs m (vattrs <$> items.*2) |}.
Proof.
  intros Hco. unfold concat_var. rewrite Hco. split.
  - destruct (mapM _ items) as [ex|]; [|discriminate]. cbn.
    destruct (head ex) as [e0|] eqn:Hh; [|discriminate]. cbn.
    destruct (forallb _ ex) eqn:Hfa; [|discriminate].
    intros [= <-]. exists ex, e0.
    split; [reflexivity|]. split; [exact Hh|]. split; [|reflexivity].
    apply forallb_all in Hfa. eapply Forall_impl; [exact Hfa|].
    intros e He. apply bool_decide_eq_true in He. exact He.
  - intros (ex & e0 & -> & Hh & Hall & ->). cbn. rewrite Hh. cbn.
    assert (Hfa : forallb (fun e => bool_decide (vdims e = vdims e0
                                    /\ tail (vshape e) = tail (vshape e0))) ex
                  = true).
    { apply forallb_all. eapply Forall_impl; [exact Hall|].
      intros e He. apply bool_decide_eq_true. exact He. }
    rewrite Hfa. reflexivity.
Qed.

Lemma concat_var_kept (dim name : string) (isd : bool) (m : combine_attrs)
    (items : list (nat * XrVariable)) (r : XrVariable) :
  concat_over dim name isd items = false ->
  concat_var dim name isd m items = Some r
  <-> head (items.*2) = Some r
      /\ Forall (fun it : nat * XrVariable =>
                   Spec.strip_variable it.2 = Spec.strip_variable r) items.
Proof.
  intros Hco. unfold concat_var. rewrite Hco. split.
  - destruct (head (items.*2)) as [v0|]; [|discriminate]. cbn.
    destruct (forallb _ items) eqn:Hfa; [|discriminate].
    intros [= <-]. split; [reflexivity|].
    apply forallb_all in Hfa. eapply Forall_impl; [exact Hfa|].
    intros it Hit. apply same_data_strip. exact Hit.
  - intros [-> Hall]. cbn.
    assert (Hfa : forallb (fun it : nat * XrVariable => same_data it.2 r) items = true).
    { apply forallb_all. eapply Forall_impl; [exact Hall|].
      intros it Hit. apply same_data_strip. exact Hit. }
    rewrite Hfa. reflexivity.
Qed.

(** The stacked variable does not depend on the attributes of its parts,
    and only its own attributes depend on the mode. *)
Lemma concat_var_congr (dim name : string) (isd : bool) (m1 m2 : combine_attrs)
    (items1 items2 : list (nat * XrVariable)) (r : XrVariable) :
  items_agree items1 items2 ->
  concat_var dim name isd m1 items1 = Some r ->
  exists r', concat_var dim name isd m2 items2 = Some r'
             /\ Spec.strip_variable r = Spec.strip_variable r'.
Proof.
  intros Hag H.
  pose proof (concat_over_agree dim name isd _ _ Hag) as Hco.
  destruct (concat_over dim name isd items1) eqn:Hco1; symmetry in Hco.
  - apply (concat_var_stacked _ _ _ _ _ _ Hco1) in H
      as (ex1 & e0 & Hex1 & Hh & Hall & ->).
    destruct (mapM_expand_strip _ _ _ _ Hag Hex1) as (ex2 & Hex2 & Hst).
    destruct Hst as [|a b l1 l2 Hab Hst]; [discriminate|].
    cbn in Hh. injection Hh as ->.
    pose proof Hab as Hab'. apply strip_variable_eq in Hab' as (Hd0 & Hs0 & _).
    eexists. split.
    + apply (concat_var_stacked _ _ _ _ _ _ Hco). exists (b :: l2), b.
      split; [exact Hex2|]. split; [reflexivity|]. split; [|reflexivity].
      apply Forall_cons. split; [split; reflexivity|].
      apply Forall_cons in Hall as [_ Hall].
      clear -Hst Hall Hd0 Hs0. induction Hst as [|x y l1 l2 Hxy _ IH]; [constructor|].
      apply Forall_cons in Hall as [Hx Hall]. constructor; [|apply IH, Hall].
      apply strip_variable_eq in Hxy as (<- & <- & _).
      rewrite <- Hd0, <- Hs0. exact Hx.
    + apply strip_variable_eq. cbn.
      rewrite (items_agree_fst _ _ Hag).
      assert (Hvals : vvalues <$> e0 :: l1 = vvalues <$> b :: l2)
        by (apply strip_values; constructor; assumption).
      cbn in Hvals. repeat split; congruence.
  - apply (concat_var_kept _ _ _ _ _ _ Hco1) in H as [Hh Hall].
    destruct Hag as [|[n v] [m w] l1 l2 [Hn Hs] Hag]; [discriminate|].
    cbn in Hh, Hs. injection Hh as ->.
    exists w. split; [|exact Hs].
    apply (concat_var_kept _ _ _ _ _ _ Hco). split; [reflexivity|].
    apply Forall_cons. split; [reflexivity|].
    apply Forall_cons in Hall as [_ Hall].
    clear -Hag Hall Hs. induction Hag as [|[a x] [b y] l1 l2 [_ Hxy] _ IH]; [constructor|].
    apply Forall_cons in Hall as [Hx Hall]. constructor; [|apply IH, Hall].
    cbn in *. congruence.
Qed.

Lemma existsb_none {A : Type} (f : A -> bool) (l : list A) :
  existsb f l = false <-> Forall (fun x => f x = false) l.
Proof.
  induction l as [|a l IH]; cbn.
  - split; [constructor|reflexivity].
  - rewrite orb_false_iff, Forall_cons, IH. reflexivity.
Qed.

Lemma concat_over_false (dim name : string) (isd : bool)
    (items : list (nat * XrVariable)) :
  concat_over dim name isd items = false
  <-> isd = false /\ name <> dim
      /\ Forall (fun it : nat * XrVariable => dim ∉ vdims it.2) items.
Proof.
  unfold concat_over. rewrite !orb_false_iff, existsb_none, bool_decide_eq_false.
  split.
  - intros [[? ?] Hall]. repeat split; try assumption.
    eapply Forall_impl; [exact Hall|]. intros it Hit.
    apply bool_decide_eq_false in Hit. exact Hit.
  - intros (? & ? & Hall). repeat split; try assumption.
    eapply Forall_impl; [exact Hall|]. intros it Hit.
    apply bool_decide_eq_false. exact Hit.
Qed.

Lemma concat_over_app (dim name : string) (isd : bool)
    (items more : list (nat * XrVariable)) :
  concat_over dim name isd items = true ->
  concat_over dim name isd (items ++ more) = true.
Proof.
  unfold concat_over. rewrite existsb_app.
  destruct isd, (bool_decide (name = dim)), (existsb _ items); cbn; try discriminate; reflexivity.
Qed.

Lemma concat_over_member (dim name : string) (isd : bool)
    (items : list (nat * XrVariable)) (it : nat * XrVariable) :
  it ∈ items -> dim ∈ vdims it.2 -> concat_over dim name isd items = true.
Proof.
  intros Hin Hd. unfold concat_over.
  assert (existsb (fun it : nat * XrVariable => bool_decide (dim ∈ vdims it.2)) items = true)
    as ->; [|apply orb_true_r].
  apply existsb_exists. exists it. split; [apply list_elem_of_In; exact Hin|].
  apply bool_decide_eq_true. exact Hd.
Qed.

Lemma expand_without (dim : string) (n : nat) (v : XrVariable) :
  dim ∉ vdims v ->
  expand dim n v = Some {| vdims := dim :: vdims v;
                           vshape := n :: vshape v;
                           vvalues := mjoin (replicate n (vvalues v));
                           vattrs := vattrs v |}.
Proof. intros H. unfold expand. rewrite bool_decide_false by exact H. reflexivity. Qed.

Lemma expand_with (dim : string) (n : nat) (v e : XrVariable) :
  dim ∈ vdims v -> expand dim n v = Some e ->
  e = v /\ head (vdims v) = Some dim /\ head (vshape v) = Some n.
Proof.
  intros H. unfold expand. rewrite bool_decide_true by exact H.
  case_bool_decide as Hh; [|discriminate]. intros [= <-].
  split; [reflexivity|exact Hh].
Qed.

Lemma mapM_snoc {A B : Type} (f : A -> option B) (l : list A) (a : A)
    (k : list B) (b : B) :
  mapM f l = Some k -> f a = Some b -> mapM f (l ++ [a]) = Some (k ++ [b]).
Proof.
  rewrite !mapM_Some. intros Hl Ha. apply Forall2_app; [exact Hl|].
  constructor; [exact Ha|constructor].
Qed.

Lemma mapM_nonempty {A B : Type} (f : A -> option B) (l : list A) (k : list B) :
  mapM f l = Some k -> l <> [] -> k <> [].
Proof.
  rewrite mapM_Some. intros H Hl ->. apply Forall2_nil_inv_r in H. contradiction.
Qed.

Lemma head_snoc {A : Type} (l : list A) (a x : A) :
  head l = Some x -> head (l ++ [a]) = Some x.
Proof. destruct l; [discriminate|]. cbn. trivial. Qed.

Lemma sum_list_snoc (l : list nat) (n : nat) :
  sum_list (l ++ [n]) = (sum_list l + n)%nat.
Proof. rewrite sum_list_with_app. cbn. lia. Qed.

Lemma join_replicate_sum {A : Type} (vals : list A) (lens : list nat) :
  mjoin ((fun n => mjoin (replicate n vals)) <$> lens)
  = mjoin (replicate (sum_list lens) vals).
Proof.
  induction lens as [|n lens IH]; [reflexivity|].
  simpl. rewrite replicate_add, join_app, <- IH. reflexivity.
Qed.

(** A stacked variable has the dimension in front, with the summed
    length. *)
Lemma concat_var_stacked_head (dim name : string) (isd : bool) (m : combine_attrs)
    (items : list (nat * XrVariable)) (r : XrVariable) :
  concat_over dim name isd items = true ->
  concat_var dim name isd m items = Some r ->
  head (vdims r) = Some dim /\ head (vshape r) = Some (sum_list (items.*1)).
Proof.
  intros Hco H. apply (concat_var_stacked _ _ _ _ _ _ Hco) in H
    as (ex & e0 & Hex & Hh & _ & ->). cbn. split; [|reflexivity].
  apply mapM_Some in Hex. destruct Hex as [|it e l k He _]; [discriminate|].
  cbn in Hh. injection Hh as ->. apply expand_head in He. apply He.
Qed.

Lemma mapM_pair {A B : Type} (f : A -> option B) (a1 a2 : A) (k : list B) :
  mapM f [a1; a2] = Some k ->
  exists b1 b2, f a1 = Some b1 /\ f a2 = Some b2 /\ k = [b1; b2].
Proof.
  rewrite mapM_Some. intros H.
  apply Forall2_cons_inv_l in H as (b1 & k1 & H1 & H & ->).
  apply Forall2_cons_inv_l in H as (b2 & k2 & H2 & H & ->).
  apply Forall2_nil_inv_l in H as ->.
  exists b1, b2. repeat split; assumption.
Qed.

Lemma mapM_expand_without (dim : string) (items : list (nat * XrVariable)) :
  Forall (fun it : nat * XrVariable => dim ∉ vdims it.2) items ->
  mapM (fun it => expand dim it.1 it.2) items
  = Some ((fun it : nat * XrVariable =>
             {| vdims := dim :: vdims it.2;
                vshape := it.1 :: vshape it.2;
                vvalues := mjoin (replicate it.1 (vvalues it.2));
                vattrs := vattrs it.2 |}) <$> items).
Proof.
  intros H. apply mapM_Some. induction H as [|it l Hit _ IH]; [constructor|].
  cbn. constructor; [apply expand_without; exact Hit|exact IH].
Qed.

(** Stacking one more variable onto a stack gives, up to attributes, the
    stack of all of them. *)
Lemma concat_var_assoc (dim name : string) (isd : bool)
    (m1 m2 m3 : combine_attrs) (items : list (nat * XrVariable))
    (vc vd r : XrVariable) (n : nat) :
  concat_var dim name isd m1 items = Some vc ->
  concat_var dim name isd m2 [(sum_list (items.*1), vc); (n, vd)] = Some r ->
  exists r', concat_var dim name isd m3 (items ++ [(n, vd)]) = Some r'
             /\ Spec.strip_variable r = Spec.strip_variable r'.
Proof.
  intros Hc Hp.
  destruct (concat_over dim name isd items) eqn:Hco.
  - pose proof (concat_var_stacked_head _ _ _ _ _ _ Hco Hc) as [Hhd Hhs].
    assert (Hdin : dim ∈ vdims vc).
    { destruct (vdims vc); [discriminate|]. injection Hhd as ->. left. }
    assert (Hcop : concat_over dim name isd [(sum_list (items.*1), vc); (n, vd)] = true).
    { apply (concat_over_member _ _ _ _ (sum_list (items.*1), vc)); [left|exact Hdin]. }
    apply (concat_var_stacked _ _ _ _ _ _ Hcop) in Hp
      as (exp & e0p & Hexp & Hhp & Hallp & ->).
    apply mapM_pair in Hexp as (ec & ed & Hec & Hed & ->).
    cbn in Hec, Hed, Hhp. injection Hhp as <-.
    apply (expand_with _ _ _ _ Hdin) in Hec as (-> & _ & _).
    apply Forall_cons in Hallp as [_ Hallp].
    apply Forall_cons in Hallp as [[Hdd Hds] _].
    apply (concat_var_stacked _ _ _ _ _ _ Hco) in Hc
      as (ex & e0 & Hex & Hh & Hall & ->).
    cbn in Hdd, Hds.
    eexists. split.
    + apply concat_var_stacked; [apply concat_over_app; exact Hco|].
      exists (ex ++ [ed]), e0.
      split; [apply mapM_snoc; assumption|].
      split; [apply head_snoc; exact Hh|].
      split; [|reflexivity].
      apply Forall_app. split; [exact Hall|].
      constructor; [|constructor]. split; assumption.
    + apply strip_variable_eq. cbn [vdims vshape vvalues tail].
      rewrite !fmap_app. cbn [fmap list_fmap fst].
      rewrite sum_list_snoc, join_app. cbn.
      repeat split. f_equal. lia.
  - apply (concat_var_kept _ _ _ _ _ _ Hco) in Hc as [Hh Hall].
    apply concat_over_false in Hco as (Hisd & Hne & Hnd).
    destruct items as [|[l0 v0] items']; [discriminate|].
    cbn in Hh. injection Hh as ->.
    assert (Hv0 : dim ∉ vdims vc) by (apply Forall_cons in Hnd as [H _]; exact H).
    destruct (decide (dim ∈ vdims vd)) as [Hd|Hd].
    + assert (Hcop : concat_over dim name isd
                       [(sum_list (((l0, vc) :: items').*1), vc); (n, vd)] = true).
      { apply (concat_over_member _ _ _ _ (n, vd)); [right; left|exact Hd]. }
      apply (concat_var_stacked _ _ _ _ _ _ Hcop) in Hp
        as (exp & e0p & Hexp & Hhp & Hallp & ->).
      apply mapM_pair in Hexp as (ec & ed & Hec & Hed & ->).
      cbn in Hec, Hed, Hhp. injection Hhp as <-.
      rewrite (expand_without _ _ _ Hv0) in Hec.
      apply (inj Some) in Hec. subst ec.
      apply (expand_with _ _ _ _ Hd) in Hed as (-> & Hvd1 & Hvd2).
      apply Forall_cons in Hallp as [_ Hallp].
      apply Forall_cons in Hallp as [[Hdd Hds] _].
      cbn in Hdd, Hds.
      eexists. split.
      * apply concat_var_stacked.
        { apply (concat_over_member _ _ _ _ (n, vd)); [|exact Hd].
          apply elem_of_app. right. left. }
        eexists _, _.
        split.
        { apply mapM_snoc; [apply (mapM_expand_without _ _ Hnd)|].
          cbn. unfold expand. rewrite bool_decide_true by exact Hd.
          rewrite bool_decide_true; [reflexivity|]. split; assumption. }
        split; [reflexivity|]. split; [|reflexivity].
        apply Forall_app. split.
        -- apply Forall_fmap. eapply Forall_impl; [exact Hall|].
           intros [li vi] Hi. cbn in *.
           apply strip_variable_eq in Hi as (-> & -> & _). split; reflexivity.
        -- constructor; [|constructor]. cbn. split; assumption.
      * apply strip_variable_eq. cbn [vdims vshape vvalues].
        rewrite !fmap_app, join_app. cbn [fmap list_fmap mjoin list_join app fst].
        repeat split.
        -- cbn [tail snd]. f_equal.
           change (l0 :: items'.*1 ++ [n]) with ((l0 :: items'.*1) ++ [n]).
           rewrite sum_list_snoc. cbn. lia.
        -- cbn [vvalues snd fst]. f_equal.
           rewrite replicate_add, join_app. f_equal.
           rewrite <- (join_replicate_sum (vvalues vc) (items'.*1)).
           f_equal. rewrite <- !list_fmap_compose.
           apply Forall_fmap_ext. apply Forall_cons in Hall as [_ Hall].
           eapply Forall_impl; [exact Hall|]. intros [li vi] Hi. cbn in *.
           apply strip_variable_eq in Hi as (_ & _ & ->). reflexivity.
    + assert (Hcop : concat_over dim name isd
                       [(sum_list (((l0, vc) :: items').*1), vc); (n, vd)] = false).
      { apply concat_over_false. repeat split; try assumption.
        constructor; [exact Hv0|]. constructor; [exact Hd|constructor]. }
      apply (concat_var_kept _ _ _ _ _ _ Hcop) in Hp as [Hhp Hallp].
      cbn in Hhp. injection Hhp as <-.
      apply Forall_cons in Hallp as [_ Hallp].
      apply Forall_cons in Hallp as [Hvd _]. cbn in Hvd.
      exists vc. split; [|reflexivity].
      apply concat_var_kept.
      * apply concat_over_false. repeat split; try assumption.
        apply Forall_app. split; [exact Hnd|]. constructor; [exact Hd|constructor].
      * split; [reflexivity|].
        apply Forall_app. split; [exact Hall|]. constructor; [exact Hvd|constructor].
Qed.

(** ** Concatenation of datasets *)

Lemma data_vars_empty (ds : Dataset) :
  data_vars ds = ∅ <-> dom (variables ds) ⊆ coord_names ds.
Proof.
  unfold data_vars. rewrite map_empty. split.
  - intros H k Hk. apply elem_of_dom in Hk as [v Hv].
    specialize (H k). apply map_lookup_filter_None in H as [H|H]; [congruence|].
    specialize (H v Hv). cbn in H. destruct (decide (k ∈ coord_names ds)); tauto.
  - intros H k. apply map_lookup_filter_None.
    destruct (variables ds !! k) as [v|] eqn:Hv; [right|left; reflexivity].
    intros x [= <-] Hn. cbn in Hn. apply Hn, H, elem_of_dom. eauto.
Qed.

(** What a successful [concat] returns. *)
Lemma concat_ok (dss : list Dataset) (dim : string) (mode : combine_attrs)
    (c : Dataset) :
  concat dss dim mode = Ok c ->
  exists d0 rest,
    dss = d0 :: rest
    /\ Forall (fits dim d0) dss
    /\ (forall k, variables c !! k
                  = variables d0 !! k ≫= fun _ => concat_at dim mode dss d0 k)
    /\ dom (variables c) = dom (variables d0)
    /\ (is_Some (variables c !! dim) \/ data_vars d0 <> ∅)
    /\ coord_names c
       = (if bool_decide (is_Some (variables c !! dim))
          then coord_names d0 ∪ {[dim]} else coord_names d0)
    /\ dims c = <[dim := sum_list (concat_len dim <$> dss)]> (dims d0)
    /\ attrs c = merge_attrs mode (attrs <$> dss).
Proof.
  unfold concat. destruct dss as [|d0 rest]; [discriminate|].
  destruct (forallb _ (d0 :: rest)) eqn:Hfa; [|discriminate].
  cbv zeta.
  case_bool_decide as Hchk; [|discriminate].
  intros [= <-]. exists d0, rest. cbn [variables coord_names dims attrs].
  destruct Hchk as [Hdom Hsome].
  split; [reflexivity|]. split.
  { apply forallb_all in Hfa. eapply Forall_impl; [exact Hfa|].
    intros d Hd. apply bool_decide_eq_true in Hd. exact Hd. }
  split; [intros k; apply map_lookup_imap|].
  repeat split; assumption || reflexivity.
Qed.

(** When [concat] succeeds. *)
Lemma concat_intro (d0 : Dataset) (rest : list Dataset) (dim : string)
    (mode : combine_attrs) :
  Forall (fits dim d0) (d0 :: rest) ->
  (forall k, k ∈ dom (variables d0) ->
             is_Some (concat_at dim mode (d0 :: rest) d0 k)) ->
  dim ∈ dom (variables d0) \/ data_vars d0 <> ∅ ->
  exists c, concat (d0 :: rest) dim mode = Ok c.
Proof.
  intros Hfit Htot Hdim. unfold concat.
  assert (Hfa : forallb (fun d => bool_decide (fits dim d0 d)) (d0 :: rest) = true).
  { apply forallb_all. eapply Forall_impl; [exact Hfit|].
    intros d Hd. apply bool_decide_eq_true. exact Hd. }
  rewrite Hfa.
  set (vars := map_imap _ (variables d0)).
  assert (Hdom : dom vars = dom (variables d0)).
  { apply set_eq. intros k. rewrite !elem_of_dom. unfold vars.
    rewrite map_lookup_imap. split.
    - intros [v Hv]. destruct (variables d0 !! k); [eauto|discriminate].
    - intros [v Hv]. rewrite Hv. cbn. apply Htot. apply elem_of_dom. eauto. }
  rewrite bool_decide_true; [eexists; reflexivity|].
  split; [exact Hdom|].
  destruct Hdim as [Hd|Hd]; [left|right; exact Hd].
  apply elem_of_dom. rewrite Hdom. exact Hd.
Qed.

Lemma concat_items_fst (dim k : string) (dss : list Dataset)
    (items : list (nat * XrVariable)) :
  concat_items dim k dss = Some items -> items.*1 = concat_len dim <$> dss.
Proof.
  unfold concat_items. rewrite mapM_Some.
  induction 1 as [|d it l1 l2 Hd _ IH]; [reflexivity|].
  cbn. rewrite IH. f_equal.
  destruct (variables d !! k); [|discriminate]. cbn in Hd. injection Hd as <-. reflexivity.
Qed.

Lemma concat_items_snoc (dim k : string) (dss : list Dataset) (d : Dataset)
    (items : list (nat * XrVariable)) (v : XrVariable) :
  concat_items dim k dss = Some items ->
  variables d !! k = Some v ->
  concat_items dim k (dss ++ [d]) = Some (items ++ [(concat_len dim d, v)]).
Proof.
  intros Hi Hv. unfold concat_items in *. apply mapM_snoc; [exact Hi|].
  rewrite Hv. reflexivity.
Qed.

Lemma concat_items_pair (dim k : string) (a b : Dataset) (va vb : XrVariable) :
  variables a !! k = Some va -> variables b !! k = Some vb ->
  concat_items dim k [a; b] = Some [(concat_len dim a, va); (concat_len dim b, vb)].
Proof. intros Ha Hb. unfold concat_items. cbn. rewrite Ha, Hb. reflexivity. Qed.

(** Datasets that agree up to attributes. *)
Lemma strip_attrs_eq (a b : Dataset) :
  Spec.strip_attrs a = Spec.strip_attrs b
  <-> (forall k, Spec.strip_variable <$> variables a !! k
                 = Spec.strip_variable <$> variables b !! k)
      /\ coord_names a = coord_names b /\ dims a = dims b.
Proof.
  unfold Spec.strip_attrs. split.
  - intros [= Hv Hc Hd]. repeat split; try assumption.
    intros k. rewrite <- !lookup_fmap, Hv. reflexivity.
  - intros (Hv & -> & ->). f_equal. apply map_eq. intros k.
    rewrite !lookup_fmap. apply Hv.
Qed.

Lemma strip_dom (a b : Dataset) :
  Spec.strip_attrs a = Spec.strip_attrs b ->
  dom (variables a) = dom (variables b).
Proof.
  intros H. apply strip_attrs_eq in H as (Hv & _). apply set_eq. intros k.
  rewrite !elem_of_dom. specialize (Hv k).
  destruct (variables a !! k), (variables b !! k); cbn in Hv;
    try discriminate; split; intros [? ?]; eauto; discriminate.
Qed.

Lemma strip_fits (dim : string) (a0 b0 a b : Dataset) :
  Spec.strip_attrs a0 = Spec.strip_attrs b0 ->
  Spec.strip_attrs a = Spec.strip_attrs b ->
  fits dim a0 a -> fits dim b0 b.
Proof.
  intros H0 H (Hd & Hc & Hdm).
  pose proof (strip_dom _ _ H0). pose proof (strip_dom _ _ H).
  apply strip_attrs_eq in H0 as (_ & Hc0 & Hd0).
  apply strip_attrs_eq in H as (_ & Hc1 & Hd1).
  unfold fits. repeat split; congruence.
Qed.

Lemma strip_concat_len (dim : string) (a b : Dataset) :
  Spec.strip_attrs a = Spec.strip_attrs b -> concat_len dim a = concat_len dim b.
Proof.
  intros H. apply strip_attrs_eq in H as (_ & _ & Hd). unfold concat_len. rewrite Hd.
  reflexivity.
Qed.

Lemma strip_concat_items (dim k : string) (l1 l2 : list Dataset)
    (items1 : list (nat * XrVariable)) :
  Forall2 (fun a b => Spec.strip_attrs a = Spec.strip_attrs b) l1 l2 ->
  concat_items dim k l1 = Some items1 ->
  exists items2, concat_items dim k l2 = Some items2 /\ items_agree items1 items2.
Proof.
  intros Hl. revert items1. unfold concat_items.
  induction Hl as [|a b l1 l2 Hab _ IH]; intros items1.
  - intros [= <-]. exists []. split; [reflexivity|constructor].
  - rewrite mapM_Some. intros Hf.
    apply Forall2_cons_inv_l in Hf as (it & its & Hit & Hits & ->).
    apply mapM_Some in Hits. destruct (IH _ Hits) as (items2 & Hi2 & Hag).
    pose proof (strip_concat_len dim _ _ Hab) as Hlen.
    apply strip_attrs_eq in Hab as (Hv & _). specialize (Hv k).
    destruct (variables a !! k) as [va|]; [|discriminate].
    destruct (variables b !! k) as [vb|] eqn:Hb; [|discriminate].
    cbn in Hit, Hv. injection Hit as <-. apply (inj Some) in Hv.
    exists ((concat_len dim b, vb) :: items2). split.
    + apply mapM_Some. constructor; [rewrite Hb; reflexivity|].
      apply mapM_Some. exact Hi2.
    + constructor; [|exact Hag]. cbn. split; [exact Hlen|exact Hv].
Qed.

Abbreviation same_up_to_attrs :=
  (Forall2 (fun a b : Dataset => Spec.strip_attrs a = Spec.strip_attrs b)).

Lemma concat_at_congr (dim : string) (m1 m2 : combine_attrs)
    (l1 l2 : list Dataset) (a0 b0 : Dataset) (k : string) (rk : XrVariable) :
  same_up_to_attrs l1 l2 ->
  coord_names a0 = coord_names b0 ->
  concat_at dim m1 l1 a0 k = Some rk ->
  exists rk', concat_at dim m2 l2 b0 k = Some rk'
              /\ Spec.strip_variable rk = Spec.strip_variable rk'.
Proof.
  intros Hl Hc. unfold concat_at. rewrite <- Hc.
  destruct (concat_items dim k l1) as [items1|] eqn:Hi1; [|discriminate]. cbn.
  destruct (strip_concat_items _ _ _ _ _ Hl Hi1) as (items2 & -> & Hag). cbn.
  apply concat_var_congr. exact Hag.
Qed.

Lemma same_up_to_attrs_lens (dim : string) (l1 l2 : list Dataset) :
  same_up_to_attrs l1 l2 -> concat_len dim <$> l1 = concat_len dim <$> l2.
Proof.
  induction 1 as [|a b l1 l2 Hab _ IH]; [reflexivity|].
  cbn. rewrite IH, (strip_concat_len dim _ _ Hab). reflexivity.
Qed.

(** The variables of a concatenation, by name. *)
Lemma concat_lookup (d0 : Dataset) (rest : list Dataset) (dim : string)
    (mode : combine_attrs) (c : Dataset) (k : string) :
  concat (d0 :: rest) dim mode = Ok c ->
  (k ∈ dom (variables d0) ->
   exists v, variables c !! k = Some v
             /\ concat_at dim mode (d0 :: rest) d0 k = Some v)
  /\ (k ∉ dom (variables d0) -> variables c !! k = None).
Proof.
  intros H. apply concat_ok in H
    as (d0' & rest' & [= <- <-] & _ & Hlook & Hdom & _).
  split.
  - intros Hk. pose proof Hk as Hk'. rewrite <- Hdom in Hk'.
    apply elem_of_dom in Hk' as [v Hv]. exists v. split; [exact Hv|].
    rewrite Hlook in Hv. apply elem_of_dom in Hk as [v0 Hv0].
    rewrite Hv0 in Hv. exact Hv.
  - intros Hk. apply not_elem_of_dom. rewrite Hdom. exact Hk.
Qed.

(** The coordinates of a concatenation whose datasets have [dim] as a
    coordinate are those of the datasets. *)
Lemma concat_coord_names (d0 : Dataset) (rest : list Dataset) (dim : string)
    (mode : combine_attrs) (c : Dataset) :
  concat (d0 :: rest) dim mode = Ok c ->
  dim ∈ coord_names d0 \/ dim ∉ dom (variables d0) ->
  coord_names c = coord_names d0.
Proof.
  intros H Hd. apply concat_ok in H
    as (d0' & rest' & [= <- <-] & _ & _ & Hdom & _ & Hc & _).
  rewrite Hc. case_bool_decide as Hs; [|reflexivity].
  destruct Hd as [Hd|Hd]; [set_solver|].
  exfalso. apply Hd. rewrite <- Hdom. apply elem_of_dom. exact Hs.
Qed.

(** Concatenation does not look at attributes, except to combine them. *)
Lemma concat_congr (l1 l2 : list Dataset) (dim : string)
    (m1 m2 : combine_attrs) (r : Dataset) :
  same_up_to_attrs l1 l2 ->
  concat l1 dim m1 = Ok r ->
  exists r', concat l2 dim m2 = Ok r'
             /\ Spec.strip_attrs r = Spec.strip_attrs r'.
Proof.
  intros Hl H. pose proof H as Hr.
  apply concat_ok in H
    as (a0 & rest1 & -> & Hfit & _ & Hdom & Hsome & Hcoord & Hdims & _).
  pose proof Hl as Hl'.
  apply Forall2_cons_inv_l in Hl' as (b0 & rest2 & Hab0 & Hrest & ->).
  pose proof (strip_dom _ _ Hab0) as Hd0.
  pose proof Hab0 as Hab0'. apply strip_attrs_eq in Hab0' as (_ & Hc0 & Hdm0).
  assert (Hex : exists r', concat (b0 :: rest2) dim m2 = Ok r').
  { apply concat_intro.
    - clear -Hl Hfit Hab0. revert Hfit.
      generalize (a0 :: rest1) (b0 :: rest2) Hl.
      induction 1 as [|a b l1 l2 Hab _ IH]; [constructor|].
      intros Hf. apply Forall_cons in Hf as [Hf1 Hf2].
      constructor; [apply (strip_fits dim a0 b0 a b); assumption|apply IH, Hf2].
    - intros k Hk. rewrite <- Hd0 in Hk.
      destruct (proj1 (concat_lookup _ _ _ _ _ k Hr) Hk) as (v & _ & Hv).
      destruct (concat_at_congr dim m1 m2 _ _ a0 b0 k v Hl Hc0 Hv) as (v' & -> & _).
      eauto.
    - destruct Hsome as [Hs|Hs].
      + left. rewrite <- Hd0, <- Hdom. apply elem_of_dom. exact Hs.
      + right. rewrite data_vars_empty in Hs |- *. rewrite <- Hd0, <- Hc0. exact Hs. }
  destruct Hex as (r' & Hr'). exists r'. split; [exact Hr'|].
  pose proof Hr' as H'. apply concat_ok in H'
    as (b0' & rest2' & [= <- <-] & _ & _ & Hdom' & _ & Hcoord' & Hdims' & _).
  apply strip_attrs_eq. split; [|split].
  - intros k. destruct (decide (k ∈ dom (variables a0))) as [Hk|Hk].
    + destruct (proj1 (concat_lookup _ _ _ _ _ k Hr) Hk) as (v & Hv & Hat).
      destruct (concat_at_congr dim m1 m2 _ _ a0 b0 k v Hl Hc0 Hat) as (v' & Hat' & Hs).
      rewrite Hd0 in Hk.
      destruct (proj1 (concat_lookup _ _ _ _ _ k Hr') Hk) as (v'' & Hv'' & Hat'').
      rewrite Hv, Hv''. cbn. f_equal. congruence.
    + rewrite (proj2 (concat_lookup _ _ _ _ _ k Hr) Hk).
      rewrite Hd0 in Hk.
      rewrite (proj2 (concat_lookup _ _ _ _ _ k Hr') Hk). reflexivity.
  - rewrite Hcoord, Hcoord', Hc0.
    assert (is_Some (variables r !! dim) <-> is_Some (variables r' !! dim)) as Hiff.
    { rewrite <- !elem_of_dom, Hdom, Hdom', Hd0. reflexivity. }
    repeat case_bool_decide; tauto || reflexivity.
  - rewrite Hdims, Hdims', Hdm0, (same_up_to_attrs_lens dim _ _ Hl). reflexivity.
Qed.

Lemma concat_len_result (d0 : Dataset) (rest : list Dataset) (dim : string)
    (mode : combine_attrs) (c : Dataset) :
  concat (d0 :: rest) dim mode = Ok c ->
  concat_len dim c = sum_list (concat_len dim <$> d0 :: rest).
Proof.
  intros H. apply concat_ok in H
    as (d0' & rest' & [= <- <-] & _ & _ & _ & _ & _ & Hd & _).
  unfold concat_len at 1. rewrite Hd, lookup_insert_eq. reflexivity.
Qed.

(** One variable of a dataset concatenated onto a concatenation. *)
Lemma concat_at_assoc (d0 : Dataset) (rest : list Dataset) (d c : Dataset)
    (dim : string) (m1 m2 m3 : combine_attrs) (k : string) (rk : XrVariable) :
  concat (d0 :: rest) dim m1 = Ok c ->
  coord_names c = coord_names d0 ->
  k ∈ dom (variables d0) ->
  concat_at dim m2 [c; d] c k = Some rk ->
  exists rk', concat_at dim m3 ((d0 :: rest) ++ [d]) d0 k = Some rk'
              /\ Spec.strip_variable rk = Spec.strip_variable rk'.
Proof.
  intros Hc Hcoord Hk Hat.
  destruct (proj1 (concat_lookup _ _ _ _ _ k Hc) Hk) as (vc & Hvc & Hatc).
  unfold concat_at in Hatc, Hat |- *.
  destruct (concat_items dim k (d0 :: rest)) as [items|] eqn:Hitems; [|discriminate].
  cbn in Hatc.
  destruct (concat_items dim k [c; d]) as [pair|] eqn:Hpair; [|discriminate].
  cbn in Hat.
  assert (exists vd, variables d !! k = Some vd) as [vd Hvd].
  { unfold concat_items in Hpair. apply mapM_pair in Hpair as (b1 & b2 & _ & H2 & _).
    destruct (variables d !! k); [eauto|discriminate]. }
  rewrite (concat_items_pair dim k c d vc vd Hvc Hvd) in Hpair.
  injection Hpair as <-.
  rewrite (concat_items_snoc dim k (d0 :: rest) d items vd Hitems Hvd). cbn.
  rewrite Hcoord in Hat.
  rewrite (concat_len_result _ _ _ _ _ Hc), <- (concat_items_fst _ _ _ _ Hitems) in Hat.
  apply (concat_var_assoc dim k _ m1 m2 m3 items vc vd rk _ Hatc Hat).
Qed.

(** Concatenating a dataset onto a concatenation gives, up to attributes,
    the concatenation of all the datasets. *)
Lemma concat_assoc (l : list Dataset) (d c r : Dataset) (dim : string)
    (m1 m2 m3 : combine_attrs) :
  Forall (fun p => dim ∈ coord_names p) l ->
  concat l dim m1 = Ok c ->
  concat [c; d] dim m2 = Ok r ->
  exists r', concat (l ++ [d]) dim m3 = Ok r'
             /\ Spec.strip_attrs r = Spec.strip_attrs r'.
Proof.
  intros Hdim Hc Hr.
  pose proof Hc as Hc'. apply concat_ok in Hc'
    as (d0 & rest & -> & Hfit & _ & Hdomc & Hsomec & _ & Hdimsc & _).
  apply Forall_cons in Hdim as [Hdim0 _].
  pose proof (concat_coord_names _ _ _ _ _ Hc (or_introl Hdim0)) as Hcoordc.
  pose proof Hr as Hr'. apply concat_ok in Hr'
    as (c' & rest' & [= <- <-] & Hfitp & _ & Hdomr & _ & _ & Hdimsr & _).
  apply Forall_cons in Hfitp as [_ Hfitp]. apply Forall_cons in Hfitp as [Hfd _].
  destruct Hfd as (Hdd & Hcd & Hdmd).
  assert (Hex : exists r', concat ((d0 :: rest) ++ [d]) dim m3 = Ok r').
  { cbn [app]. apply concat_intro.
    - change (d0 :: rest ++ [d]) with ((d0 :: rest) ++ [d]).
      apply Forall_app. split; [exact Hfit|]. constructor; [|constructor].
      unfold fits. split; [congruence|]. split; [congruence|].
      rewrite Hdmd, Hdimsc. apply delete_insert_eq.
    - intros k Hk.
      assert (Hkc : k ∈ dom (variables c)) by (rewrite Hdomc; exact Hk).
      destruct (proj1 (concat_lookup _ _ _ _ _ k Hr) Hkc) as (rk & _ & Hat).
      destruct (concat_at_assoc _ _ _ _ _ m1 m2 m3 _ _ Hc Hcoordc Hk Hat)
        as (rk' & Hat' & _).
      cbn [app] in Hat'. rewrite Hat'. eauto.
    - destruct Hsomec as [Hs|Hs]; [left|right; exact Hs].
      rewrite <- Hdomc. apply elem_of_dom. exact Hs. }
  destruct Hex as (r' & Hr''). exists r'. split; [exact Hr''|].
  cbn [app] in Hr''.
  pose proof Hr'' as H'. apply concat_ok in H'
    as (d0' & rest2 & [= <- <-] & _ & _ & Hdomr' & _ & _ & Hdimsr' & _).
  apply strip_attrs_eq. split; [|split].
  - intros k. destruct (decide (k ∈ dom (variables d0))) as [Hk|Hk].
    + assert (Hkc : k ∈ dom (variables c)) by (rewrite Hdomc; exact Hk).
      destruct (proj1 (concat_lookup _ _ _ _ _ k Hr) Hkc) as (rk & Hrk & Hat).
      destruct (concat_at_assoc _ _ _ _ _ m1 m2 m3 _ _ Hc Hcoordc Hk Hat)
        as (rk' & Hat' & Hs).
      destruct (proj1 (concat_lookup _ _ _ _ _ k Hr'') Hk) as (rk'' & Hrk'' & Hat'').
      cbn [app] in Hat'. rewrite Hrk, Hrk''. cbn. f_equal. congruence.
    + rewrite (proj2 (concat_lookup _ _ _ _ _ k Hr'') Hk).
      rewrite <- Hdomc in Hk.
      rewrite (proj2 (concat_lookup _ _ _ _ _ k Hr) Hk). reflexivity.
  - rewrite (concat_coord_names _ _ _ _ _ Hr'' (or_introl Hdim0)).
    rewrite (concat_coord_names _ _ _ _ _ Hr); [exact Hcoordc|].
    left. rewrite Hcoordc. exact Hdim0.
  - rewrite Hdimsr, Hdimsr', Hdimsc, insert_insert_eq. f_equal.
    cbn [fmap list_fmap]. rewrite (concat_len_result _ _ _ _ _ Hc).
    change (concat_len dim d0 :: (concat_len dim <$> rest ++ [d]))
      with (concat_len dim <$> (d0 :: rest) ++ [d]).
    rewrite fmap_app. cbn [fmap list_fmap]. rewrite sum_list_snoc. cbn. lia.
Qed.

(** ** The loop of [part_000] *)

Lemma ds_bool_true (ds : Dataset) :
  ds_bool ds = true <-> ~ dom (variables ds) ⊆ coord_names ds.
Proof.
  unfold ds_bool. rewrite negb_true_iff, bool_decide_eq_false, data_vars_empty.
  reflexivity.
Qed.

Lemma ds_bool_strip (a b : Dataset) :
  Spec.strip_attrs a = Spec.strip_attrs b -> ds_bool a = ds_bool b.
Proof.
  intros H. pose proof (strip_dom _ _ H) as Hd.
  apply strip_attrs_eq in H as (_ & Hc & _).
  destruct (ds_bool a) eqn:Ha, (ds_bool b) eqn:Hb; try reflexivity.
  - apply ds_bool_true in Ha. rewrite Hd, Hc in Ha. apply ds_bool_true in Ha. congruence.
  - apply ds_bool_true in Hb. rewrite <- Hd, <- Hc in Hb. apply ds_bool_true in Hb. congruence.
Qed.

Lemma ds_bool_concat (d0 : Dataset) (rest : list Dataset) (dim : string)
    (mode : combine_attrs) (c : Dataset) :
  concat (d0 :: rest) dim mode = Ok c ->
  dim ∈ coord_names d0 ->
  ds_bool c = ds_bool d0.
Proof.
  intros H Hd.
  pose proof (concat_coord_names _ _ _ _ _ H (or_introl Hd)) as Hc.
  apply concat_ok in H as (d0' & rest' & [= <- <-] & _ & _ & Hdom & _).
  destruct (ds_bool c) eqn:Ha, (ds_bool d0) eqn:Hb; try reflexivity.
  - apply ds_bool_true in Ha. rewrite Hdom, Hc in Ha. apply ds_bool_true in Ha. congruence.
  - apply ds_bool_true in Hb. rewrite <- Hdom, <- Hc in Hb. apply ds_bool_true in Hb. congruence.
Qed.

Lemma combine_step_nonempty (c p : Dataset) :
  ds_bool c = true ->
  Part000.combine_step (Some c) p
  = rbind (concat [c; p] "time" DropConflicts) (fun r => Ok (Some r)).
Proof. intros H. unfold Part000.combine_step, Part000.py_not. rewrite H. reflexivity. Qed.

Lemma combine_step_some (acc : option Dataset) (p : Dataset) (r : option Dataset) :
  Part000.combine_step acc p = Ok r -> exists c, r = Some c.
Proof.
  unfold Part000.combine_step. destruct (Part000.py_not acc).
  - intros [= <-]. eauto.
  - destruct acc as [c|].
    + destruct (concat _ _ _); [|discriminate]. intros [= <-]. eauto.
    + intros [= <-]. eauto.
Qed.

Lemma combine_all_snoc (acc : option Dataset) (l : list Dataset) (p : Dataset) :
  Part000.combine_all acc (l ++ [p])
  = rbind (Part000.combine_all acc l) (fun c => Part000.combine_step c p).
Proof.
  revert acc. induction l as [|q l IH]; intros acc; cbn.
  - destruct (Part000.combine_step acc p); reflexivity.
  - destruct (Part000.combine_step acc q) as [c|e]; cbn; [apply IH|reflexivity].
Qed.

Lemma combine_all_some (c0 : Dataset) (l : list Dataset) (r : option Dataset) :
  Part000.combine_all (Some c0) l = Ok r -> exists c, r = Some c.
Proof.
  destruct l as [|p l] using rev_ind.
  - intros [= <-]. eauto.
  - rewrite combine_all_snoc. intros H. apply rbind_ok in H as (c & _ & H).
    apply (combine_step_some _ _ _ H).
Qed.

(** The datasets the loop combines: they are not empty, and [time] is one
    of their coordinates. *)
Abbreviation loadable :=
  (fun p : Dataset => ds_bool p = true /\ "time" ∈ coord_names p).

Lemma same_up_to_attrs_refl (l : list Dataset) : same_up_to_attrs l l.
Proof. induction l; constructor; auto. Qed.

(** The loop on two or more datasets agrees, up to attributes, with one
    concatenation of all of them. *)
Lemma combine_all_concat (mode : combine_attrs) (p0 : Dataset)
    (l : list Dataset) (c : Dataset) :
  Forall loadable (p0 :: l) ->
  Part000.combine_all (Some p0) l = Ok (Some c) ->
  (l = [] /\ c = p0)
  \/ (l <> []
      /\ exists c', concat (p0 :: l) "time" mode = Ok c'
                    /\ Spec.strip_attrs c = Spec.strip_attrs c').
Proof.
  revert c. induction l as [|p l IH] using rev_ind; intros c Hall.
  - intros [= <-]. left. split; reflexivity.
  - rewrite combine_all_snoc. intros H. apply rbind_ok in H as (c1 & H1 & H2).
    destruct (combine_all_some _ _ _ H1) as (c2 & ->).
    right. split; [intros E; apply app_eq_nil in E as [_ E]; discriminate|].
    change (p0 :: l ++ [p]) with ((p0 :: l) ++ [p]) in Hall |- *.
    apply Forall_app in Hall as [Hall Hp].
    pose proof Hall as Hall'. apply Forall_cons in Hall' as [[Hne0 Ht0] _].
    destruct (IH c2 Hall H1) as [[-> ->]|(Hne & c' & Hc' & Hs)].
    + rewrite (combine_step_nonempty _ _ Hne0) in H2.
      apply rbind_ok in H2 as (r & Hr & [= <-]).
      cbn [app].
      apply (concat_congr [p0; p] [p0; p] "time" DropConflicts mode r
               (same_up_to_attrs_refl _) Hr).
    + assert (Hne2 : ds_bool c2 = true).
      { rewrite (ds_bool_strip _ _ Hs), (ds_bool_concat _ _ _ _ _ Hc' Ht0). exact Hne0. }
      rewrite (combine_step_nonempty _ _ Hne2) in H2.
      apply rbind_ok in H2 as (r & Hr & [= <-]).
      assert (Hsame : same_up_to_attrs [c2; p] [c'; p]).
      { constructor; [exact Hs|]. apply same_up_to_attrs_refl. }
      destruct (concat_congr _ _ "time" DropConflicts DropConflicts r Hsame Hr)
        as (r1 & Hr1 & Hs1).
      assert (Hdim : Forall (fun q => "time" ∈ coord_names q) (p0 :: l)).
      { eapply Forall_impl; [exact Hall|]. intros q [_ Hq]. exact Hq. }
      destruct (concat_assoc _ _ _ _ "time" mode DropConflicts mode Hdim Hc' Hr1)
        as (r' & Hr' & Hs').
      exists r'. split; [exact Hr'|]. congruence.
Qed.

(** A successful run of a loop of opens gathers the datasets that a plain
    collection of them gathers. *)
Lemma for_each_collect
    (store : string -> option Dataset)
    (transform : gmap string string -> scalar -> scalar -> scalar * scalar)
    (start_date : datetime) (level param_short_name : string)
    (l : list Z) (acc r : option Dataset) (log log' : list event) :
  for_each (Part000.loop_body store transform start_date level param_short_name)
    l acc log = (Ok r, log') ->
  exists parts,
    collect (Part000.load_hour store transform start_date level param_short_name)
      l log = (Ok parts, log')
    /\ Part000.combine_all acc parts = Ok r.
Proof.
  revert acc log. induction l as [|i l IH]; intros acc log H.
  - apply mret_ok in H as [-> ->]. exists []. split; reflexivity.
  - cbn [for_each] in H. apply mbind_ok in H as (c & log1 & Hbody & Hrest).
    unfold Part000.loop_body in Hbody.
    apply mbind_ok in Hbody as (p & log2 & Hp & Hstep).
    apply lift_ok in Hstep as [Hstep ->].
    destruct (IH _ _ Hrest) as (parts & Hparts & Hall).
    exists (p :: parts). split.
    + cbn [collect]. unfold mbind at 1. rewrite Hp.
      unfold mbind at 1. rewrite Hparts. reflexivity.
    + cbn [Part000.combine_all]. rewrite Hstep. exact Hall.
Qed.

Lemma collect_length {A B : Type} (body : A -> M B) (l : list A)
    (log log' : list event) (ys : list B) :
  collect body l log = (Ok ys, log') -> length ys = length l.
Proof.
  revert log ys. induction l as [|x l IH]; intros log ys H.
  - apply mret_ok in H as [-> _]. reflexivity.
  - cbn [collect] in H. apply mbind_ok in H as (y & log1 & _ & H).
    apply mbind_ok in H as (ys' & log2 & Hys & H).
    apply mret_ok in H as [-> <-]. cbn. f_equal. apply (IH _ _ Hys).
Qed.

Lemma collect_Forall {A B : Type} (body : A -> M B) (P : A -> B -> Prop)
    (l : list A) (log log' : list event) (ys : list B) :
  (forall x y lg lg', body x lg = (Ok y, lg') -> P x y) ->
  collect body l log = (Ok ys, log') -> Forall2 P l ys.
Proof.
  intros HP. revert log ys. induction l as [|x l IH]; intros log ys H.
  - apply mret_ok in H as [-> _]. constructor.
  - cbn [collect] in H. apply mbind_ok in H as (y & log1 & Hy & H).
    apply mbind_ok in H as (ys' & log2 & Hys & H).
    apply mret_ok in H as [-> <-]. constructor; [apply (HP _ _ _ _ Hy)|apply (IH _ _ Hys)].
Qed.

(** What [load_hour] of [part_000] returns has [time] among its
    coordinates. *)
Lemma load_hour_time
    (store : string -> option Dataset)
    (transform : gmap string string -> scalar -> scalar -> scalar * scalar)
    (start_date : datetime) (level param_short_name : string) (i : Z)
    (log log' : list event) (p : Dataset) :
  Part000.load_hour store transform start_date level param_short_name i log
    = (Ok p, log') ->
  "time" ∈ coord_names p.
Proof.
  unfold Part000.load_hour. intros H.
  apply mbind_ok in H as (t & l0 & H0 & H). apply lift_ok in H0 as [_ ->].
  apply mbind_ok in H as (u & l1 & H1 & H). apply lift_ok in H1 as [_ ->].
  apply load_dataset_ok in H as (raw & d1 & d2 & d3 & _ & _ & _ & _ & H4).
  apply set_coords_ok in H4 as (_ & _ & Hc & _). set_solver.
Qed.

(** ** Attributes that agree *)

Lemma drop_conflicts_step_same (A : gmap string string) (acc : gmap string string) :
  acc = ∅ \/ acc = A ->
  drop_conflicts_step (acc, ∅) A = (A, ∅).
Proof.
  intros Hacc. unfold drop_conflicts_step. cbv zeta. cbn [fst snd].
  rewrite (map_filter_id _ A) by (intros k v _; cbn; set_solver).
  assert (H2 : acc ∪ A = A).
  { destruct Hacc as [->| ->]; [apply (left_id _ _)|apply (idemp _)]. }
  rewrite H2.
  rewrite (map_filter_id _ A) by (intros k v Hk; cbn; right; exact Hk).
  f_equal. set_solver.
Qed.

(** Combining attributes that are all the same gives them back, in
    either way of combining. *)
Lemma merge_attrs_same (mode : combine_attrs) (A : gmap string string)
    (l : list (gmap string string)) :
  l <> [] -> Forall (fun a => a = A) l -> merge_attrs mode l = A.
Proof.
  intros Hl Hall. destruct l as [|a l]; [contradiction|].
  apply Forall_cons in Hall as [-> Hall].
  destruct mode; [reflexivity|].
  unfold merge_attrs. cbn [foldl].
  rewrite drop_conflicts_step_same by (left; reflexivity).
  induction Hall as [|a l -> _ IH]; [reflexivity|].
  cbn [foldl]. rewrite drop_conflicts_step_same by (right; reflexivity).
  apply IH. discriminate.
Qed.

Lemma same_attrs_lookup (a b : Dataset) (k : string) :
  Spec.same_attrs a b ->
  vattrs <$> variables a !! k = vattrs <$> variables b !! k.
Proof.
  intros [_ H]. rewrite <- !lookup_fmap, H. reflexivity.
Qed.

(** Datasets that agree up to attributes and in their attributes are
    equal. *)
Lemma strip_same_attrs_eq (a b p : Dataset) :
  Spec.strip_attrs a = Spec.strip_attrs b ->
  Spec.same_attrs a p -> Spec.same_attrs b p -> a = b.
Proof.
  intros Hs Ha Hb. apply strip_attrs_eq in Hs as (Hv & Hc & Hd).
  destruct a as [va ca da aa], b as [vb cb db ab]. cbn in *.
  destruct Ha as [Ha1 Ha2], Hb as [Hb1 Hb2]. cbn in *.
  assert (Hatt : aa = ab) by congruence.
  assert (Hvar : va = vb).
  { apply map_eq. intros k. specialize (Hv k).
    assert (Hat : vattrs <$> va !! k = vattrs <$> vb !! k).
    { rewrite <- !lookup_fmap, Ha2, Hb2. reflexivity. }
    destruct (va !! k) as [[d1 s1 v1 a1]|], (vb !! k) as [[d2 s2 v2 a2]|];
      cbn in *; try discriminate; [|reflexivity].
    injection Hv as -> -> ->. injection Hat as ->. reflexivity. }
  rewrite Hatt, Hvar, Hc, Hd. reflexivity.
Qed.

(** The concatenation of datasets with the attributes of [p] has the
    attributes of [p]. *)
Lemma concat_same_attrs (dss : list Dataset) (dim : string) (mode : combine_attrs)
    (c p : Dataset) :
  concat dss dim mode = Ok c ->
  Forall (fun d => Spec.same_attrs d p) dss ->
  Spec.same_attrs c p.
Proof.
  intros H Hall.
  destruct dss as [|d0 rest]; [discriminate|].
  pose proof (fun k => concat_lookup _ _ _ _ _ k H) as Hlook.
  apply concat_ok in H as (d0' & rest' & [= <- <-] & _ & _ & _ & _ & _ & _ & Hat).
  split.
  - rewrite Hat. apply merge_attrs_same; [discriminate|].
    apply Forall_fmap. eapply Forall_impl; [exact Hall|].
    intros d [Hd _]. exact Hd.
  - apply map_eq. intros k. rewrite !lookup_fmap.
    pose proof (Forall_inv Hall) as H0.
    rewrite <- (same_attrs_lookup _ _ k H0).
    destruct (Hlook k) as [Hin Hout].
    destruct (variables d0 !! k) as [v0|] eqn:Hv0.
    2:{ rewrite Hout by (apply not_elem_of_dom; exact Hv0). reflexivity. }
    destruct Hin as (v & -> & Hcat); [apply elem_of_dom; eauto|].
    cbn. f_equal.
    unfold concat_at in Hcat.
    destruct (concat_items dim k (d0 :: rest)) as [items|] eqn:Hit; [|discriminate].
    cbn in Hcat.
    assert (Hitems : Forall (fun it : nat * XrVariable => vattrs it.2 = vattrs v0) items
                     /\ head (items.*2) = Some v0).
    { unfold concat_items in Hit. rewrite mapM_Some in Hit.
      split.
      - eapply Forall2_Forall_r; [exact Hit|].
        eapply Forall_impl; [exact Hall|].
        intros d Hd it Hi. cbn in Hi.
        pose proof (same_attrs_lookup _ _ k Hd) as E1.
        pose proof (same_attrs_lookup _ _ k H0) as E2.
        rewrite Hv0 in E2.
        destruct (variables d !! k) as [w|]; [|discriminate].
        injection Hi as <-. cbn in *. congruence.
      - apply Forall2_cons_inv_l in Hit as (it & its & Hi & _ & ->).
        rewrite Hv0 in Hi. injection Hi as <-. reflexivity. }
    destruct Hitems as [Hvat Hhead].
    destruct (concat_over dim k (bool_decide (k ∉ coord_names d0)) items) eqn:Hco.
    + apply (concat_var_stacked _ _ _ _ _ _ Hco) in Hcat
        as (ex & e0 & _ & _ & _ & ->). cbn.
      apply merge_attrs_same.
      * destruct items; [discriminate|discriminate].
      * rewrite <- list_fmap_compose. apply Forall_fmap.
        eapply Forall_impl; [exact Hvat|]. intros it Hi. exact Hi.
    + apply (concat_var_kept _ _ _ _ _ _ Hco) in Hcat as [Hh _].
      congruence.
Qed.

(** The loop keeps attributes that all hours share. *)
Lemma combine_all_same_attrs (p c0 : Dataset) (l : list Dataset) (c : Dataset) :
  Spec.same_attrs c0 p ->
  Forall (fun d => Spec.same_attrs d p) l ->
  Part000.combine_all (Some c0) l = Ok (Some c) ->
  Spec.same_attrs c p.
Proof.
  intros H0 Hall. revert c0 H0.
  induction Hall as [|d l Hd _ IH]; intros c0 H0 H.
  - injection H as <-. exact H0.
  - cbn [Part000.combine_all] in H. apply rbind_ok in H as (acc & Hstep & H).
    destruct (combine_step_some _ _ _ Hstep) as [c1 ->].
    apply (IH c1); [|exact H].
    unfold Part000.combine_step in Hstep.
    destruct (Part000.py_not (Some c0)).
    + injection Hstep as <-. exact Hd.
    + apply rbind_ok in Hstep as (r & Hr & [= <-]).
      apply (concat_same_attrs _ _ _ _ _ Hr).
      constructor; [exact H0|]. constructor; [exact Hd|constructor].
Qed.

(** ** Evaluation on a concrete archive *)

Lemma holds_ok {A : Type} (r : result A) (f : A -> bool) :
  holds r f = true -> exists a, r = Ok a /\ f a = true.
Proof.
  destruct r as [a|e]; [|discriminate]. intros H. exists a. split; [reflexivity|exact H].
Qed.

(** ** The loop of [part_000] and one concatenation *)

(** The datasets behind a result of the loop. *)
Lemma load_combined_dataset_parts
    (store : string -> option Dataset)
    (transform : gmap string string -> scalar -> scalar -> scalar * scalar)
    (start_date : datetime) (num_hours : Z) (level param_short_name : string)
    (log log' : list event) (r : Dataset) :
  Part000.load_combined_dataset store transform start_date num_hours level
    param_short_name log = (Ok (Some r), log') ->
  exists p0 rest,
    Spec.hourly_datasets store transform start_date num_hours level
      param_short_name log = (Ok (p0 :: rest), log')
    /\ length (p0 :: rest) = Z.to_nat num_hours
    /\ Forall (fun p => "time" ∈ coord_names p) (p0 :: rest)
    /\ Part000.combine_all (Some p0) rest = Ok (Some r).
Proof.
  unfold Part000.load_combined_dataset, Spec.hourly_datasets. intros H.
  apply for_each_collect in H as (parts & Hparts & Hall).
  destruct parts as [|p0 rest]; [discriminate|].
  exists p0, rest. split; [exact Hparts|].
  split; [rewrite (collect_length _ _ _ _ _ Hparts); apply length_seqZ|].
  split; [|exact Hall].
  apply (collect_Forall _ (fun _ p => "time" ∈ coord_names p)) in Hparts.
  - clear -Hparts. induction Hparts; constructor; assumption.
  - intros i p lg lg' Hp. apply (load_hour_time _ _ _ _ _ _ _ _ _ Hp).
Qed.

(** Claim C4, amended.  When the per-hour datasets are not empty, the
    loop of [part_000] over two or more hours returns a dataset with the
    dimensions, the coordinates and the data of one concatenation of the
    list of per-hour datasets, whatever way that one combines attributes;
    the attributes themselves may differ, and when all hours carry the
    same attributes the two datasets are equal.  Over one hour the loop
    returns the per-hour dataset as it is. *)
Theorem pairwise_concat_is_single_concat
    (store : string -> option Dataset)
    (transform : gmap string string -> scalar -> scalar -> scalar * scalar)
    (mode : combine_attrs)
    (start_date : datetime) (num_hours : Z) (level param_short_name : string)
    (log log' : list event) (r : Dataset) :
  Part000.load_combined_dataset store transform start_date num_hours level
    param_short_name log = (Ok (Some r), log') ->
  exists parts,
    Spec.hourly_datasets store transform start_date num_hours level
      param_short_name log = (Ok parts, log')
    /\ length parts = Z.to_nat num_hours
    /\ (Forall (fun p => ds_bool p = true) parts ->
        (num_hours = 1 -> parts = [r])
        /\ (2 <= num_hours ->
            exists r',
              concat parts "time" mode = Ok r'
              /\ Spec.single_concat store transform mode start_date num_hours
                   level param_short_name log = (Ok r', log')
              /\ Spec.strip_attrs r = Spec.strip_attrs r'
              /\ (forall a, Forall (fun p => Spec.same_attrs p a) parts ->
                            r = r'))).
Proof.
  intros H.
  apply load_combined_dataset_parts in H as (p0 & rest & Hparts & Hlen & Htime & Hall).
  exists (p0 :: rest). split; [exact Hparts|]. split; [exact Hlen|].
  intros Hne.
  assert (Hload : Forall loadable (p0 :: rest)).
  { apply Forall_and. split; assumption. }
  destruct (combine_all_concat mode _ _ _ Hload Hall)
    as [[-> ->]|(Hrest & r' & Hr' & Hs)].
  - split; [reflexivity|]. intros Hn. cbn in Hlen. lia.
  - split.
    + intros ->. destruct rest; [contradiction|]. cbn in Hlen. lia.
    + intros _. exists r'. split; [exact Hr'|].
      split.
      { unfold Spec.single_concat, Spec.hourly_datasets, mbind in Hparts |- *.
        rewrite Hparts. unfold lift. rewrite Hr'. reflexivity. }
      split; [exact Hs|].
      intros a Ha. apply (strip_same_attrs_eq r r' a Hs).
      * apply Forall_cons in Ha as [Ha0 Ha].
        apply (combine_all_same_attrs a p0 rest r Ha0 Ha Hall).
      * apply (concat_same_attrs _ _ _ _ _ Hr' Ha).
Qed.

(** Three hours of the miniature archive without its attributes: the
    loop and one concatenation return the same dataset. *)
Lemma pairwise_concat_is_single_concat_witness :
  exists r r',
    fst (run (Part000.load_combined_dataset Mini.uniform_store Mini.transform
                Mini.start 3 "1000mb" "TMP")) = Ok (Some r)
    /\ fst (run (Spec.single_concat Mini.uniform_store Mini.transform Override
                   Mini.start 3 "1000mb" "TMP")) = Ok r'
    /\ r = r'.
Proof.
  assert (Hok : holds (fst (run (Part000.load_combined_dataset Mini.uniform_store
                                   Mini.transform Mini.start 3 "1000mb" "TMP")))
                  (from_option (fun _ => true) false) = true)
    by (vm_compute; reflexivity).
  assert (Hne : holds (fst (run (Spec.hourly_datasets Mini.uniform_store
                                   Mini.transform Mini.start 3 "1000mb" "TMP")))
                  (fun parts =>
                     forallb ds_bool parts
                     && match parts with
                        | [] => false
                        | p0 :: _ =>
                            bool_decide (Forall (fun p => Spec.same_attrs p p0) parts)
                        end) = true)
    by (vm_compute; reflexivity).
  apply holds_ok in Hok as ([r|] & Hr & Hf); [|discriminate Hf].
  unfold run in Hr, Hne |- *.
  destruct (Part000.load_combined_dataset Mini.uniform_store Mini.transform
              Mini.start 3 "1000mb" "TMP" []) as [res log'] eqn:H.
  cbn [fst] in Hr. subst res.
  destruct (pairwise_concat_is_single_concat Mini.uniform_store Mini.transform
              Override _ _ _ _ _ _ _ H) as (parts & Hparts & _ & Hst).
  rewrite Hparts in Hne. cbn [fst holds] in Hne.
  apply andb_prop in Hne as [Hne Hsame].
  destruct parts as [|p0 parts]; [discriminate Hsame|].
  apply bool_decide_eq_true in Hsame.
  destruct Hst as [_ Hst]; [apply forallb_all; exact Hne|].
  destruct Hst as (r' & _ & Hs & _ & Heq); [lia|].
  exists r, r'. split; [reflexivity|].
  split; [rewrite Hs; reflexivity|exact (Heq p0 Hsame)].
Defined.

(** Claim C4 as stated fails in two ways.  Over one hour the loop
    returns the per-hour dataset, which has no time dimension, while a
    concatenation of the one-element list has a time dimension of length
    one.  Over three hours whose datasets carry different values of one
    attribute, the loop ends with the value of the last hour, one
    concatenation that drops conflicts has none, and one that takes the
    first has that of the first.  The per-hour datasets are not empty. *)
Lemma pairwise_concat_differs :
  (exists parts r r',
     fst (run (Spec.hourly_datasets Mini.store Mini.transform Mini.start 1
                 "1000mb" "TMP")) = Ok parts
     /\ forallb ds_bool parts = true
     /\ fst (run (Part000.load_combined_dataset Mini.store Mini.transform
                    Mini.start 1 "1000mb" "TMP")) = Ok (Some r)
     /\ fst (run (Spec.single_concat Mini.store Mini.transform DropConflicts
                    Mini.start 1 "1000mb" "TMP")) = Ok r'
     /\ dims r !! "time" = None
     /\ dims r' !! "time" = Some 1%nat
     /\ r <> r')
  /\ (exists parts r r1 r2,
        fst (run (Spec.hourly_datasets Mini.store Mini.transform Mini.start 3
                    "1000mb" "TMP")) = Ok parts
        /\ forallb ds_bool parts = true
        /\ fst (run (Part000.load_combined_dataset Mini.store Mini.transform
                       Mini.start 3 "1000mb" "TMP")) = Ok (Some r)
        /\ fst (run (Spec.single_concat Mini.store Mini.transform DropConflicts
                       Mini.start 3 "1000mb" "TMP")) = Ok r1
        /\ fst (run (Spec.single_concat Mini.store Mini.transform Override
                       Mini.start 3 "1000mb" "TMP")) = Ok r2
        /\ attrs r !! "analysis_hour" = Some "02"
        /\ attrs r1 !! "analysis_hour" = None
        /\ attrs r2 !! "analysis_hour" = Some "00"
        /\ r <> r1 /\ r <> r2).
Proof.
  split.
  - assert (Hp : holds (fst (run (Spec.hourly_datasets Mini.store Mini.transform
                                    Mini.start 1 "1000mb" "TMP")))
                   (forallb ds_bool) = true)
      by (vm_compute; reflexivity).
    assert (Hr : holds (fst (run (Part000.load_combined_dataset Mini.store
                                    Mini.transform Mini.start 1 "1000mb" "TMP")))
                   (from_option (fun r => bool_decide (dims r !! "time" = None)) false)
                 = true)
      by (vm_compute; reflexivity).
    assert (Hr' : holds (fst (run (Spec.single_concat Mini.store Mini.transform
                                     DropConflicts Mini.start 1 "1000mb" "TMP")))
                    (fun r => bool_decide (dims r !! "time" = Some 1%nat)) = true)
      by (vm_compute; reflexivity).
    apply holds_ok in Hp as (parts & Hp & Hb).
    apply holds_ok in Hr as ([r|] & Hr & Hd); [|discriminate Hd].
    apply holds_ok in Hr' as (r' & Hr' & Hd').
    cbn in Hd. apply bool_decide_eq_true in Hd, Hd'.
    exists parts, r, r'. repeat split; try assumption.
    intros ->. congruence.
  - assert (Hp : holds (fst (run (Spec.hourly_datasets Mini.store Mini.transform
                                    Mini.start 3 "1000mb" "TMP")))
                   (forallb ds_bool) = true)
      by (vm_compute; reflexivity).
    assert (Hr : holds (fst (run (Part000.load_combined_dataset Mini.store
                                    Mini.transform Mini.start 3 "1000mb" "TMP")))
                   (from_option
                      (fun r => bool_decide (attrs r !! "analysis_hour" = Some "02"))
                      false) = true)
      by (vm_compute; reflexivity).
    assert (H1 : holds (fst (run (Spec.single_concat Mini.store Mini.transform
                                    DropConflicts Mini.start 3 "1000mb" "TMP")))
                   (fun r => bool_decide (attrs r !! "analysis_hour" = None)) = true)
      by (vm_compute; reflexivity).
    assert (H2 : holds (fst (run (Spec.single_concat Mini.store Mini.transform
                                    Override Mini.start 3 "1000mb" "TMP")))
                   (fun r => bool_decide (attrs r !! "analysis_hour" = Some "00")) = true)
      by (vm_compute; reflexivity).
    apply holds_ok in Hp as (parts & Hp & Hb).
    apply holds_ok in Hr as ([r|] & Hr & Hd); [|discriminate Hd].
    apply holds_ok in H1 as (r1 & Hr1 & Hd1).
    apply holds_ok in H2 as (r2 & Hr2 & Hd2).
    cbn in Hd. apply bool_decide_eq_true in Hd, Hd1, Hd2.
    exists parts, r, r1, r2. repeat split; try assumption.
    + intros ->. congruence.
    + intros ->. congruence.
Qed.

(** ** The time coordinate *)

(** Renaming the grid coordinates does not make [time] a dimension. *)
Lemma rename_dims_time (ds ds' : Dataset) :
  rename xy_names ds = Ok ds' ->
  dims ds !! "time" = None -> dims ds' !! "time" = None.
Proof.
  unfold rename.
  case_bool_decide; [|discriminate].
  case_bool_decide; [|discriminate].
  case_bool_decide as Hnd; [|discriminate].
  intros [= <-] Ht. cbn.
  destruct (kmap _ (dims ds) !! "time") as [n|] eqn:E; [|reflexivity].
  apply (lookup_kmap_nodup _ _ _ _ Hnd) in E as [k [Hk Hm]].
  destruct (rename_key_cases k) as [[_ E]|[[_ E]|[_ [_ E]]]];
    rewrite E in Hk; [discriminate|discriminate|]. subst k. congruence.
Qed.

(** [scalar_time] by the fields of the variable. *)
Lemma scalar_time_inv (ds : Dataset) (s : scalar) :
  Spec.scalar_time ds s
  <-> (exists v, variables ds !! "time" = Some v
                 /\ vdims v = [] /\ vshape v = [] /\ vvalues v = [s])
      /\ dims ds !! "time" = None.
Proof.
  unfold Spec.scalar_time. split; intros [H Hd]; (split; [|exact Hd]).
  - destruct (variables ds !! "time") as [v|]; [|discriminate].
    cbn in H. injection H as H1 H2 H3. exists v. repeat split; assumption.
  - destruct H as (v & -> & H1 & H2 & H3). cbn. unfold Spec.strip_variable.
    rewrite H1, H2, H3. reflexivity.
Qed.

(** An hour loaded by the third notebook carries the time the notebook
    computed for it. *)
Lemma notmf_load_hour_time
    (store : string -> option Dataset)
    (start_date : datetime) (level param_short_name : string) (i : Z)
    (log log' : list event) (p : Dataset) :
  NotMf.load_hour store start_date level param_short_name i log = (Ok p, log') ->
  exists t, add_hours start_date i = Ok t
            /\ Spec.scalar_time p (STime t)
            /\ "time" ∈ coord_names p.
Proof.
  unfold NotMf.load_hour. intros H.
  apply mbind_ok in H as (t & l0 & H0 & H). apply lift_ok in H0 as [H0 ->].
  apply mbind_ok in H as (u & l1 & H1 & H). apply lift_ok in H1 as [_ ->].
  apply load_ok in H as (raw & d1 & d2 & _ & _ & Hset & Hco & Hren).
  exists t. split; [exact H0|].
  apply setitem_scalar_ok in Hset as (Hnd & Hv1 & Hc1 & Hd1 & _).
  apply set_coords_ok in Hco as (_ & Hv2 & Hc2 & Hd2 & _).
  split; [apply scalar_time_inv; split|].
  - exists (rename_variable xy_names (scalar_variable (STime t))).
    split; [|repeat split; reflexivity].
    apply (lookup_rename _ _ _ _ _ Hren). exists "time", (scalar_variable (STime t)).
    split; [reflexivity|]. split; [|reflexivity].
    rewrite Hv2, Hv1. apply lookup_insert_eq.
  - apply (rename_dims_time _ _ Hren). rewrite Hd2, Hd1.
    apply not_elem_of_dom. exact Hnd.
  - apply rename_ok in Hren as (_ & _ & Hc & _). rewrite Hc, Hc2.
    apply elem_of_map. exists "time". split; [reflexivity|set_solver].
Qed.

(** The items of [time] in datasets that have it as a single value, and
    what they expand to. *)
Lemma scalar_time_items (dss : list Dataset) (stamps : list scalar)
    (items : list (nat * XrVariable)) (ex : list XrVariable) :
  Forall2 Spec.scalar_time dss stamps ->
  concat_items "time" "time" dss = Some items ->
  mapM (fun it => expand "time" it.1 it.2) items = Some ex ->
  sum_list (fst <$> items) = length dss
  /\ mjoin (vvalues <$> ex) = stamps
  /\ Forall (fun e => vdims e = ["time"] /\ vshape e = [1%nat]) ex.
Proof.
  unfold concat_items. rewrite !mapM_Some. intros Hst.
  revert items ex. induction Hst as [|p s dss stamps Hp _ IH]; intros items ex Hit Hex.
  - apply Forall2_nil_inv_l in Hit as ->. apply Forall2_nil_inv_l in Hex as ->.
    repeat split. constructor.
  - apply Forall2_cons_inv_l in Hit as (it & items' & Hi & Hit & ->).
    apply Forall2_cons_inv_l in Hex as (e & ex' & He & Hex & ->).
    destruct (IH _ _ Hit Hex) as (Hsum & Hjoin & Hall).
    apply scalar_time_inv in Hp as [(v & Hv & Hvd & Hvs & Hvv) Hd].
    rewrite Hv in Hi. cbn in Hi. injection Hi as <-.
    unfold concat_len in He. rewrite Hd in He. cbn in He.
    unfold expand in He. rewrite Hvd in He.
    rewrite bool_decide_eq_false_2 in He by (apply not_elem_of_nil).
    injection He as <-. cbn.
    split; [unfold concat_len; rewrite Hd; cbn; f_equal; exact Hsum|].
    split; [rewrite Hvv; cbn; f_equal; exact Hjoin|].
    constructor; [|exact Hall]. cbn. rewrite Hvs. split; reflexivity.
Qed.

Lemma scalar_time_len (dss : list Dataset) (stamps : list scalar) :
  Forall2 Spec.scalar_time dss stamps ->
  sum_list (concat_len "time" <$> dss) = length dss.
Proof.
  intros Hst. induction Hst as [|p s l l' [_ Hp] _ IH]; [reflexivity|].
  cbn. unfold concat_len at 1. rewrite Hp. cbn. f_equal. exact IH.
Qed.

(** Datasets that carry one time each are stacked into a dataset whose
    time coordinate lists these times in order. *)
Lemma concat_scalar_time (dss : list Dataset) (stamps : list scalar)
    (mode : combine_attrs) (r : Dataset) :
  concat dss "time" mode = Ok r ->
  Forall2 Spec.scalar_time dss stamps ->
  exists v, variables r !! "time" = Some v
            /\ vdims v = ["time"]
            /\ vshape v = [length dss]
            /\ vvalues v = stamps
            /\ "time" ∈ coord_names r
            /\ dims r !! "time" = Some (length dss).
Proof.
  intros H Hst.
  destruct dss as [|d0 rest]; [discriminate|].
  pose proof (concat_lookup _ _ _ _ _ "time" H) as [Hin _].
  pose proof H as Hok.
  apply concat_ok in Hok as (d0' & rest' & [= <- <-] & _ & _ & _ & _ & Hc & Hd & _).
  assert (Hdom : "time" ∈ dom (variables d0)).
  { inversion Hst as [|? ? ? ? Hp _]; subst.
    apply scalar_time_inv in Hp as [(v & Hv & _) _].
    apply elem_of_dom. exists v. exact Hv. }
  destruct (Hin Hdom) as (v & Hv & Hat).
  unfold concat_at in Hat.
  destruct (concat_items "time" "time" (d0 :: rest)) as [items|] eqn:Hit;
    [|discriminate]. cbn in Hat.
  unfold concat_var in Hat.
  assert (Hover : concat_over "time" "time"
                    (bool_decide ("time" ∉ coord_names d0)) items = true).
  { unfold concat_over. rewrite (bool_decide_eq_true_2 ("time" = "time")) by reflexivity.
    rewrite orb_true_r. reflexivity. }
  rewrite Hover in Hat.
  destruct (mapM _ items) as [ex|] eqn:Hex; [|discriminate]. cbn in Hat.
  destruct (scalar_time_items _ _ _ _ Hst Hit Hex) as (Hsum & Hjoin & Hall).
  destruct (head ex) as [e0|] eqn:Hh; [|discriminate]. cbn in Hat.
  destruct (forallb _ ex); [|discriminate]. injection Hat as <-.
  assert (He0 : vdims e0 = ["time"] /\ vshape e0 = [1%nat]).
  { destruct ex as [|e ex']; [discriminate|]. injection Hh as ->.
    inversion Hall; subst. assumption. }
  destruct He0 as [Hd0 Hs0].
  exists {| vdims := vdims e0;
            vshape := sum_list (fst <$> items) :: tail (vshape e0);
            vvalues := mjoin (vvalues <$> ex);
            vattrs := merge_attrs mode (vattrs <$> (snd <$> items)) |}.
  split; [exact Hv|]. cbn.
  split; [exact Hd0|].
  split; [rewrite Hs0, Hsum; reflexivity|].
  split; [exact Hjoin|].
  split.
  - rewrite Hc. rewrite bool_decide_eq_true_2 by (rewrite Hv; eauto). set_solver.
  - rewrite Hd, lookup_insert_eq. f_equal.
    apply (scalar_time_len _ _ Hst).
Qed.

(** A variable of a dataset, read off a dataset that is the same up to
    attributes. *)
Lemma strip_lookup (a b : Dataset) (k : string) (w : XrVariable) :
  Spec.strip_attrs a = Spec.strip_attrs b ->
  variables b !! k = Some w ->
  exists v, variables a !! k = Some v
            /\ vdims v = vdims w /\ vshape v = vshape w /\ vvalues v = vvalues w.
Proof.
  intros H Hw. apply strip_attrs_eq in H as (Hv & _). specialize (Hv k).
  rewrite Hw in Hv. destruct (variables a !! k) as [v|]; [|discriminate].
  cbn in Hv. apply (inj Some) in Hv. apply strip_variable_eq in Hv.
  exists v. split; [reflexivity|exact Hv].
Qed.

(** The times and the datasets of a list of hours loaded by the third
    notebook. *)
Lemma notmf_hours_times
    (store : string -> option Dataset)
    (start_date : datetime) (level param_short_name : string) (l : list Z)
    (log log' : list event) (datasets : list Dataset) :
  collect (NotMf.load_hour store start_date level param_short_name) l log
    = (Ok datasets, log') ->
  exists ts, Forall2 (fun i t => add_hours start_date i = Ok t) l ts
             /\ Forall2 Spec.scalar_time datasets (STime <$> ts)
             /\ Forall (fun p => "time" ∈ coord_names p) datasets.
Proof.
  intros H.
  apply (collect_Forall _
           (fun i p => exists t, add_hours start_date i = Ok t
                                 /\ Spec.scalar_time p (STime t)
                                 /\ "time" ∈ coord_names p)) in H.
  - induction H as [|i p l ps (t & Ht & Hs & Hc) _ (ts & IH1 & IH2 & IH3)].
    + exists []. repeat split; constructor.
    + exists (t :: ts). repeat split; constructor; assumption.
  - intros i p lg lg' Hp. apply (notmf_load_hour_time _ _ _ _ _ _ _ _ Hp).
Qed.

(** The time coordinate of the dataset the third notebook returns. *)
Lemma notmf_time_coordinate
    (store : string -> option Dataset)
    (transform : gmap string string -> scalar -> scalar -> scalar * scalar)
    (start_date : datetime) (num_hours : Z) (level param_short_name : string)
    (log log' : list event) (r : Dataset) :
  NotMf.load_combined_dataset store transform start_date num_hours level
    param_short_name log = (Ok r, log') ->
  exists ts v,
    Forall2 (fun i t => add_hours start_date i = Ok t) (seqZ 0 num_hours) ts
    /\ variables r !! "time" = Some v
    /\ "time" ∈ coord_names r
    /\ vdims v = ["time"]
    /\ vshape v = [Z.to_nat num_hours]
    /\ vvalues v = STime <$> ts.
Proof.
  intros H.
  apply notmf_load_combined_dataset_ok in H
    as (u & grid & log1 & dss & cat & ds1 & cf & ds2
        & _ & _ & Hcol & Hcat & Hgrid & _ & Hcrs & Hll).
  pose proof (collect_length _ _ _ _ _ Hcol) as Hlen. rewrite length_seqZ in Hlen.
  apply notmf_hours_times in Hcol as (ts & Hts & Hst & _).
  destruct (concat_scalar_time _ _ _ _ Hcat Hst) as (v & Hv & Hd & Hs & Hvv & Hc & _).
  apply add_grid_ok in Hgrid as (gx & gy & _ & _ & Hv1 & _ & _ & Hc1 & _).
  apply assign_crs_ok in Hcrs as (Hv2 & Hc2 & _).
  apply assign_latitude_longitude_ok in Hll as (cf' & xs & ys & _ & _ & _ & Hv3 & Hc3 & _).
  exists ts, v. split; [exact Hts|].
  split.
  { rewrite Hv3, Hv2, Hv1. rewrite !lookup_insert_ne by discriminate. exact Hv. }
  split; [rewrite Hc3, Hc2; set_solver|].
  split; [exact Hd|]. split; [rewrite Hs, Hlen; reflexivity|exact Hvv].
Qed.

(** The time coordinate of the dataset the loop of [part_000] returns,
    from the times of the per-hour datasets. *)
Lemma part000_time_coordinate
    (store : string -> option Dataset)
    (transform : gmap string string -> scalar -> scalar -> scalar * scalar)
    (start_date : datetime) (num_hours : Z) (level param_short_name : string)
    (log log' : list event) (r : Dataset) :
  Part000.load_combined_dataset store transform start_date num_hours level
    param_short_name log = (Ok (Some r), log') ->
  exists parts,
    Spec.hourly_datasets store transform start_date num_hours level
      param_short_name log = (Ok parts, log')
    /\ length parts = Z.to_nat num_hours
    /\ forall stamps,
         Forall (fun p => ds_bool p = true) parts ->
         Forall2 Spec.scalar_time parts stamps ->
         Spec.time_values r = Some stamps
         /\ "time" ∈ coord_names r
         /\ (2 <= num_hours ->
             exists v, variables r !! "time" = Some v
                       /\ vdims v = ["time"]
                       /\ vshape v = [Z.to_nat num_hours]
                       /\ dims r !! "time" = Some (Z.to_nat num_hours)).
Proof.
  intros H.
  apply load_combined_dataset_parts in H as (p0 & rest & Hparts & Hlen & Htime & Hall).
  exists (p0 :: rest). split; [exact Hparts|]. split; [exact Hlen|].
  intros stamps Hne Hst.
  assert (Hload : Forall loadable (p0 :: rest)).
  { apply Forall_and. split; assumption. }
  destruct (combine_all_concat DropConflicts _ _ _ Hload Hall)
    as [[-> ->]|(Hrest & c & Hc & Hs)].
  - apply Forall2_cons_inv_l in Hst as (s & st' & Hp & Hst & ->).
    apply scalar_time_inv in Hp as [(v & Hv & _ & _ & Hvv) _].
    apply Forall2_nil_inv_l in Hst as ->.
    split; [unfold Spec.time_values; rewrite Hv; cbn; rewrite Hvv; reflexivity|].
    split; [inversion Htime; assumption|].
    intros Hn. cbn in Hlen. lia.
  - destruct (concat_scalar_time _ _ _ _ Hc Hst) as (w & Hw & Hd & Hsh & Hvv & Hco & Hdi).
    destruct (strip_lookup _ _ _ _ Hs Hw) as (v & Hv & Hvd & Hvs & Hvvv).
    apply strip_attrs_eq in Hs as (_ & Hcn & Hdims).
    split; [unfold Spec.time_values; rewrite Hv; cbn; congruence|].
    split; [rewrite Hcn; exact Hco|].
    intros _. exists v. split; [exact Hv|].
    split; [congruence|]. rewrite <- Hlen.
    split; [congruence|]. rewrite Hdims. exact Hdi.
Qed.

(** Claim C2, amended.  In the notebook without [open_mfdataset] the
    dataset returned has a time coordinate along the time dimension with
    exactly [num_hours] values, the [i]-th being [start_date] plus [i]
    hours, and there is at least one hour.  In [part_000] the values of the
    time coordinate are the times the per-hour datasets bring from the
    archive, in hour order, whatever [start_date] is; from two hours on
    they lie along a time dimension of length [num_hours]. *)
Theorem time_axis_values
    (store : string -> option Dataset)
    (transform : gmap string string -> scalar -> scalar -> scalar * scalar)
    (start_date : datetime) (num_hours : Z) (level param_short_name : string)
    (log log' : list event) :
  (forall r,
     NotMf.load_combined_dataset store transform start_date num_hours level
       param_short_name log = (Ok r, log') ->
     1 <= num_hours
     /\ exists v,
          variables r !! "time" = Some v
          /\ "time" ∈ coord_names r
          /\ vdims v = ["time"]
          /\ vshape v = [Z.to_nat num_hours]
          /\ length (vvalues v) = Z.to_nat num_hours
          /\ forall i, 0 <= i < num_hours ->
               exists t, add_hours start_date i = Ok t
                         /\ vvalues v !! Z.to_nat i = Some (STime t))
  /\ (forall r,
        Part000.load_combined_dataset store transform start_date num_hours level
          param_short_name log = (Ok (Some r), log') ->
        exists parts,
          Spec.hourly_datasets store transform start_date num_hours level
            param_short_name log = (Ok parts, log')
          /\ length parts = Z.to_nat num_hours
          /\ forall stamps,
               Forall (fun p => ds_bool p = true) parts ->
               Forall2 Spec.scalar_time parts stamps ->
               Spec.time_values r = Some stamps
               /\ "time" ∈ coord_names r
               /\ (2 <= num_hours ->
                   exists v, variables r !! "time" = Some v
                             /\ vdims v = ["time"]
                             /\ vshape v = [Z.to_nat num_hours]
                             /\ dims r !! "time" = Some (Z.to_nat num_hours))).
Proof.
  split.
  - intros r H.
    pose proof H as H'.
    apply notmf_load_combined_dataset_ok in H'
      as (_ & _ & log1 & dss & cat & _ & _ & _ & _ & _ & Hcol & Hcat & _).
    apply collect_length in Hcol. rewrite length_seqZ in Hcol.
    split.
    { destruct dss; [discriminate|]. cbn in Hcol. lia. }
    apply notmf_time_coordinate in H as (ts & v & Hts & Hv & Hc & Hd & Hs & Hvv).
    exists v. split; [exact Hv|]. split; [exact Hc|]. split; [exact Hd|].
    split; [exact Hs|].
    pose proof (Forall2_length _ _ _ Hts) as Hl. rewrite length_seqZ in Hl.
    split; [rewrite Hvv, length_fmap; lia|].
    intros i Hi.
    assert (Hseq : seqZ 0 num_hours !! Z.to_nat i = Some i).
    { rewrite lookup_seqZ. split; lia. }
    destruct (Forall2_lookup_l _ _ _ _ _ Hts Hseq) as (t & Ht & Hadd).
    exists t. split; [exact Hadd|].
    rewrite Hvv, list_lookup_fmap, Ht. reflexivity.
  - intros r H. apply (part000_time_coordinate _ _ _ _ _ _ _ _ _ H).
Qed.

(** Claim C5, amended.  The concatenation accepts equal times, so the
    library does not make them distinct.  In the notebook without
    [open_mfdataset] the times are pairwise distinct all the same, because
    the notebook stamps hour [i] with [start_date] plus [i] hours.  In
    [part_000] the times are those of the archive, and are pairwise
    distinct exactly when the archive's are. *)
Theorem time_values_distinct
    (store : string -> option Dataset)
    (transform : gmap string string -> scalar -> scalar -> scalar * scalar)
    (start_date : datetime) (num_hours : Z) (level param_short_name : string)
    (log log' : list event) :
  (forall r,
     NotMf.load_combined_dataset store transform start_date num_hours level
       param_short_name log = (Ok r, log') ->
     exists vals, Spec.time_values r = Some vals
                  /\ length vals = Z.to_nat num_hours /\ NoDup vals)
  /\ (forall r,
        Part000.load_combined_dataset store transform start_date num_hours level
          param_short_name log = (Ok (Some r), log') ->
        exists parts,
          Spec.hourly_datasets store transform start_date num_hours level
            param_short_name log = (Ok parts, log')
          /\ forall stamps,
               Forall (fun p => ds_bool p = true) parts ->
               Forall2 Spec.scalar_time parts stamps ->
               exists vals, Spec.time_values r = Some vals
                            /\ (NoDup vals <-> NoDup stamps)).
Proof.
  split.
  - intros r H.
    apply notmf_time_coordinate in H as (ts & v & Hts & Hv & _ & _ & _ & Hvv).
    exists (vvalues v). split; [unfold Spec.time_values; rewrite Hv; reflexivity|].
    pose proof (Forall2_length _ _ _ Hts) as Hl. rewrite length_seqZ in Hl.
    split; [rewrite Hvv, length_fmap; lia|].
    rewrite Hvv. apply NoDup_fmap_2; [intros a b [= ->]; reflexivity|].
    pose proof (NoDup_seqZ 0 num_hours) as Hnd.
    revert Hts Hnd. generalize (seqZ 0 num_hours). clear. intros l Hts.
    induction Hts as [|i t l ts Hi Hts IH]; intros Hnd; [constructor|].
    apply NoDup_cons in Hnd as [Hni Hnd]. apply NoDup_cons. split; [|apply IH, Hnd].
    intros Hin. apply Hni.
    apply list_elem_of_lookup in Hin as [k Hk].
    destruct (Forall2_lookup_r _ _ _ _ _ Hts Hk) as (j & Hj & Hadd).
    rewrite (add_hours_inj _ _ _ _ Hi Hadd).
    apply list_elem_of_lookup. exists k. exact Hj.
  - intros r H.
    apply part000_time_coordinate in H as (parts & Hparts & _ & Hst).
    exists parts. split; [exact Hparts|].
    intros stamps Hne H2. destruct (Hst stamps Hne H2) as (Htv & _).
    exists stamps. split; [exact Htv|reflexivity].
Qed.

(** ** The theorems on the miniature archive *)



(** The reduction of the two-hour cube with a statistic that picks the
    first value. *)
Lemma reduction_over_time_witness :
  exists r,
    Part000.std_dev Mini.first_value Mini.cube_ds = Ok r
    /\ vdims (da_variable r) = ["y"; "x"]
    /\ vshape (da_variable r) = [2%nat; 2%nat]
    /\ length (da_values r) = 4%nat.
Proof.
  destruct (reduction_over_time Mini.first_value Mini.cube_ds Mini.cube_ds
              "y" "x" Mini.cube 2 2 2)
    as (r & r' & Hr & _ & _ & _ & Hd & Hs & _ & _ & Hl & _);
    try (vm_compute; reflexivity); try discriminate.
  exists r. repeat split; assumption.
Defined.


(** Three hours of the miniature archive through the third notebook, and
    through [part_000]. *)
Lemma time_axis_values_witness :
  (exists r v,
     fst (run (NotMf.load_combined_dataset Mini.store Mini.transform Mini.start 3
                 "1000mb" "TMP")) = Ok r
     /\ variables r !! "time" = Some v
     /\ vshape v = [3%nat]
     /\ exists t, add_hours Mini.start 2 = Ok t /\ vvalues v !! 2%nat = Some (STime t))
  /\ (exists r,
        fst (run (Part000.load_combined_dataset Mini.store Mini.transform Mini.start 3
                    "1000mb" "TMP")) = Ok (Some r)
        /\ Spec.time_values r
           = Some [STime (Mini.stamp 0); STime (Mini.stamp 1); STime (Mini.stamp 2)]).
Proof.
  split.
  - assert (Hok : holds (fst (run (NotMf.load_combined_dataset Mini.store
                                     Mini.transform Mini.start 3 "1000mb" "TMP")))
                    (fun _ => true) = true)
      by (vm_compute; reflexivity).
    apply holds_ok in Hok as (r & Hr & _). unfold run in Hr |- *.
    destruct (NotMf.load_combined_dataset Mini.store Mini.transform Mini.start 3
                "1000mb" "TMP" []) as [res log'] eqn:H.
    cbn [fst] in Hr. subst res.
    destruct (proj1 (time_axis_values _ _ _ _ _ _ _ _) _ H)
      as (_ & v & Hv & _ & _ & Hs & _ & Hi).
    exists r, v. split; [reflexivity|]. split; [exact Hv|]. split; [exact Hs|].
    apply (Hi 2). lia.
  - assert (Hok : holds (fst (run (Part000.load_combined_dataset Mini.store
                                     Mini.transform Mini.start 3 "1000mb" "TMP")))
                    (from_option (fun _ => true) false) = true)
      by (vm_compute; reflexivity).
    assert (Hne : holds (fst (run (Spec.hourly_datasets Mini.store
                                     Mini.transform Mini.start 3 "1000mb" "TMP")))
                    (fun parts =>
                       forallb ds_bool parts
                       && bool_decide
                            (Forall2 Spec.scalar_time parts
                               [STime (Mini.stamp 0); STime (Mini.stamp 1);
                                STime (Mini.stamp 2)])) = true)
      by (vm_compute; reflexivity).
    apply holds_ok in Hok as ([r|] & Hr & Hf); [|discriminate Hf].
    unfold run in Hr, Hne |- *.
    destruct (Part000.load_combined_dataset Mini.store Mini.transform Mini.start 3
                "1000mb" "TMP" []) as [res log'] eqn:H.
    cbn [fst] in Hr. subst res.
    destruct (proj2 (time_axis_values _ _ _ _ _ _ _ _) _ H)
      as (parts & Hparts & _ & Hst).
    rewrite Hparts in Hne. cbn [fst holds] in Hne.
    apply andb_prop in Hne as [Hne Hsc]. apply bool_decide_eq_true in Hsc.
    exists r. split; [reflexivity|].
    apply Hst; [apply forallb_all; exact Hne|exact Hsc].
Defined.

(** Claim C2 as stated fails for [part_000]: started at half past
    midnight, it formats the URLs of the hours 00 and 01, and the times of
    the result are the ones stored there, 00:00 and 01:00, not 00:30 and
    01:30. *)
Lemma time_values_from_archive :
  exists r,
    fst (run (Part000.load_combined_dataset Mini.store Mini.transform
                Mini.half_past 2 "1000mb" "TMP")) = Ok (Some r)
    /\ Spec.time_values r = Some [STime (Mini.stamp 0); STime (Mini.stamp 1)]
    /\ add_hours Mini.half_past 0 = Ok Mini.half_past
    /\ add_hours Mini.half_past 1 = Ok (mkDatetime 2021 4 1 1 30 0 0)
    /\ Spec.time_values r
       <> Some [STime Mini.half_past; STime (mkDatetime 2021 4 1 1 30 0 0)].
Proof.
  assert (Hok : holds (fst (run (Part000.load_combined_dataset Mini.store
                                   Mini.transform Mini.half_past 2 "1000mb" "TMP")))
                  (from_option
                     (fun r => bool_decide
                                 (Spec.time_values r
                                  = Some [STime (Mini.stamp 0); STime (Mini.stamp 1)]))
                     false) = true)
    by (vm_compute; reflexivity).
  apply holds_ok in Hok as ([r|] & Hr & Hf); [|discriminate Hf].
  cbn in Hf. apply bool_decide_eq_true in Hf.
  exists r. split; [exact Hr|]. split; [exact Hf|].
  split; [vm_compute; reflexivity|].
  split; [vm_compute; reflexivity|].
  rewrite Hf. intros E. discriminate E.
Qed.

(** Three hours of the miniature archive: distinct times from either
    notebook. *)
Lemma time_values_distinct_witness :
  (exists r vals,
     fst (run (NotMf.load_combined_dataset Mini.store Mini.transform Mini.start 3
                 "1000mb" "TMP")) = Ok r
     /\ Spec.time_values r = Some vals /\ NoDup vals)
  /\ (exists r vals,
        fst (run (Part000.load_combined_dataset Mini.store Mini.transform Mini.start 3
                    "1000mb" "TMP")) = Ok (Some r)
        /\ Spec.time_values r = Some vals
        /\ (NoDup vals
            <-> NoDup [STime (Mini.stamp 0); STime (Mini.stamp 1); STime (Mini.stamp 2)])).
Proof.
  split.
  - assert (Hok : holds (fst (run (NotMf.load_combined_dataset Mini.store
                                     Mini.transform Mini.start 3 "1000mb" "TMP")))
                    (fun _ => true) = true)
      by (vm_compute; reflexivity).
    apply holds_ok in Hok as (r & Hr & _). unfold run in Hr |- *.
    destruct (NotMf.load_combined_dataset Mini.store Mini.transform Mini.start 3
                "1000mb" "TMP" []) as [res log'] eqn:H.
    cbn [fst] in Hr. subst res.
    destruct (proj1 (time_values_distinct _ _ _ _ _ _ _ _) _ H)
      as (vals & Hv & _ & Hnd).
    exists r, vals. split; [reflexivity|]. split; [exact Hv|exact Hnd].
  - assert (Hok : holds (fst (run (Part000.load_combined_dataset Mini.store
                                     Mini.transform Mini.start 3 "1000mb" "TMP")))
                    (from_option (fun _ => true) false) = true)
      by (vm_compute; reflexivity).
    assert (Hne : holds (fst (run (Spec.hourly_datasets Mini.store
                                     Mini.transform Mini.start 3 "1000mb" "TMP")))
                    (fun parts =>
                       forallb ds_bool parts
                       && bool_decide
                            (Forall2 Spec.scalar_time parts
                               [STime (Mini.stamp 0); STime (Mini.stamp 1);
                                STime (Mini.stamp 2)])) = true)
      by (vm_compute; reflexivity).
    apply holds_ok in Hok as ([r|] & Hr & Hf); [|discriminate Hf].
    unfold run in Hr, Hne |- *.
    destruct (Part000.load_combined_dataset Mini.store Mini.transform Mini.start 3
                "1000mb" "TMP" []) as [res log'] eqn:H.
    cbn [fst] in Hr. subst res.
    destruct (proj2 (time_values_distinct _ _ _ _ _ _ _ _) _ H)
      as (parts & Hparts & Hst).
    rewrite Hparts in Hne. cbn [fst holds] in Hne.
    apply andb_prop in Hne as [Hne Hsc]. apply bool_decide_eq_true in Hsc.
    destruct (Hst _ (proj1 (forallb_all _ _) Hne) Hsc) as (vals & Hv & Hiff).
    exists r, vals. split; [reflexivity|]. split; [exact Hv|exact Hiff].
Defined.

(** Claim C5 as stated fails: on an archive whose hour 1 carries the time
    of hour 0 the concatenation goes through, and the result of
    [part_000] has the same time twice; the second is not
    [start_date] plus one hour. *)
Lemma time_values_repeated :
  exists r,
    fst (run (Part000.load_combined_dataset Mini.stale_store Mini.transform
                Mini.start 2 "1000mb" "TMP")) = Ok (Some r)
    /\ Spec.time_values r = Some [STime (Mini.stamp 0); STime (Mini.stamp 0)]
    /\ add_hours Mini.start 1 = Ok (Mini.stamp 1)
    /\ ~ NoDup [STime (Mini.stamp 0); STime (Mini.stamp 0)].
Proof.
  assert (Hok : holds (fst (run (Part000.load_combined_dataset Mini.stale_store
                                   Mini.transform Mini.start 2 "1000mb" "TMP")))
                  (from_option
                     (fun r => bool_decide
                                 (Spec.time_values r
                                  = Some [STime (Mini.stamp 0); STime (Mini.stamp 0)]))
                     false) = true)
    by (vm_compute; reflexivity).
  apply holds_ok in Hok as ([r|] & Hr & Hf); [|discriminate Hf].
  cbn in Hf. apply bool_decide_eq_true in Hf.
  exists r. split; [exact Hr|]. split; [exact Hf|].
  split; [vm_compute; reflexivity|].
  intros H. apply NoDup_cons in H as [H _]. apply H. left.
Qed.

(** * Further properties *)

(** ** The calendar, both ways *)

(** A date of the calendar has an ordinal in range. *)
Lemma ymd2ord_bounds (y m d : Z) :
  1 <= y <= 9999 -> 1 <= m <= 12 -> 1 <= d <= _days_in_month y m ->
  1 <= _ymd2ord y m d <= _MAXORDINAL.
Proof.
  intros Hy Hm Hd.
  unfold _ymd2ord, _days_before_month, _days_before_year, _days_in_month,
    _is_leap, _MAXORDINAL in *. cbv zeta.
  assert (m = 1 \/ m = 2 \/ m = 3 \/ m = 4 \/ m = 5 \/ m = 6 \/
          m = 7 \/ m = 8 \/ m = 9 \/ m = 10 \/ m = 11 \/ m = 12) as Hcase by lia.
  repeat (destruct Hcase as [->|Hcase]); [ .. | subst m];
    revert Hd; eval_tables;
    repeat match goal with
    | |- context [if ?b then _ else _] => destruct b eqn:?
    end; eval_tables; intros Hd; bool_to_prop; lia.
Qed.

(** The date of an ordinal in range is a date of the calendar. *)
Lemma ord2ymd_valid (n0 : Z) :
  0 < n0 <= _MAXORDINAL ->
  let '(y, m, d) := _ord2ymd n0 in
  1 <= y <= 9999 /\ 1 <= m <= 12 /\ 1 <= d <= _days_in_month y m.
Proof.
  intros Hn0. unfold _MAXORDINAL in Hn0.
  unfold _ord2ymd. cbv zeta.
  set (n := n0 - 1).
  set (n400 := n / _DI400Y). set (r400 := n mod _DI400Y).
  set (n100 := r400 / _DI100Y). set (r100 := r400 mod _DI100Y).
  set (n4 := r100 / _DI4Y). set (r4 := r100 mod _DI4Y).
  set (n1 := r4 / 365). set (r1 := r4 mod 365).
  assert (Hn : n = n400 * 146097 + n100 * 36524 + n4 * 1461 + n1 * 365 + r1
               /\ 0 <= n400 <= 24
               /\ 0 <= n100 <= 4 /\ 0 <= n4 <= 24 /\ 0 <= n1 <= 4 /\ 0 <= r1 < 365
               /\ 0 <= n100 * 36524 + n4 * 1461 + n1 * 365 + r1 < 146097
               /\ 0 <= n4 * 1461 + n1 * 365 + r1 < 36524
               /\ 0 <= n1 * 365 + r1 < 1461).
  { unfold n, n400, r400, n100, r100, n4, r4, n1, r1, _DI400Y, _DI100Y, _DI4Y in *. lia. }
  assert (Hn' : n = n0 - 1) by reflexivity.
  clearbody n n400 r400 n100 r100 n4 r4 n1 r1.
  destruct Hn as (Hn & H400 & H100 & H4 & H1 & Hr1 & Hb & Hc & Hq).
  destruct ((n1 =? 4) || (n100 =? 4)) eqn:E; bool_to_prop.
  - unfold _days_in_month. change (12 =? 2) with false. cbn [andb]. eval_tables.
    subst n. lia.
  - unfold _days_in_month. change (12 =? 2) with false. cbn [andb]. eval_tables.
    subst n. lia.
  - rewrite Z.shiftr_div_pow2 by lia. change (2 ^ 5) with 32.
    set (mth := (r1 + 50) / 32).
    assert (Hm : 1 <= mth <= 12 /\ 32 * mth <= r1 + 50 < 32 * mth + 32)
      by (unfold mth; lia).
    clearbody mth.
    assert (mth = 1 \/ mth = 2 \/ mth = 3 \/ mth = 4 \/ mth = 5 \/ mth = 6 \/
            mth = 7 \/ mth = 8 \/ mth = 9 \/ mth = 10 \/ mth = 11 \/ mth = 12)
      as Hcase by lia.
    unfold _days_in_month, _is_leap.
    repeat (destruct Hcase as [->|Hcase]); [ .. | subst mth];
    eval_tables;
    repeat match goal with
    | |- context [if ?b then _ else _] => destruct b eqn:?
    end; eval_tables; bool_to_prop; subst n; lia.
Qed.

(** The day of the year of a date, within the length of its year. *)
Lemma day_of_year_bounds (y m d : Z) :
  1 <= m <= 12 -> 1 <= d <= _days_in_month y m ->
  1 <= _days_before_month y m + d <= 365 + (if _is_leap y then 1 else 0).
Proof.
  intros Hm Hd. unfold _days_before_month, _days_in_month in *.
  assert (m = 1 \/ m = 2 \/ m = 3 \/ m = 4 \/ m = 5 \/ m = 6 \/
          m = 7 \/ m = 8 \/ m = 9 \/ m = 10 \/ m = 11 \/ m = 12) as Hcase by lia.
  revert Hd. destruct (_is_leap y).
  all: repeat (destruct Hcase as [->|Hcase]); try subst m.
  all: cbn [Z.eqb Z.ltb Z.compare Pos.compare Pos.compare_cont Pos.eqb andb].
  all: eval_tables; lia.
Qed.

(** The days before a year grow with the year, by the length of each
    year. *)
Lemma days_before_year_next (y : Z) :
  _days_before_year (y + 1)
  = _days_before_year y + 365 + (if _is_leap y then 1 else 0).
Proof.
  unfold _days_before_year, _is_leap. cbv zeta.
  replace (y + 1 - 1) with y by lia.
  destruct (_ && _) eqn:E; bool_to_prop; lia.
Qed.

Lemma days_before_year_mono (y y' : Z) :
  y <= y' -> _days_before_year y <= _days_before_year y'.
Proof. unfold _days_before_year. cbv zeta. lia. Qed.

(** Two dates of one year with the same day of the year are the same. *)
Lemma day_of_year_inj (y m d m' d' : Z) :
  1 <= m <= 12 -> 1 <= d <= _days_in_month y m ->
  1 <= m' <= 12 -> 1 <= d' <= _days_in_month y m' ->
  _days_before_month y m + d = _days_before_month y m' + d' ->
  m = m' /\ d = d'.
Proof.
  intros Hm Hd Hm' Hd' H. unfold _days_before_month, _days_in_month in *.
  assert (m = 1 \/ m = 2 \/ m = 3 \/ m = 4 \/ m = 5 \/ m = 6 \/
          m = 7 \/ m = 8 \/ m = 9 \/ m = 10 \/ m = 11 \/ m = 12) as Hcase by lia.
  assert (m' = 1 \/ m' = 2 \/ m' = 3 \/ m' = 4 \/ m' = 5 \/ m' = 6 \/
          m' = 7 \/ m' = 8 \/ m' = 9 \/ m' = 10 \/ m' = 11 \/ m' = 12) as Hcase' by lia.
  revert Hd Hd' H. destruct (_is_leap y).
  all: repeat (destruct Hcase as [->|Hcase]); try subst m.
  all: repeat (destruct Hcase' as [->|Hcase']); try subst m'.
  all: cbn [Z.eqb Z.ltb Z.compare Pos.compare Pos.compare_cont Pos.eqb andb].
  all: eval_tables; lia.
Qed.

(** Distinct dates of the calendar have distinct ordinals. *)
Lemma ymd2ord_inj (y m d y' m' d' : Z) :
  1 <= m <= 12 -> 1 <= d <= _days_in_month y m ->
  1 <= m' <= 12 -> 1 <= d' <= _days_in_month y' m' ->
  _ymd2ord y m d = _ymd2ord y' m' d' ->
  y = y' /\ m = m' /\ d = d'.
Proof.
  intros Hm Hd Hm' Hd' H. unfold _ymd2ord in H.
  pose proof (day_of_year_bounds y m d Hm Hd) as B.
  pose proof (day_of_year_bounds y' m' d' Hm' Hd') as B'.
  pose proof (days_before_year_next y) as S.
  pose proof (days_before_year_next y') as S'.
  assert (Hy : y = y').
  { destruct (Z.lt_trichotomy y y') as [Hlt|[Heq|Hgt]]; [|exact Heq|].
    - pose proof (days_before_year_mono (y + 1) y' ltac:(lia)). lia.
    - pose proof (days_before_year_mono (y' + 1) y ltac:(lia)). lia. }
  subst y'. split; [reflexivity|].
  apply (day_of_year_inj y); try assumption. lia.
Qed.

(** [_ord2ymd] is a left inverse of [_ymd2ord] on the calendar: a date is
    found again from its ordinal. *)
Lemma ord2ymd_ymd2ord (y m d : Z) :
  1 <= y <= 9999 -> 1 <= m <= 12 -> 1 <= d <= _days_in_month y m ->
  _ord2ymd (_ymd2ord y m d) = (y, m, d).
Proof.
  intros Hy Hm Hd.
  pose proof (ymd2ord_bounds y m d Hy Hm Hd) as Hb.
  pose proof (ord2ymd_valid (_ymd2ord y m d) ltac:(lia)) as Hv.
  pose proof (ymd2ord_ord2ymd (_ymd2ord y m d)) as Hr.
  destruct (_ord2ymd (_ymd2ord y m d)) as [[y2 m2] d2].
  destruct Hv as (_ & Hm2 & Hd2).
  destruct (ymd2ord_inj _ _ _ _ _ _ Hm2 Hd2 Hm Hd Hr) as (-> & -> & ->).
  reflexivity.
Qed.

(** ** The times of the loop *)

Lemma valid_ranges (t : datetime) :
  valid t = true ->
  1 <= year t <= 9999 /\ 1 <= month t <= 12
  /\ 1 <= day t <= _days_in_month (year t) (month t)
  /\ 0 <= hour t <= 23 /\ 0 <= minute t <= 59 /\ 0 <= second t <= 59
  /\ 0 <= microsecond t <= 999999.
Proof.
  unfold valid, MINYEAR, MAXYEAR. intros H. bool_to_prop. lia.
Qed.

Lemma ranges_valid (t : datetime) :
  1 <= year t <= 9999 -> 1 <= month t <= 12 ->
  1 <= day t <= _days_in_month (year t) (month t) ->
  0 <= hour t <= 23 -> 0 <= minute t <= 59 -> 0 <= second t <= 59 ->
  0 <= microsecond t <= 999999 ->
  valid t = true.
Proof.
  intros. unfold valid, MINYEAR, MAXYEAR.
  repeat (apply andb_true_intro; split); apply Z.leb_le; lia.
Qed.

(** What [add_hours] computes, step by step. *)
Lemma add_hours_ok (s t : datetime) (i : Z) :
  add_hours s i = Ok t ->
  let secs := hour s * 3600 + minute s * 60 + second s + i * 3600 in
  let days := toordinal s + secs / 86400 in
  Z.abs (i * 3600 / 86400) <= 999999999
  /\ 0 < days <= _MAXORDINAL
  /\ _ord2ymd days = (year t, month t, day t)
  /\ hour t = secs mod 86400 / 3600
  /\ minute t = (secs mod 86400) mod 3600 / 60
  /\ second t = (secs mod 86400) mod 3600 mod 60
  /\ microsecond t = microsecond s.
Proof.
  unfold add_hours. cbv zeta.
  destruct (999999999 <? _) eqn:E1; [discriminate|].
  destruct (_ && _) eqn:E2; [|discriminate].
  destruct (_ord2ymd _) as [[y m] d].
  intros [= <-]. cbn. bool_to_prop. repeat split; try reflexivity; lia.
Qed.

Lemma add_hours_intro (s : datetime) (i y m d : Z) :
  let secs := hour s * 3600 + minute s * 60 + second s + i * 3600 in
  let days := toordinal s + secs / 86400 in
  Z.abs (i * 3600 / 86400) <= 999999999 ->
  0 < days <= _MAXORDINAL ->
  _ord2ymd days = (y, m, d) ->
  add_hours s i
  = Ok {| year := y; month := m; day := d;
          hour := secs mod 86400 / 3600;
          minute := (secs mod 86400) mod 3600 / 60;
          second := (secs mod 86400) mod 3600 mod 60;
          microsecond := microsecond s |}.
Proof.
  cbv zeta. intros H1 H2 H3. unfold add_hours. cbv zeta.
  assert (E1 : (999999999 <? Z.abs (i * 3600 / 86400)) = false)
    by (apply Z.ltb_ge; exact H1).
  rewrite E1.
  assert (E2 : (0 <? toordinal s
                     + (hour s * 3600 + minute s * 60 + second s + i * 3600) / 86400)
               && (toordinal s
                   + (hour s * 3600 + minute s * 60 + second s + i * 3600) / 86400
                   <=? _MAXORDINAL) = true).
  { apply andb_true_intro. split; [apply Z.ltb_lt|apply Z.leb_le]; lia. }
  rewrite E2, H3. reflexivity.
Qed.

(** [start_date + timedelta(hours=0)] is [start_date]. *)
Lemma add_hours_zero (s : datetime) :
  valid s = true -> add_hours s 0 = Ok s.
Proof.
  intros Hv. apply valid_ranges in Hv as (Hy & Hm & Hd & Hh & Hmi & Hs & Hus).
  pose proof (ymd2ord_bounds _ _ _ Hy Hm Hd) as Hb.
  pose proof (ord2ymd_ymd2ord _ _ _ Hy Hm Hd) as Hinv.
  destruct s as [y m d h mi s us]. cbn in *.
  set (secs := h * 3600 + mi * 60 + s + 0 * 3600).
  assert (Hsecs : secs / 86400 = 0 /\ secs mod 86400 = secs
                  /\ secs / 3600 = h /\ secs mod 3600 / 60 = mi
                  /\ secs mod 3600 mod 60 = s) by (unfold secs; lia).
  destruct Hsecs as (H1 & H2 & H3 & H4 & H5).
  rewrite (add_hours_intro _ 0 y m d); unfold toordinal;
    cbn [hour minute second microsecond year month day]; fold secs.
  - rewrite H2, H3, H4, H5. reflexivity.
  - cbn. lia.
  - rewrite H1. unfold _MAXORDINAL in *. lia.
  - rewrite H1, Z.add_0_r. exact Hinv.
Qed.

(** Where [add_hours] lands: the ordinal and the time of day of the
    result, which is a date of the calendar. *)
Lemma add_hours_lands (s t : datetime) (i : Z) :
  valid s = true -> add_hours s i = Ok t ->
  let s0 := hour s * 3600 + minute s * 60 + second s in
  toordinal t = toordinal s + (s0 + i * 3600) / 86400
  /\ hour t * 3600 + minute t * 60 + second t = (s0 + i * 3600) mod 86400
  /\ microsecond t = microsecond s
  /\ valid t = true.
Proof.
  intros Hv H. cbv zeta.
  apply valid_ranges in Hv as (_ & _ & _ & _ & _ & _ & Hus).
  apply add_hours_ok in H as (_ & Hdays & Hymd & Hh & Hm & Hs & Hu).
  pose proof (ord2ymd_valid _ Hdays) as Hval.
  pose proof (ymd2ord_ord2ymd
                (toordinal s
                 + (hour s * 3600 + minute s * 60 + second s + i * 3600) / 86400))
    as Hord.
  rewrite Hymd in Hval, Hord. destruct Hval as (Hy & Hmo & Hd).
  split; [exact Hord|]. split; [lia|]. split; [exact Hu|].
  apply ranges_valid; try assumption; lia.
Qed.

(** Adding [j] hours to the time [i] hours after a valid start is adding
    [i + j] hours to the start, also where one of them overflows. *)
Lemma add_hours_shift (s t : datetime) (i j : Z) :
  valid s = true -> add_hours s i = Ok t ->
  add_hours t j = add_hours s (i + j).
Proof.
  intros Hv Ht.
  destruct (add_hours_lands s t i Hv Ht) as (Hord & Htod & Hus & Hvt).
  apply valid_ranges in Hv as (Hy & Hm & Hd & Hh & Hmi & Hs & _).
  pose proof (ymd2ord_bounds _ _ _ Hy Hm Hd) as Hb. fold (toordinal s) in Hb.
  apply valid_ranges in Hvt as (Hy' & Hm' & Hd' & Hh' & Hmi' & Hs' & _).
  pose proof (ymd2ord_bounds _ _ _ Hy' Hm' Hd') as Hb'. fold (toordinal t) in Hb'.
  unfold add_hours. cbv zeta. rewrite Hus.
  set (s0 := hour s * 3600 + minute s * 60 + second s) in *.
  set (s1 := hour t * 3600 + minute t * 60 + second t) in *.
  assert (Hs0 : 0 <= s0 < 86400) by (unfold s0; lia).
  assert (Hs1 : 0 <= s1 < 86400) by (unfold s1; lia).
  unfold _MAXORDINAL in *.
  assert (Hdiv : toordinal t + (s1 + j * 3600) / 86400
                 = toordinal s + (s0 + (i + j) * 3600) / 86400) by lia.
  assert (Hmod : (s1 + j * 3600) mod 86400 = (s0 + (i + j) * 3600) mod 86400) by lia.
  rewrite Hdiv, Hmod.
  set (days := toordinal s + (s0 + (i + j) * 3600) / 86400) in *.
  destruct ((0 <? days) && (days <=? 3652059)) eqn:E.
  - bool_to_prop.
    assert (E1 : (999999999 <? Z.abs (j * 3600 / 86400)) = false).
    { apply Z.ltb_ge. clear -Hdiv H H0 Hb' Hs1. clearbody s1 days. lia. }
    assert (E2 : (999999999 <? Z.abs ((i + j) * 3600 / 86400)) = false).
    { apply Z.ltb_ge. subst days. clear -H H0 Hb Hs0. clearbody s0. lia. }
    rewrite E1, E2. reflexivity.
  - destruct (999999999 <? _), (999999999 <? _); reflexivity.
Qed.

(** The loop only moves the date and the hour: every time it computes
    from a valid start is a valid [datetime] with the minute, the second
    and the microsecond of the start. *)
Theorem loop_times_are_valid (start_date t : datetime) (i : Z) :
  valid start_date = true -> add_hours start_date i = Ok t ->
  valid t = true
  /\ minute t = minute start_date
  /\ second t = second start_date
  /\ microsecond t = microsecond start_date.
Proof.
  intros Hv H.
  destruct (add_hours_lands _ _ _ Hv H) as (_ & _ & Hus & Hvt).
  destruct (add_hours_rollover _ _ _ Hv H) as (_ & _ & Hm & Hs).
  repeat split; assumption.
Qed.

Lemma loop_times_are_valid_witness :
  valid (mkDatetime 2021 4 2 1 30 15 0) = true.
Proof.
  apply (loop_times_are_valid (mkDatetime 2021 4 1 23 30 15 0) _ 2); reflexivity.
Defined.

(** Hours add up: [j] hours after hour [i] of the loop is hour [i + j],
    so consecutive hours of the loop are one hour apart. *)
Theorem hours_add_up (start_date t u : datetime) (i j : Z) :
  valid start_date = true ->
  add_hours start_date i = Ok t ->
  add_hours t j = Ok u ->
  add_hours start_date (i + j) = Ok u.
Proof.
  intros Hv Ht Hu. rewrite <- (add_hours_shift _ _ _ j Hv Ht). exact Hu.
Qed.

Lemma hours_add_up_witness :
  add_hours (mkDatetime 2021 4 1 23 0 0 0) (1 + 1) = Ok (mkDatetime 2021 4 2 1 0 0 0).
Proof.
  apply (hours_add_up _ (mkDatetime 2021 4 2 0 0 0 0)); reflexivity.
Defined.

(** A round trip: zero hours after a valid start is the start, and going
    [i] hours forth and [i] hours back returns to it. *)
Theorem hours_round_trip (start_date : datetime) :
  valid start_date = true ->
  add_hours start_date 0 = Ok start_date
  /\ forall i t, add_hours start_date i = Ok t -> add_hours t (- i) = Ok start_date.
Proof.
  intros Hv. split; [apply add_hours_zero; exact Hv|].
  intros i t Ht. rewrite (add_hours_shift _ _ _ (- i) Hv Ht).
  replace (i + - i) with 0 by lia. apply add_hours_zero. exact Hv.
Qed.

Lemma hours_round_trip_witness :
  add_hours (mkDatetime 2021 4 2 1 0 0 0) (- 26) = Ok (mkDatetime 2021 3 31 23 0 0 0).
Proof.
  apply (proj2 (hours_round_trip (mkDatetime 2021 3 31 23 0 0 0) eq_refl) 26).
  reflexivity.
Defined.

(** ** One URL per hour *)

Lemma append_inj_length (a b x y : string) :
  String.length a = String.length b -> a +:+ x = b +:+ y -> a = b /\ x = y.
Proof.
  revert b. induction a as [|c a IH]; intros [|c' b] Hl H; try discriminate.
  - rewrite !append_nil in H. split; [reflexivity|exact H].
  - rewrite !append_cons in H. injection H as -> H. injection Hl as Hl.
    destruct (IH b Hl H) as [-> ->]. split; reflexivity.
Qed.

Lemma length_append (a b : string) :
  String.length (a +:+ b) = (String.length a + String.length b)%nat.
Proof.
  induction a as [|c a IH]; [reflexivity|].
  rewrite append_cons. cbn [String.length]. rewrite IH. reflexivity.
Qed.

Lemma dec_pad_length (w : nat) (n : Z) : String.length (dec_pad w n) = w.
Proof.
  revert n. induction w as [|w IH]; intros n; [reflexivity|].
  cbn [dec_pad]. fold (dec_pad w (n / 10) +:+ String (digit n) EmptyString).
  rewrite length_append, IH. cbn. lia.
Qed.

Lemma digit_inj (a b : Z) : digit a = digit b -> a mod 10 = b mod 10.
Proof.
  unfold digit. intros H.
  apply (f_equal nat_of_ascii) in H.
  rewrite !nat_ascii_embedding in H by lia. lia.
Qed.

(** The digits of a number determine it, within the width. *)
Lemma dec_pad_step (w : nat) (n n' : Z) :
  dec_pad (S w) n = dec_pad (S w) n' ->
  dec_pad w (n / 10) = dec_pad w (n' / 10) /\ n mod 10 = n' mod 10.
Proof.
  cbn [dec_pad].
  fold (dec_pad w (n / 10) +:+ String (digit n) EmptyString).
  fold (dec_pad w (n' / 10) +:+ String (digit n') EmptyString).
  intros H. apply append_inj_length in H as [H1 H2];
    [|rewrite !dec_pad_length; reflexivity].
  split; [exact H1|]. injection H2 as H2. apply digit_inj. exact H2.
Qed.

Lemma dec_pad_2_inj (n n' : Z) :
  0 <= n < 100 -> 0 <= n' < 100 -> dec_pad 2 n = dec_pad 2 n' -> n = n'.
Proof.
  intros Hn Hn' H.
  apply dec_pad_step in H as [H H0]. apply dec_pad_step in H as [_ H1]. lia.
Qed.

Lemma dec_pad_4_inj (n n' : Z) :
  0 <= n < 10000 -> 0 <= n' < 10000 -> dec_pad 4 n = dec_pad 4 n' -> n = n'.
Proof.
  intros Hn Hn' H.
  apply dec_pad_step in H as [H H0]. apply dec_pad_step in H as [H H1].
  apply dec_pad_step in H as [H H2]. apply dec_pad_step in H as [_ H3]. lia.
Qed.

Lemma days_in_month_bounds (y m : Z) :
  1 <= m <= 12 -> 28 <= _days_in_month y m <= 31.
Proof.
  intros Hm. unfold _days_in_month.
  assert (m = 1 \/ m = 2 \/ m = 3 \/ m = 4 \/ m = 5 \/ m = 6 \/
          m = 7 \/ m = 8 \/ m = 9 \/ m = 10 \/ m = 11 \/ m = 12) as Hcase by lia.
  destruct (_is_leap y).
  all: repeat (destruct Hcase as [->|Hcase]); try subst m.
  all: cbn [Z.eqb Z.ltb Z.compare Pos.compare Pos.compare_cont Pos.eqb andb].
  all: eval_tables; lia.
Qed.

(** The fixed head of the format: whatever follows, the URL starts with
    the date, twice, and the hour. *)
Lemma strftime_url_prefix (rest : string) (t : datetime) :
  strftime ("s3://hrrrzarr/sfc/%Y%m%d/%Y%m%d_%Hz_anl.zarr/" +:+ rest) t
  = rbind (strftime rest t) (fun r =>
      Ok ("s3://hrrrzarr/sfc/" +:+ Spec.yyyymmdd t +:+ "/" +:+ Spec.yyyymmdd t
          +:+ "_" +:+ Spec.hh t +:+ "z_anl.zarr/" +:+ r)).
Proof.
  unfold Spec.yyyymmdd, Spec.hh.
  rewrite !append_cons, !append_nil.
  cbn [strftime Ascii.eqb Bool.eqb directive rbind].
  destruct (strftime rest t) as [r|e]; cbn [rbind]; [|reflexivity].
  rewrite ?append_assoc, ?append_cons, ?append_nil. reflexivity.
Qed.

(** The URL tells the hour: two hours of one call whose group URLs are
    the same are the same hour, for any level and variable name. *)
Lemma same_url_same_hour
    (start_date t t' : datetime) (i j : Z) (level param_short_name url : string) :
  valid start_date = true ->
  add_hours start_date i = Ok t ->
  add_hours start_date j = Ok t' ->
  strftime (Part000.group_url_format level param_short_name) t = Ok url ->
  strftime (Part000.group_url_format level param_short_name) t' = Ok url ->
  i = j.
Proof.
  intros Hv Ht Ht' Hu Hu'.
  unfold Part000.group_url_format in Hu, Hu'.
  rewrite strftime_url_prefix in Hu, Hu'.
  apply rbind_ok in Hu as (r & _ & [= <-]).
  apply rbind_ok in Hu' as (r' & _ & Hu'). injection Hu' as Hu'.
  clear Hu'.
  repeat match goal with
         | H : digit _ = digit _ |- _ => apply digit_inj in H
         end.
  destruct (add_hours_lands _ _ _ Hv Ht) as (_ & _ & _ & Hvt).
  destruct (add_hours_lands _ _ _ Hv Ht') as (_ & _ & _ & Hvt').
  apply valid_ranges in Hvt as (Ry & Rm & Rd & Rh & _).
  apply valid_ranges in Hvt' as (Ry' & Rm' & Rd' & Rh' & _).
  pose proof (days_in_month_bounds (year t) (month t) Rm) as Dy.
  pose proof (days_in_month_bounds (year t') (month t') Rm') as Dy'.
  assert (Hy : year t = year t') by lia.
  assert (Hm : month t = month t') by lia.
  assert (Hd : day t = day t') by lia.
  assert (Hhh : hour t = hour t') by lia.
  destruct (add_hours_rollover _ _ _ Hv Ht) as (_ & _ & Hmi & Hs).
  destruct (add_hours_rollover _ _ _ Hv Ht') as (_ & _ & Hmi' & Hs').
  apply add_hours_seconds in Ht as [Ht _], Ht' as [Ht' _].
  unfold Spec.epoch_seconds, toordinal in Ht, Ht'.
  rewrite Hy, Hm, Hd, Hhh, Hmi, Hs in Ht. rewrite Hmi', Hs' in Ht'. lia.
Qed.

Lemma append_inj_r (a b s : string) : a +:+ s = b +:+ s -> a = b.
Proof.
  intros H. apply append_inj_length in H as [H _]; [exact H|].
  apply (f_equal String.length) in H. rewrite !length_append in H. lia.
Qed.

(** No archive object is read twice by one call: different hours after
    a valid start have different group URLs and different subgroup URLs,
    in either notebook and for any level and variable name. *)
Theorem distinct_hours_distinct_urls
    (start_date t t' : datetime) (i j : Z) (level param_short_name : string) :
  valid start_date = true ->
  add_hours start_date i = Ok t ->
  add_hours start_date j = Ok t' ->
  i <> j ->
  (forall url url',
     strftime (Part000.group_url_format level param_short_name) t = Ok url ->
     strftime (Part000.group_url_format level param_short_name) t' = Ok url' ->
     url <> url' /\ url +:+ "/" +:+ level <> url' +:+ "/" +:+ level)
  /\ (forall url url',
        strftime (NotMf.group_url_format level param_short_name) t = Ok url ->
        strftime (NotMf.group_url_format level param_short_name) t' = Ok url' ->
        url <> url' /\ url +:+ "/" +:+ level <> url' +:+ "/" +:+ level).
Proof.
  intros Hv Ht Ht' Hne.
  assert (H : forall url url',
             strftime (Part000.group_url_format level param_short_name) t = Ok url ->
             strftime (Part000.group_url_format level param_short_name) t' = Ok url' ->
             url <> url' /\ url +:+ "/" +:+ level <> url' +:+ "/" +:+ level).
  { intros url url' Hu Hu'.
    assert (Hd : url <> url').
    { intros ->. apply Hne.
      apply (same_url_same_hour _ _ _ _ _ _ _ _ Hv Ht Ht' Hu Hu'). }
    split; [exact Hd|]. intros E. apply Hd. apply (append_inj_r _ _ _ E). }
  split; [exact H|]. exact H.
Qed.

Lemma distinct_hours_distinct_urls_witness :
  Mini.hour_url 0 <> Mini.hour_url 1
  /\ Mini.hour_url 0 +:+ "/1000mb" <> Mini.hour_url 1 +:+ "/1000mb".
Proof.
  apply (proj1 (distinct_hours_distinct_urls Mini.start (Mini.stamp 0) (Mini.stamp 1)
                  0 1 "1000mb" "TMP" eq_refl eq_refl eq_refl ltac:(lia)));
    reflexivity.
Defined.

(** ** What is opened, and in which order *)

(** The log of a run of [collect], from the log of each step. *)
Lemma collect_log {A B : Type} (body : A -> M B) (R : A -> list event -> Prop)
    (l : list A) (log log' : list event) (ys : list B) :
  (forall x y lg lg', body x lg = (Ok y, lg') -> exists es, R x es /\ lg' = lg ++ es) ->
  collect body l log = (Ok ys, log') ->
  exists ess, Forall2 R l ess /\ log' = log ++ mjoin ess.
Proof.
  intros HR. revert log ys. induction l as [|x l IH]; intros log ys H.
  - apply mret_ok in H as [_ ->]. exists []. split; [constructor|].
    cbn. rewrite app_nil_r. reflexivity.
  - cbn [collect] in H. apply mbind_ok in H as (y & log1 & Hy & H).
    apply mbind_ok in H as (ys' & log2 & Hys & H).
    apply mret_ok in H as [_ ->].
    destruct (HR _ _ _ _ Hy) as (es & Hes & ->).
    destruct (IH _ _ Hys) as (ess & Hess & ->).
    exists (es :: ess). split; [constructor; assumption|].
    cbn. rewrite app_assoc. reflexivity.
Qed.

(** [open_dataset] logs its URL, found or not. *)
Lemma open_dataset_log {A : Type} (store : string -> option Dataset) (url : string)
    (log log' : list event) (r : result Dataset) :
  open_dataset store url log = (r, log') -> log' = log ++ [EvOpen url].
Proof. unfold open_dataset. intros [= _ <-]. reflexivity. Qed.

(** A successful [open_mfdataset] on two URLs has opened the first and
    then the second. *)
Lemma open_mfdataset_log (store : string -> option Dataset) (a b : string)
    (log log' : list event) (ds : Dataset) :
  open_mfdataset store [a; b] log = (Ok ds, log') ->
  log' = log ++ [EvOpen a; EvOpen b].
Proof.
  unfold open_mfdataset. intros H.
  apply mbind_ok in H as (dss & log1 & Hc & H).
  apply (collect_log _ (fun u es => es = [EvOpen u])) in Hc as (ess & Hess & ->).
  - apply Forall2_cons_inv_l in Hess as (e1 & ess1 & -> & Hess & ->).
    apply Forall2_cons_inv_l in Hess as (e2 & ess2 & -> & Hess & ->).
    apply Forall2_nil_inv_l in Hess as ->.
    destruct dss as [|x [|y [|z dss]]].
    + apply lift_ok in H as [H _]. discriminate.
    + apply mret_ok in H as [_ ->]. reflexivity.
    + apply lift_ok in H as [_ ->]. reflexivity.
    + apply lift_ok in H as [H _]. discriminate.
  - intros u y lg lg' Hu. exists [EvOpen u]. split; [reflexivity|].
    unfold open_dataset in Hu. injection Hu as _ <-. reflexivity.
Qed.

(** One hour of [part_000]: the time, the URL formatted from it, and the
    two opens. *)
Lemma part000_load_hour_log
    (store : string -> option Dataset)
    (transform : gmap string string -> scalar -> scalar -> scalar * scalar)
    (start_date : datetime) (level param_short_name : string) (i : Z)
    (log log' : list event) (p : Dataset) :
  Part000.load_hour store transform start_date level param_short_name i log
    = (Ok p, log') ->
  exists t u,
    add_hours start_date i = Ok t
    /\ strftime (Part000.group_url_format level param_short_name) t = Ok u
    /\ log' = log ++ [EvOpen u; EvOpen (u +:+ "/" +:+ level)].
Proof.
  unfold Part000.load_hour. intros H.
  apply mbind_ok in H as (t & l0 & H0 & H). apply lift_ok in H0 as [H0 ->].
  apply mbind_ok in H as (u & l1 & H1 & H). apply lift_ok in H1 as [H1 ->].
  apply load_dataset_ok in H as (raw & _ & _ & _ & H & _).
  apply open_mfdataset_log in H.
  exists t, u. repeat split; assumption.
Qed.

(** One hour of the third notebook: one open, of the subgroup. *)
Lemma notmf_load_hour_log
    (store : string -> option Dataset)
    (start_date : datetime) (level param_short_name : string) (i : Z)
    (log log' : list event) (p : Dataset) :
  NotMf.load_hour store start_date level param_short_name i log = (Ok p, log') ->
  exists t u,
    add_hours start_date i = Ok t
    /\ strftime (NotMf.group_url_format level param_short_name) t = Ok u
    /\ log' = log ++ [EvOpen (u +:+ "/" +:+ level)].
Proof.
  unfold NotMf.load_hour. intros H.
  apply mbind_ok in H as (t & l0 & H0 & H). apply lift_ok in H0 as [H0 ->].
  apply mbind_ok in H as (u & l1 & H1 & H). apply lift_ok in H1 as [H1 ->].
  apply load_ok in H as (raw & _ & _ & _ & H & _).
  exists t, u. repeat split; assumption.
Qed.

(** From a list of per-step facts with a witness each to a list of
    witnesses. *)
Lemma Forall2_exists_list {A B C : Type} (R : A -> B -> Prop) (f : B -> C)
    (l : list A) (cs : list C) :
  Forall2 (fun x c => exists b, R x b /\ c = f b) l cs ->
  exists bs, Forall2 R l bs /\ cs = f <$> bs.
Proof.
  induction 1 as [|x c l cs (b & Hb & ->) _ (bs & Hbs & ->)].
  - exists []. split; [constructor|reflexivity].
  - exists (b :: bs). split; [constructor; assumption|reflexivity].
Qed.

(** Two opens per hour: a successful call of [part_000]'s
    [load_combined_dataset] has opened, hour by hour in order, the group
    URL formatted from the time of the hour and then that URL followed by
    the level, and nothing else. *)
Theorem part000_opens
    (store : string -> option Dataset)
    (transform : gmap string string -> scalar -> scalar -> scalar * scalar)
    (start_date : datetime) (num_hours : Z) (level param_short_name : string)
    (log log' : list event) (r : option Dataset) :
  Part000.load_combined_dataset store transform start_date num_hours level
    param_short_name log = (Ok r, log') ->
  exists urls,
    Forall2 (fun i u =>
               exists t, add_hours start_date i = Ok t
                         /\ strftime (Part000.group_url_format level param_short_name) t
                            = Ok u)
            (seqZ 0 num_hours) urls
    /\ log' = log ++ (urls ≫= fun u => [EvOpen u; EvOpen (u +:+ "/" +:+ level)]).
Proof.
  unfold Part000.load_combined_dataset. intros H.
  apply for_each_collect in H as (parts & H & _).
  apply (collect_log _
           (fun i es =>
              exists u,
                (exists t, add_hours start_date i = Ok t
                           /\ strftime (Part000.group_url_format level param_short_name) t
                              = Ok u)
                /\ es = (fun u => [EvOpen u; EvOpen (u +:+ "/" +:+ level)]) u))
    in H as (ess & Hess & ->).
  - apply Forall2_exists_list in Hess as (urls & Hurls & ->).
    exists urls. split; [exact Hurls|]. f_equal.
    clear. induction urls as [|u urls IH]; [reflexivity|].
    rewrite bind_cons, <- IH. reflexivity.
  - intros i p lg lg' Hp.
    apply part000_load_hour_log in Hp as (t & u & Ht & Hu & ->).
    eexists. split; [|reflexivity]. exists u. split; [|reflexivity].
    exists t. split; assumption.
Qed.

Lemma part000_opens_witness :
  snd (run (Part000.load_combined_dataset Mini.store Mini.transform Mini.start 2
              "1000mb" "TMP"))
  = [EvOpen (Mini.hour_url 0); EvOpen (Mini.hour_url 0 +:+ "/1000mb");
     EvOpen (Mini.hour_url 1); EvOpen (Mini.hour_url 1 +:+ "/1000mb")].
Proof.
  assert (Hok : holds (fst (run (Part000.load_combined_dataset Mini.store
                                   Mini.transform Mini.start 2 "1000mb" "TMP")))
                  (fun _ => true) = true)
    by (vm_compute; reflexivity).
  apply holds_ok in Hok as (r & Hr & _). unfold run in Hr |- *.
  destruct (Part000.load_combined_dataset Mini.store Mini.transform Mini.start 2
              "1000mb" "TMP" []) as [res log'] eqn:H.
  cbn [fst] in Hr. subst res. cbn [snd].
  destruct (part000_opens _ _ _ _ _ _ _ _ _ H) as (urls & Hurls & ->).
  change (seqZ 0 2) with [0; 1] in Hurls.
  apply Forall2_cons_inv_l in Hurls as (u0 & urls0 & (t0 & Ht0 & Hu0) & Hurls & ->).
  apply Forall2_cons_inv_l in Hurls as (u1 & urls1 & (t1 & Ht1 & Hu1) & Hurls & ->).
  apply Forall2_nil_inv_l in Hurls as ->.
  vm_compute in Ht0. injection Ht0 as <-. vm_compute in Hu0. injection Hu0 as <-.
  vm_compute in Ht1. injection Ht1 as <-. vm_compute in Hu1. injection Hu1 as <-.
  reflexivity.
Defined.

(** One open per hour and one more: a successful call of the third
    notebook's [load_combined_dataset] has opened the group URL of
    [start_date] once, for the grid, and then for each hour in order only
    the subgroup URL.  For a valid [start_date] the first subgroup is the
    one below the group that was opened for the grid. *)
Theorem notmf_opens
    (store : string -> option Dataset)
    (transform : gmap string string -> scalar -> scalar -> scalar * scalar)
    (start_date : datetime) (num_hours : Z) (level param_short_name : string)
    (log log' : list event) (r : Dataset) :
  NotMf.load_combined_dataset store transform start_date num_hours level
    param_short_name log = (Ok r, log') ->
  exists group_url urls,
    strftime (NotMf.group_url_format level param_short_name) start_date = Ok group_url
    /\ Forall2 (fun i u =>
                  exists t, add_hours start_date i = Ok t
                            /\ strftime (NotMf.group_url_format level param_short_name) t
                               = Ok u)
               (seqZ 0 num_hours) urls
    /\ log' = log ++ EvOpen group_url
                     :: ((fun u => EvOpen (u +:+ "/" +:+ level)) <$> urls)
    /\ (valid start_date = true -> head urls = Some group_url).
Proof.
  intros H.
  apply notmf_load_combined_dataset_ok in H
    as (g & grid & log1 & dss & cat & _ & _ & _ & Hg & Hgrid & Hcol & Hcat & _).
  apply load_ok in Hgrid as (_ & _ & _ & _ & -> & _).
  pose proof (collect_length _ _ _ _ _ Hcol) as Hlen.
  apply (collect_log _
           (fun i es =>
              exists u,
                (exists t, add_hours start_date i = Ok t
                           /\ strftime (NotMf.group_url_format level param_short_name) t
                              = Ok u)
                /\ es = (fun u => [EvOpen (u +:+ "/" +:+ level)]) u))
    in Hcol as (ess & Hess & ->).
  - apply Forall2_exists_list in Hess as (urls & Hurls & ->).
    exists g, urls. split; [exact Hg|]. split; [exact Hurls|]. split.
    + rewrite <- app_assoc. f_equal. cbn [app]. f_equal.
      clear. induction urls as [|u urls IH]; [reflexivity|].
      cbn. f_equal. exact IH.
    + intros Hv.
      destruct dss as [|d dss]; [discriminate|].
      destruct (seqZ 0 num_hours) as [|i l] eqn:Hseq; [discriminate|].
      assert (Hi : i = 0).
      { assert (Hl : (i :: l) !! 0%nat = Some i) by reflexivity.
        rewrite <- Hseq in Hl. apply lookup_seqZ in Hl as [-> _]. reflexivity. }
      subst i.
      apply Forall2_cons_inv_l in Hurls as (u0 & urls0 & (t0 & Ht0 & Hu0) & _ & ->).
      rewrite (add_hours_zero _ Hv) in Ht0. injection Ht0 as <-.
      cbn. congruence.
  - intros i p lg lg' Hp.
    apply notmf_load_hour_log in Hp as (t & u & Ht & Hu & ->).
    eexists. split; [|reflexivity]. exists u. split; [|reflexivity].
    exists t. split; assumption.
Qed.

Lemma notmf_opens_witness :
  snd (run (NotMf.load_combined_dataset Mini.store Mini.transform Mini.start 2
              "1000mb" "TMP"))
  = [EvOpen (Mini.hour_url 0); EvOpen (Mini.hour_url 0 +:+ "/1000mb");
     EvOpen (Mini.hour_url 1 +:+ "/1000mb")].
Proof.
  assert (Hok : holds (fst (run (NotMf.load_combined_dataset Mini.store
                                   Mini.transform Mini.start 2 "1000mb" "TMP")))
                  (fun _ => true) = true)
    by (vm_compute; reflexivity).
  apply holds_ok in Hok as (r & Hr & _). unfold run in Hr |- *.
  destruct (NotMf.load_combined_dataset Mini.store Mini.transform Mini.start 2
              "1000mb" "TMP" []) as [res log'] eqn:H.
  cbn [fst] in Hr. subst res. cbn [snd].
  destruct (notmf_opens _ _ _ _ _ _ _ _ _ H) as (g & urls & Hg & Hurls & -> & _).
  change (seqZ 0 2) with [0; 1] in Hurls.
  apply Forall2_cons_inv_l in Hurls as (u0 & urls0 & (t0 & Ht0 & Hu0) & Hurls & ->).
  apply Forall2_cons_inv_l in Hurls as (u1 & urls1 & (t1 & Ht1 & Hu1) & Hurls & ->).
  apply Forall2_nil_inv_l in Hurls as ->.
  vm_compute in Hg. injection Hg as <-.
  vm_compute in Ht0. injection Ht0 as <-. vm_compute in Hu0. injection Hu0 as <-.
  vm_compute in Ht1. injection Ht1 as <-. vm_compute in Hu1. injection Hu1 as <-.
  reflexivity.
Defined.

(** ** Failures and the ends of the range *)

(** A loop over two stretches is the loop over the first and then, if
    that has not raised, the loop over the second. *)
Lemma for_each_app {A B : Type} (body : B -> A -> M B) (l1 l2 : list A) (acc : B)
    (log : list event) :
  for_each body (l1 ++ l2) acc log
  = mbind (for_each body l1 acc) (for_each body l2) log.
Proof.
  revert acc log. induction l1 as [|x l1 IH]; intros acc log.
  - reflexivity.
  - cbn [app for_each]. unfold mbind in *.
    destruct (body acc x log) as [[c|e] log1]; [|reflexivity].
    apply IH.
Qed.

(** The first failure ends the call.  If the loop of [part_000] over the
    first [j] hours has come through and the body raises at hour [j],
    loading the hour or concatenating it, then a call for more hours
    raises the same exception, and its log ends where the failure
    happened: there is no retry, and no later hour is opened. *)
Theorem first_failure_ends_the_call
    (store : string -> option Dataset)
    (transform : gmap string string -> scalar -> scalar -> scalar * scalar)
    (start_date : datetime) (num_hours j : Z) (level param_short_name : string)
    (log log1 log2 : list event) (acc : option Dataset) (e : exn) :
  0 <= j < num_hours ->
  Part000.load_combined_dataset store transform start_date j level
    param_short_name log = (Ok acc, log1) ->
  Part000.loop_body store transform start_date level param_short_name acc j log1
    = (Raise e, log2) ->
  Part000.load_combined_dataset store transform start_date num_hours level
    param_short_name log = (Raise e, log2).
Proof.
  intros Hj Hpre Hbody. unfold Part000.load_combined_dataset in *.
  replace num_hours with (j + (num_hours - j)) by lia.
  rewrite seqZ_app by lia. rewrite for_each_app. unfold mbind at 1.
  rewrite Hpre.
  rewrite seqZ_cons by lia. cbn [for_each]. unfold mbind at 1.
  replace (0 + j) with j by lia. rewrite Hbody. reflexivity.
Qed.

Lemma first_failure_ends_the_call_witness :
  exists log1,
    snd (run (Part000.load_combined_dataset Mini.store Mini.transform Mini.start 3
                "1000mb" "TMP")) = log1
    /\ run (Part000.load_combined_dataset Mini.store Mini.transform Mini.start 5
              "1000mb" "TMP")
       = (Raise FileNotFoundError,
          log1 ++ [EvOpen "s3://hrrrzarr/sfc/20210401/20210401_03z_anl.zarr/1000mb/TMP"]).
Proof.
  assert (Hok : holds (fst (run (Part000.load_combined_dataset Mini.store
                                   Mini.transform Mini.start 3 "1000mb" "TMP")))
                  (fun _ => true) = true)
    by (vm_compute; reflexivity).
  apply holds_ok in Hok as (acc & Hacc & _). unfold run in Hacc |- *.
  destruct (Part000.load_combined_dataset Mini.store Mini.transform Mini.start 3
              "1000mb" "TMP" []) as [res log1] eqn:H.
  cbn [fst] in Hacc. subst res. exists log1. split; [reflexivity|].
  apply (first_failure_ends_the_call Mini.store Mini.transform Mini.start 5 3
           "1000mb" "TMP" [] log1
           (log1 ++ [EvOpen "s3://hrrrzarr/sfc/20210401/20210401_03z_anl.zarr/1000mb/TMP"])
           acc FileNotFoundError); [lia|exact H|].
  vm_compute. reflexivity.
Defined.

(** [None] comes out exactly when there were no hours: a call of
    [part_000]'s [load_combined_dataset] returns [None] if and only if
    [num_hours <= 0], and then it has opened nothing. *)
Theorem none_exactly_without_hours
    (store : string -> option Dataset)
    (transform : gmap string string -> scalar -> scalar -> scalar * scalar)
    (start_date : datetime) (num_hours : Z) (level param_short_name : string)
    (log log' : list event) :
  Part000.load_combined_dataset store transform start_date num_hours level
    param_short_name log = (Ok None, log')
  <-> num_hours <= 0 /\ log' = log.
Proof.
  split.
  - intros H.
    destruct (decide (num_hours <= 0)) as [Hn|Hn].
    + split; [exact Hn|].
      unfold Part000.load_combined_dataset in H. rewrite seqZ_nil in H by exact Hn.
      apply mret_ok in H as [_ ->]. reflexivity.
    + exfalso. unfold Part000.load_combined_dataset in H.
      apply for_each_collect in H as (parts & Hparts & Hall).
      apply collect_length in Hparts. rewrite length_seqZ in Hparts.
      destruct parts as [|p parts]; [cbn in Hparts; lia|].
      cbn [Part000.combine_all] in Hall. apply rbind_ok in Hall as (c & Hc & Hall).
      unfold Part000.combine_step in Hc. cbn in Hc. injection Hc as <-.
      apply combine_all_some in Hall as [c Hc]. discriminate Hc.
  - intros [Hn ->]. unfold Part000.load_combined_dataset.
    rewrite seqZ_nil by exact Hn. reflexivity.
Qed.

(** Without hours the third notebook does not return: once the grid is
    loaded, [xr.concat] is handed the empty list and raises
    [ValueError].  The grid's group is the only URL opened. *)
Theorem notmf_no_hours_raises
    (store : string -> option Dataset)
    (transform : gmap string string -> scalar -> scalar -> scalar * scalar)
    (start_date : datetime) (num_hours : Z) (level param_short_name : string)
    (log log1 : list event) (group_url : string) (grid : Dataset) :
  num_hours <= 0 ->
  strftime (NotMf.group_url_format level param_short_name) start_date = Ok group_url ->
  NotMf.load store group_url None log = (Ok grid, log1) ->
  NotMf.load_combined_dataset store transform start_date num_hours level
    param_short_name log = (Raise ValueError, log ++ [EvOpen group_url]).
Proof.
  intros Hn Hu Hgrid.
  pose proof (load_ok _ _ _ _ _ _ Hgrid) as (_ & _ & _ & _ & Hlog & _).
  unfold NotMf.load_combined_dataset, mbind, lift.
  rewrite Hu. cbv beta iota. rewrite Hgrid. cbv beta iota.
  rewrite seqZ_nil by exact Hn. cbn. rewrite Hlog. reflexivity.
Qed.

Lemma notmf_no_hours_raises_witness :
  run (NotMf.load_combined_dataset Mini.store Mini.transform Mini.start 0
         "1000mb" "TMP")
  = (Raise ValueError, [EvOpen (Mini.hour_url 0)]).
Proof.
  assert (Hok : holds (fst (run (NotMf.load Mini.store (Mini.hour_url 0) None)))
                  (fun _ => true) = true)
    by (vm_compute; reflexivity).
  apply holds_ok in Hok as (grid & Hgrid & _). unfold run in Hgrid |- *.
  destruct (NotMf.load Mini.store (Mini.hour_url 0) None []) as [res log1] eqn:H.
  cbn [fst] in Hgrid. subst res.
  apply (notmf_no_hours_raises Mini.store Mini.transform Mini.start 0 "1000mb" "TMP"
           [] log1 (Mini.hour_url 0) grid); [lia|reflexivity|exact H].
Defined.

(** ** Data variables along the time axis *)

(** A data variable of a concatenation has the dimension of the
    concatenation in front, with the summed length. *)
Lemma concat_data_variable (dss : list Dataset) (dim : string) (mode : combine_attrs)
    (c : Dataset) (k : string) (v : XrVariable) :
  concat dss dim mode = Ok c ->
  variables c !! k = Some v ->
  k ∉ coord_names c ->
  head (vdims v) = Some dim
  /\ head (vshape v) = Some (sum_list (concat_len dim <$> dss)).
Proof.
  intros H Hv Hk.
  destruct dss as [|d0 rest]; [discriminate|].
  pose proof (concat_lookup _ _ _ _ _ k H) as [Hin _].
  apply concat_ok in H as (d0' & rest' & [= <- <-] & _ & _ & Hdom & _ & Hc & _).
  assert (Hk0 : k ∉ coord_names d0).
  { rewrite Hc in Hk. destruct (bool_decide _); set_solver. }
  destruct Hin as (v' & Hv' & Hat).
  { rewrite <- Hdom. apply elem_of_dom. eauto. }
  rewrite Hv in Hv'. injection Hv' as <-.
  unfold concat_at in Hat.
  destruct (concat_items dim k (d0 :: rest)) as [items|] eqn:Hit; [|discriminate].
  cbn in Hat. rewrite (bool_decide_eq_true_2 _ Hk0) in Hat.
  assert (Hco : concat_over dim k true items = true) by reflexivity.
  apply (concat_var_stacked _ _ _ _ _ _ Hco) in Hat as (ex & e0 & Hex & Hh & _ & ->).
  cbn. split.
  - apply mapM_Some in Hex. destruct ex as [|e ex']; [discriminate|].
    injection Hh as ->.
    apply Forall2_cons_inv_r in Hex as (it & its & He & _ & _).
    apply (expand_head _ _ _ _ He).
  - rewrite (concat_items_fst _ _ _ _ Hit). reflexivity.
Qed.

Lemma setitem_da_dims (key : string) (da : DataArray) (ds ds' : Dataset) :
  setitem_da key da ds = Ok ds' ->
  dims ds' = dims ds ∪ var_sizes (da_variable da).
Proof.
  unfold setitem_da. cbv zeta.
  case_bool_decide; [|discriminate].
  destruct (agree _ _); [|discriminate].
  intros [= <-]. reflexivity.
Qed.

(** Reducing a variable along its first dimension. *)
Lemma reduce_leading (f : list scalar -> scalar) (ds : Dataset) (k dim : string)
    (v : XrVariable) (n : nat) :
  variables ds !! k = Some v ->
  head (vdims v) = Some dim -> head (vshape v) = Some n ->
  exists da,
    rbind (getitem ds k) (da_reduce f dim) = Ok da
    /\ da_name da = k
    /\ vdims (da_variable da) = tail (vdims v)
    /\ vshape (da_variable da) = tail (vshape v).
Proof.
  intros Hv Hd Hs. unfold getitem. rewrite Hv. cbn [rbind].
  unfold da_reduce, reduce_variable. cbn [da_variable da_name da_coords].
  destruct (vdims v) as [|d ds']; [discriminate|]. injection Hd as ->.
  destruct (vshape v) as [|m ms]; [discriminate|]. injection Hs as ->.
  rewrite index_of_head. cbn. eexists. repeat split.
Qed.

Lemma add_grid_dims (grid cat ds1 : Dataset) (d : string) (n : nat) :
  NotMf.add_grid grid cat = Ok ds1 ->
  dims cat !! d = Some n -> dims ds1 !! d = Some n.
Proof.
  unfold NotMf.add_grid. intros H Hd.
  apply rbind_ok in H as (dax & _ & H).
  apply rbind_ok in H as (d1 & Hsx & H).
  apply rbind_ok in H as (day & _ & Hsy).
  apply setitem_da_dims in Hsx, Hsy. rewrite Hsy, Hsx.
  apply lookup_union_Some_l, lookup_union_Some_l. exact Hd.
Qed.

(** In the dataset the third notebook returns, the time dimension has
    length [num_hours], and every data variable other than [x] and [y]
    has time as its first dimension, with that length.  So the statistic
    of the next cell, [ds.TMP.std(dim="time")], is defined whenever [TMP]
    is among the data variables, and it has the remaining dimensions of
    [TMP]. *)
Theorem notmf_data_variables_lead_with_time
    (store : string -> option Dataset)
    (transform : gmap string string -> scalar -> scalar -> scalar * scalar)
    (std : list scalar -> scalar)
    (start_date : datetime) (num_hours : Z) (level param_short_name : string)
    (log log' : list event) (r : Dataset) :
  NotMf.load_combined_dataset store transform start_date num_hours level
    param_short_name log = (Ok r, log') ->
  dims r !! "time" = Some (Z.to_nat num_hours)
  /\ (forall k v,
        variables r !! k = Some v -> k ∉ coord_names r -> k <> "x" -> k <> "y" ->
        head (vdims v) = Some "time"
        /\ head (vshape v) = Some (Z.to_nat num_hours))
  /\ (forall v,
        variables r !! "TMP" = Some v -> "TMP" ∉ coord_names r ->
        exists da,
          NotMf.std_dev std r = Ok da
          /\ da_name da = "TMP"
          /\ vdims (da_variable da) = tail (vdims v)
          /\ vshape (da_variable da) = tail (vshape v)).
Proof.
  intros H.
  apply notmf_load_combined_dataset_ok in H
    as (u & grid & log1 & dss & cat & ds1 & cf & ds2
        & _ & _ & Hcol & Hcat & Hgrid & _ & Hcrs & Hll).
  pose proof (collect_length _ _ _ _ _ Hcol) as Hlen. rewrite length_seqZ in Hlen.
  apply notmf_hours_times in Hcol as (ts & _ & Hst & _).
  destruct (concat_scalar_time _ _ _ _ Hcat Hst) as (_ & _ & _ & _ & _ & _ & Hdt).
  pose proof (add_grid_dims _ _ _ _ _ Hgrid Hdt) as Hd1.
  pose proof (add_grid_ok _ _ _ Hgrid) as (gx & gy & _ & _ & Hv1 & _ & _ & Hc1 & _).
  pose proof (assign_crs_ok _ _ _ Hcrs) as (Hv2 & Hc2 & Hd2 & _).
  pose proof (assign_latitude_longitude_ok _ _ _ Hll)
    as (cf' & xs & ys & _ & _ & _ & Hv3 & Hc3 & Hd3 & _).
  assert (Hdata : forall k v,
             variables r !! k = Some v -> k ∉ coord_names r -> k <> "x" -> k <> "y" ->
             head (vdims v) = Some "time"
             /\ head (vshape v) = Some (Z.to_nat num_hours)).
  { intros k v Hv Hk Hx Hy.
    rewrite Hc3, Hc2 in Hk.
    assert (Hne : k <> "latitude" /\ k <> "longitude" /\ k <> "metpy_crs")
      by (repeat split; intros ->; apply Hk; set_solver).
    destruct Hne as (Hla & Hlo & Hcr).
    rewrite Hv3, Hv2, Hv1 in Hv. rewrite !lookup_insert_ne in Hv by congruence.
    assert (Hkc : k ∉ coord_names cat) by set_solver.
    destruct (concat_data_variable _ _ _ _ _ _ Hcat Hv Hkc) as [Hvd Hvs].
    split; [exact Hvd|]. rewrite Hvs, (scalar_time_len _ _ Hst), Hlen. reflexivity. }
  split; [rewrite Hd3, Hd2, Hd1, Hlen; reflexivity|].
  split; [exact Hdata|].
  intros v Hv Hk.
  destruct (Hdata "TMP" v Hv Hk) as [Hvd Hvs]; [discriminate|discriminate|].
  apply (reduce_leading std r "TMP" "time" v _ Hv Hvd Hvs).
Qed.

Lemma notmf_data_variables_lead_with_time_witness :
  exists r da,
    fst (run (NotMf.load_combined_dataset Mini.store Mini.transform Mini.start 3
                "1000mb" "TMP")) = Ok r
    /\ dims r !! "time" = Some 3%nat
    /\ NotMf.std_dev Mini.first_value r = Ok da
    /\ vdims (da_variable da) = ["y"; "x"].
Proof.
  assert (Hok : holds (fst (run (NotMf.load_combined_dataset Mini.store
                                   Mini.transform Mini.start 3 "1000mb" "TMP")))
                  (fun r =>
                     bool_decide (("TMP" ∉ coord_names r)
                                  /\ (vdims <$> variables r !! "TMP")
                                     = Some ["time"; "y"; "x"])) = true)
    by (vm_compute; reflexivity).
  apply holds_ok in Hok as (r & Hr & Hf). unfold run in Hr |- *.
  apply bool_decide_eq_true in Hf as [Hk Hv].
  destruct (variables r !! "TMP") as [v|] eqn:Htmp; [|discriminate].
  cbn in Hv. injection Hv as Hv.
  destruct (NotMf.load_combined_dataset Mini.store Mini.transform Mini.start 3
              "1000mb" "TMP" []) as [res log'] eqn:H.
  cbn [fst] in Hr. subst res.
  destruct (notmf_data_variables_lead_with_time _ _ Mini.first_value _ _ _ _ _ _ _ H)
    as (Hd & _ & Hstd).
  destruct (Hstd v Htmp Hk) as (da & Hda & _ & Hdims & _).
  exists r, da. split; [reflexivity|]. split; [exact Hd|]. split; [exact Hda|].
  rewrite Hdims, Hv. reflexivity.
Defined.

(** ** What the loaders need from the archive *)

(** A variable of a loaded dataset that is neither a grid coordinate nor
    one of the added coordinates is the archive's, with its dimensions
    renamed. *)
Lemma load_dataset_lookup
    (store : string -> option Dataset)
    (transform : gmap string string -> scalar -> scalar -> scalar * scalar)
    (urls : list string) (log log' : list event) (ds : Dataset) :
  Part000.load_dataset store transform urls log = (Ok ds, log') ->
  exists raw,
    open_mfdataset store urls log = (Ok raw, log')
    /\ "time" ∈ dom (variables ds)
    /\ "time" ∈ coord_names ds
    /\ forall k, k <> px -> k <> py -> k <> "x" -> k <> "y" ->
         k <> "metpy_crs" -> k <> "latitude" -> k <> "longitude" ->
         variables ds !! k = rename_variable xy_names <$> variables raw !! k.
Proof.
  intros H.
  apply load_dataset_ok in H as (raw & d1 & d2 & d3 & H0 & H1 & H2 & H3 & H4).
  exists raw. split; [exact H0|].
  destruct (georeference_steps transform _ _ _ _ crs_kwargs_lcc H2 H3)
    as (_ & Hsame & _).
  pose proof (set_coords_ok _ _ _ H4) as (Ht & Hv & Hc & _).
  destruct (rename_xy_renamed _ _ H1) as (_ & _ & _ & _ & Ho).
  split; [rewrite Hv; exact Ht|]. split; [rewrite Hc; set_solver|].
  intros k ? ? ? ? ? ? ?. rewrite Hv, Hsame by assumption.
  apply Ho; try assumption. apply not_elem_of_nil.
Qed.

Lemma rename_key_time (k : string) : rename_key xy_names k = "time" -> k = "time".
Proof.
  destruct (rename_key_cases k) as [[_ E]|[[_ E]|[_ [_ E]]]]; rewrite E;
    [discriminate|discriminate|]. intros H. exact H.
Qed.

Lemma rename_variable_time (v : XrVariable) :
  "time" ∈ vdims (rename_variable xy_names v) <-> "time" ∈ vdims v.
Proof.
  unfold rename_variable. cbn [vdims]. rewrite list_elem_of_fmap. split.
  - intros (k & Hk & Hin). symmetry in Hk. apply rename_key_time in Hk. subst k. exact Hin.
  - intros Hin. exists "time". split; [reflexivity|exact Hin].
Qed.

Lemma index_of_absent (d : string) (l : list string) : d ∉ l -> index_of d l = None.
Proof.
  intros H. unfold index_of.
  destruct (list_find (fun x => x = d) l) as [[i x]|] eqn:E; [|reflexivity].
  apply list_find_Some in E as (Hl & -> & _). exfalso. apply H.
  apply list_elem_of_lookup. exists i. exact Hl.
Qed.

(** [part_000] takes the time from the archive: the dataset that
    [load_dataset] returns has the [time] variable of the opened archive
    datasets, values unchanged, as a coordinate.  An archive without a
    [time] variable cannot be loaded. *)
Theorem part000_time_is_the_archives
    (store : string -> option Dataset)
    (transform : gmap string string -> scalar -> scalar -> scalar * scalar)
    (urls : list string) (log log' : list event) (ds : Dataset) :
  Part000.load_dataset store transform urls log = (Ok ds, log') ->
  exists raw v,
    open_mfdataset store urls log = (Ok raw, log')
    /\ variables raw !! "time" = Some v
    /\ variables ds !! "time" = Some (rename_variable xy_names v)
    /\ Spec.time_values ds = Some (vvalues v)
    /\ "time" ∈ coord_names ds.
Proof.
  intros H. apply load_dataset_lookup in H as (raw & H0 & Ht & Hc & Hk).
  specialize (Hk "time").
  apply elem_of_dom in Ht as [w Hw]. rewrite Hk in Hw by discriminate.
  unfold Spec.time_values. rewrite Hk by discriminate.
  destruct (variables raw !! "time") as [v|] eqn:Hv; [|discriminate].
  exists raw, v. repeat split; try assumption; reflexivity.
Qed.

Lemma part000_time_is_the_archives_witness :
  exists ds,
    fst (run (Part000.load_dataset Mini.store Mini.transform
                [Mini.hour_url 1; Mini.hour_url 1 +:+ "/1000mb"])) = Ok ds
    /\ Spec.time_values ds = Some [STime (Mini.stamp 1)].
Proof.
  assert (Hok : holds (fst (run (Part000.load_dataset Mini.store Mini.transform
                                   [Mini.hour_url 1; Mini.hour_url 1 +:+ "/1000mb"])))
                  (fun _ => true) = true)
    by (vm_compute; reflexivity).
  assert (Hraw : holds (fst (run (open_mfdataset Mini.store
                                    [Mini.hour_url 1; Mini.hour_url 1 +:+ "/1000mb"])))
                   (fun raw => bool_decide ((vvalues <$> variables raw !! "time")
                                            = Some [STime (Mini.stamp 1)])) = true)
    by (vm_compute; reflexivity).
  apply holds_ok in Hok as (ds & Hds & _). unfold run in Hds, Hraw |- *.
  destruct (Part000.load_dataset Mini.store Mini.transform
              [Mini.hour_url 1; Mini.hour_url 1 +:+ "/1000mb"] [])
    as [res log'] eqn:H.
  cbn [fst] in Hds. subst res.
  destruct (part000_time_is_the_archives _ _ _ _ _ _ H)
    as (raw & v & Hopen & Hv & _ & Htv & _).
  rewrite Hopen in Hraw. cbn [fst holds] in Hraw.
  apply bool_decide_eq_true in Hraw. rewrite Hv in Hraw. cbn in Hraw.
  injection Hraw as Hraw.
  exists ds. split; [reflexivity|]. rewrite Htv, Hraw. reflexivity.
Defined.

(** A one-hour call of [part_000] does not go with the statistics cell.
    The dataset it returns is the one opened for the hour; if the
    archive's [TMP] has no time dimension, [ds.TMP.std(dim="time")] on the
    returned dataset raises [ValueError]. *)
Theorem single_hour_statistic_raises
    (store : string -> option Dataset)
    (transform : gmap string string -> scalar -> scalar -> scalar * scalar)
    (std : list scalar -> scalar)
    (start_date : datetime) (level param_short_name : string)
    (log log' : list event) (r : Dataset) :
  Part000.load_combined_dataset store transform start_date 1 level
    param_short_name log = (Ok (Some r), log') ->
  exists t u raw,
    add_hours start_date 0 = Ok t
    /\ strftime (Part000.group_url_format level param_short_name) t = Ok u
    /\ open_mfdataset store [u; u +:+ "/" +:+ level] log = (Ok raw, log')
    /\ forall v, variables raw !! "TMP" = Some v -> "time" ∉ vdims v ->
                 Part000.std_dev std r = Raise ValueError.
Proof.
  unfold Part000.load_combined_dataset. change (seqZ 0 1) with [0].
  cbn [for_each]. intros H.
  apply mbind_ok in H as (c & log1 & Hbody & H). apply mret_ok in H as [<- ->].
  unfold Part000.loop_body in Hbody.
  apply mbind_ok in Hbody as (p & log2 & Hp & Hstep).
  apply lift_ok in Hstep as [Hstep ->].
  cbn in Hstep. injection Hstep as ->.
  unfold Part000.load_hour in Hp.
  apply mbind_ok in Hp as (t & l0 & H0 & Hp). apply lift_ok in H0 as [H0 ->].
  apply mbind_ok in Hp as (u & l1 & H1 & Hp). apply lift_ok in H1 as [H1 ->].
  apply load_dataset_lookup in Hp as (raw & Hopen & _ & _ & Hk).
  exists t, u, raw. repeat split; try assumption.
  intros v Hv Ht. unfold Part000.std_dev, getitem.
  rewrite (Hk "TMP") by discriminate. rewrite Hv. cbn [fmap option_fmap option_map rbind].
  unfold da_reduce, reduce_variable. cbn [da_variable].
  rewrite index_of_absent; [reflexivity|].
  rewrite rename_variable_time. exact Ht.
Qed.

Lemma single_hour_statistic_raises_witness :
  exists r,
    fst (run (Part000.load_combined_dataset Mini.store Mini.transform Mini.start 1
                "1000mb" "TMP")) = Ok (Some r)
    /\ Part000.std_dev Mini.first_value r = Raise ValueError.
Proof.
  assert (Hok : holds (fst (run (Part000.load_combined_dataset Mini.store
                                   Mini.transform Mini.start 1 "1000mb" "TMP")))
                  (from_option (fun _ => true) false) = true)
    by (vm_compute; reflexivity).
  assert (Hraw : holds (fst (run (open_mfdataset Mini.store
                                    [Mini.hour_url 0; Mini.hour_url 0 +:+ "/1000mb"])))
                   (fun raw => bool_decide ((vdims <$> variables raw !! "TMP")
                                            = Some [py; px])) = true)
    by (vm_compute; reflexivity).
  apply holds_ok in Hok as ([r|] & Hr & Hf); [|discriminate Hf].
  unfold run in Hr, Hraw |- *.
  destruct (Part000.load_combined_dataset Mini.store Mini.transform Mini.start 1
              "1000mb" "TMP" []) as [res log'] eqn:H.
  cbn [fst] in Hr. subst res.
  destruct (single_hour_statistic_raises _ _ Mini.first_value _ _ _ _ _ _ H)
    as (t & u & raw & Ht & Hu & Hopen & Hstd).
  vm_compute in Ht. injection Ht as <-. vm_compute in Hu. injection Hu as <-.
  change (open_mfdataset Mini.store
            [Mini.hour_url 0; Mini.hour_url 0 +:+ "/1000mb"] [] = (Ok raw, log'))
    in Hopen.
  rewrite Hopen in Hraw. cbn [fst holds] in Hraw.
  apply bool_decide_eq_true in Hraw.
  assert (Hex : exists v, variables raw !! "TMP" = Some v /\ vdims v = [py; px]).
  { clear -Hraw. destruct (variables raw !! "TMP") as [v|]; [|discriminate Hraw].
    injection Hraw as Hraw. exists v. split; [reflexivity|exact Hraw]. }
  destruct Hex as (v & Hv & Hdims).
  exists r. split; [reflexivity|]. apply (Hstd v Hv).
  rewrite Hdims. intros Hin. apply elem_of_cons in Hin as [Hin|Hin]; [discriminate|].
  apply elem_of_cons in Hin as [Hin|Hin]; [discriminate|]. inversion Hin.
Defined.

(** ** Renaming once *)

(** [rename] raises [ValueError] when one of the two old names is
    neither a variable nor a dimension. *)
Lemma rename_missing (ds : Dataset) :
  px ∉ dom (variables ds) ∪ dom (dims ds) \/ py ∉ dom (variables ds) ∪ dom (dims ds) ->
  rename xy_names ds = Raise ValueError.
Proof.
  intros H. unfold rename. rewrite bool_decide_eq_false_2; [reflexivity|].
  intros Hsub.
  assert (Hx : px ∈ dom xy_names) by (apply elem_of_dom; eexists; reflexivity).
  assert (Hy : py ∈ dom xy_names) by (apply elem_of_dom; eexists; reflexivity).
  destruct H as [H|H]; apply H; apply Hsub; assumption.
Qed.

(** After the renaming the old names are gone, from the variables and
    from the dimensions. *)
Lemma rename_old_names_gone (ds ds' : Dataset) :
  rename xy_names ds = Ok ds' ->
  px ∉ dom (variables ds') ∪ dom (dims ds').
Proof.
  intros H.
  destruct (rename_xy_renamed _ _ H) as (Hpx & _).
  unfold rename in H.
  case_bool_decide; [|discriminate].
  case_bool_decide; [|discriminate].
  case_bool_decide as Hnd; [|discriminate].
  injection H as <-. cbn [variables dims] in *.
  intros Hin. apply elem_of_union in Hin as [Hin|Hin]; [apply Hpx, Hin|].
  apply elem_of_dom in Hin as [n Hn].
  apply (lookup_kmap_nodup _ _ _ _ Hnd) in Hn as [k [Hk _]].
  destruct (rename_key_cases k) as [[_ E]|[[_ E]|[Hk1 [_ E]]]];
    rewrite E in Hk; [discriminate|discriminate|]. congruence.
Qed.

(** The archive has to name the grid: on a dataset in which
    [projection_x_coordinate] or [projection_y_coordinate] is neither a
    variable nor a dimension, each of the three loaders raises
    [ValueError] at its [rename], after the opens. *)
Theorem missing_grid_name_raises
    (transform : gmap string string -> scalar -> scalar -> scalar * scalar)
    (raw : Dataset) :
  px ∉ dom (variables raw) ∪ dom (dims raw) \/ py ∉ dom (variables raw) ∪ dom (dims raw) ->
  (forall store urls log log',
     open_mfdataset store urls log = (Ok raw, log') ->
     Part000.load_dataset store transform urls log = (Raise ValueError, log'))
  /\ (forall store url time log d1,
        store url = Some raw ->
        setitem_scalar "time" (NotMf.time_value time) raw = Ok d1 ->
        NotMf.load store url time log = (Raise ValueError, log ++ [EvOpen url]))
  /\ ProjectionNotebook.assign_coordinates transform raw = Raise ValueError.
Proof.
  intros Hmiss. split; [|split].
  - intros store urls log log' Hopen.
    unfold Part000.load_dataset, mbind. rewrite Hopen.
    unfold lift. rewrite (rename_missing _ Hmiss). reflexivity.
  - intros store url time log d1 Hraw Hset.
    unfold NotMf.load, mbind, open_dataset, lift. rewrite Hraw. cbn [of_option].
    rewrite Hset.
    pose proof (setitem_scalar_ok _ _ _ _ Hset) as (_ & Hv & _ & Hd & _).
    assert (Hin : "time" ∈ dom (variables d1))
      by (rewrite Hv, dom_insert; set_solver).
    unfold set_coords. rewrite (bool_decide_eq_true_2 _ Hin).
    rewrite rename_missing; [reflexivity|].
    cbn [variables dims]. rewrite Hv, Hd, dom_insert.
    destruct Hmiss as [H|H]; [left|right]; intros Hin'; apply H;
      apply elem_of_union in Hin' as [Hin'|Hin']; try set_solver;
      apply elem_of_union in Hin' as [Hin'|Hin']; try set_solver;
      apply elem_of_singleton in Hin'; discriminate.
  - unfold ProjectionNotebook.assign_coordinates.
    rewrite (rename_missing _ Hmiss). reflexivity.
Qed.

Lemma missing_grid_name_raises_witness :
  ProjectionNotebook.assign_coordinates Mini.transform Mini.cube_ds = Raise ValueError.
Proof.
  assert (Hm : px ∉ dom (variables Mini.cube_ds) ∪ dom (dims Mini.cube_ds))
    by (apply (bool_decide_unpack _); vm_compute; exact I).
  apply (proj2 (proj2 (missing_grid_name_raises Mini.transform Mini.cube_ds
                         (or_introl Hm)))).
Defined.

(** The repair runs once.  On its own result [assign_coordinates] raises
    [ValueError], and so it does on the result of [part_000]'s
    [load_dataset]: the names it renames are no longer there. *)
Theorem assign_coordinates_runs_once
    (transform : gmap string string -> scalar -> scalar -> scalar * scalar) :
  (forall ds ds',
     ProjectionNotebook.assign_coordinates transform ds = Ok ds' ->
     ProjectionNotebook.assign_coordinates transform ds' = Raise ValueError)
  /\ (forall store urls log log' ds,
        Part000.load_dataset store transform urls log = (Ok ds, log') ->
        ProjectionNotebook.assign_coordinates transform ds = Raise ValueError).
Proof.
  assert (Hgone : forall cf d1 d2 d3,
             px ∉ dom (variables d1) ∪ dom (dims d1) ->
             assign_crs cf d1 = Ok d2 ->
             assign_latitude_longitude transform d2 = Ok d3 ->
             px ∉ dom (variables d3) ∪ dom (dims d3)).
  { intros cf d1 d2 d3 Hpx H2 H3.
    apply assign_crs_ok in H2 as (Hv2 & _ & Hd2 & _).
    apply assign_latitude_longitude_ok in H3
      as (cf' & xs & ys & _ & _ & _ & Hv3 & _ & Hd3 & _).
    rewrite Hv3, Hd3, Hv2, Hd2, !dom_insert.
    intros Hin. apply Hpx.
    apply elem_of_union in Hin as [Hin|Hin]; [|set_solver].
    apply elem_of_union in Hin as [Hin|Hin];
      [apply elem_of_singleton in Hin; discriminate|].
    apply elem_of_union in Hin as [Hin|Hin];
      [apply elem_of_singleton in Hin; discriminate|].
    apply elem_of_union in Hin as [Hin|Hin];
      [apply elem_of_singleton in Hin; discriminate|].
    set_solver. }
  split.
  - intros ds ds' H.
    apply assign_coordinates_ok in H as (d1 & cf & d2 & H1 & _ & H2 & H3).
    unfold ProjectionNotebook.assign_coordinates.
    rewrite rename_missing; [reflexivity|]. left.
    apply (Hgone _ _ _ _ (rename_old_names_gone _ _ H1) H2 H3).
  - intros store urls log log' ds H.
    apply load_dataset_ok in H as (raw & d1 & d2 & d3 & _ & H1 & H2 & H3 & H4).
    apply set_coords_ok in H4 as (_ & Hv & _ & Hd & _).
    unfold ProjectionNotebook.assign_coordinates.
    rewrite rename_missing; [reflexivity|]. left. rewrite Hv, Hd.
    apply (Hgone _ _ _ _ (rename_old_names_gone _ _ H1) H2 H3).
Qed.

Lemma assign_coordinates_runs_once_witness :
  exists ds,
    fst (run (Part000.load_dataset Mini.store Mini.transform
                [Mini.hour_url 0; Mini.hour_url 0 +:+ "/1000mb"])) = Ok ds
    /\ ProjectionNotebook.assign_coordinates Mini.transform ds = Raise ValueError.
Proof.
  assert (Hok : holds (fst (run (Part000.load_dataset Mini.store Mini.transform
                                   [Mini.hour_url 0; Mini.hour_url 0 +:+ "/1000mb"])))
                  (fun _ => true) = true)
    by (vm_compute; reflexivity).
  apply holds_ok in Hok as (ds & Hds & _). unfold run in Hds |- *.
  destruct (Part000.load_dataset Mini.store Mini.transform
              [Mini.hour_url 0; Mini.hour_url 0 +:+ "/1000mb"] [])
    as [res log'] eqn:H.
  cbn [fst] in Hds. subst res.
  exists ds. split; [reflexivity|].
  apply (proj2 (assign_coordinates_runs_once Mini.transform) _ _ _ _ _ H).
Defined.

(** ** The plotting cell *)



(** ** What the multi-file open keeps *)




(** ** The time that [load] sets *)

(** In the third notebook the time is the caller's: whatever the archive
    holds under [time], the dataset [load] returns has the single value it
    was given, [None] for the grid, as a coordinate and not as a
    dimension.  [load] opens its URL and nothing else. *)
Theorem load_sets_the_time
    (store : string -> option Dataset) (url : string) (time : option datetime)
    (log log' : list event) (ds : Dataset) :
  NotMf.load store url time log = (Ok ds, log') ->
  Spec.scalar_time ds (NotMf.time_value time)
  /\ Spec.time_values ds = Some [NotMf.time_value time]
  /\ "time" ∈ coord_names ds
  /\ log' = log ++ [EvOpen url].
Proof.
  intros H.
  apply load_ok in H as (raw & d1 & d2 & _ & Hlog & Hset & Hco & Hren).
  apply setitem_scalar_ok in Hset as (Hnd & Hv1 & Hc1 & Hd1 & _).
  apply set_coords_ok in Hco as (_ & Hv2 & Hc2 & Hd2 & _).
  assert (Hlook : variables ds !! "time"
                  = Some (rename_variable xy_names
                            (scalar_variable (NotMf.time_value time)))).
  { apply (lookup_rename _ _ _ _ _ Hren).
    exists "time", (scalar_variable (NotMf.time_value time)).
    split; [reflexivity|]. split; [|reflexivity].
    rewrite Hv2, Hv1. apply lookup_insert_eq. }
  split; [|split; [|split]].
  - split.
    + rewrite Hlook. reflexivity.
    + apply (rename_dims_time _ _ Hren). rewrite Hd2, Hd1.
      apply not_elem_of_dom. exact Hnd.
  - unfold Spec.time_values. rewrite Hlook. reflexivity.
  - apply rename_ok in Hren as (_ & _ & Hc & _). rewrite Hc, Hc2.
    apply elem_of_map. exists "time". split; [reflexivity|set_solver].
  - exact Hlog.
Qed.

Lemma load_sets_the_time_witness :
  exists ds,
    fst (run (NotMf.load Mini.stale_store (Mini.hour_url 1) (Some (Mini.stamp 1))))
    = Ok ds
    /\ Spec.time_values ds = Some [STime (Mini.stamp 1)].
Proof.
  assert (Hok : holds (fst (run (NotMf.load Mini.stale_store (Mini.hour_url 1)
                                   (Some (Mini.stamp 1)))))
                  (fun _ => true) = true)
    by (vm_compute; reflexivity).
  apply holds_ok in Hok as (ds & Hds & _). unfold run in Hds |- *.
  destruct (NotMf.load Mini.stale_store (Mini.hour_url 1) (Some (Mini.stamp 1)) [])
    as [res log'] eqn:H.
  cbn [fst] in Hds. subst res.
  destruct (load_sets_the_time _ _ _ _ _ _ H) as (_ & Htv & _).
  exists ds. split; [reflexivity|exact Htv].
Defined.

(** ** Data variables of [part_000] from two hours on *)

(** In [part_000], from two hours on and for per-hour datasets that are
    not empty and carry one time each, every data variable of the result
    has time as its first dimension, of length [num_hours].  So the
    statistic of the last cell is defined whenever [TMP] is among the data
    variables, and it has the remaining dimensions of [TMP]; with a
    single hour it is not. *)
Theorem part000_data_variables_lead_with_time
    (store : string -> option Dataset)
    (transform : gmap string string -> scalar -> scalar -> scalar * scalar)
    (std : list scalar -> scalar)
    (start_date : datetime) (num_hours : Z) (level param_short_name : string)
    (log log' : list event) (r : Dataset) :
  Part000.load_combined_dataset store transform start_date num_hours level
    param_short_name log = (Ok (Some r), log') ->
  2 <= num_hours ->
  exists parts,
    Spec.hourly_datasets store transform start_date num_hours level
      param_short_name log = (Ok parts, log')
    /\ forall stamps,
         Forall (fun p => ds_bool p = true) parts ->
         Forall2 Spec.scalar_time parts stamps ->
         (forall k v,
            variables r !! k = Some v -> k ∉ coord_names r ->
            head (vdims v) = Some "time"
            /\ head (vshape v) = Some (Z.to_nat num_hours))
         /\ (forall v,
               variables r !! "TMP" = Some v -> "TMP" ∉ coord_names r ->
               exists da,
                 Part000.std_dev std r = Ok da
                 /\ da_name da = "TMP"
                 /\ vdims (da_variable da) = tail (vdims v)
                 /\ vshape (da_variable da) = tail (vshape v)).
Proof.
  intros H Hn.
  apply load_combined_dataset_parts in H as (p0 & rest & Hparts & Hlen & Htime & Hall).
  exists (p0 :: rest). split; [exact Hparts|].
  intros stamps Hne Hst.
  assert (Hload : Forall loadable (p0 :: rest)).
  { apply Forall_and. split; assumption. }
  assert (Hdata : forall k v,
             variables r !! k = Some v -> k ∉ coord_names r ->
             head (vdims v) = Some "time"
             /\ head (vshape v) = Some (Z.to_nat num_hours)).
  { destruct (combine_all_concat DropConflicts _ _ _ Hload Hall)
      as [[-> ->]|(_ & c & Hc & Hs)]; [cbn in Hlen; lia|].
    intros k v Hv Hk.
    destruct (strip_lookup _ _ _ _ (eq_sym Hs) Hv) as (w & Hw & Hwd & Hws & _).
    apply strip_attrs_eq in Hs as (_ & Hcn & _). rewrite Hcn in Hk.
    destruct (concat_data_variable _ _ _ _ _ _ Hc Hw Hk) as [Hd Hsh].
    rewrite <- Hwd, <- Hws, <- Hlen, <- (scalar_time_len _ _ Hst).
    split; assumption. }
  split; [exact Hdata|].
  intros v Hv Hk. destruct (Hdata "TMP" v Hv Hk) as [Hvd Hvs].
  apply (reduce_leading std r "TMP" "time" v _ Hv Hvd Hvs).
Qed.

Lemma part000_data_variables_lead_with_time_witness :
  exists r da,
    fst (run (Part000.load_combined_dataset Mini.store Mini.transform Mini.start 3
                "1000mb" "TMP")) = Ok (Some r)
    /\ Part000.std_dev Mini.first_value r = Ok da
    /\ da_name da = "TMP".
Proof.
  assert (Hok : holds (fst (run (Part000.load_combined_dataset Mini.store
                                   Mini.transform Mini.start 3 "1000mb" "TMP")))
                  (from_option
                     (fun r => bool_decide (is_Some (variables r !! "TMP")
                                            /\ "TMP" ∉ coord_names r))
                     false) = true)
    by (vm_compute; reflexivity).
  assert (Hne : holds (fst (run (Spec.hourly_datasets Mini.store
                                   Mini.transform Mini.start 3 "1000mb" "TMP")))
                  (fun parts =>
                     forallb ds_bool parts
                     && bool_decide
                          (Forall2 Spec.scalar_time parts
                             [STime (Mini.stamp 0); STime (Mini.stamp 1);
                              STime (Mini.stamp 2)])) = true)
    by (vm_compute; reflexivity).
  apply holds_ok in Hok as ([r|] & Hr & Hf); [|discriminate Hf].
  cbn [from_option] in Hf. apply bool_decide_eq_true in Hf as [[v Hv] Hk].
  unfold run in Hr, Hne |- *.
  destruct (Part000.load_combined_dataset Mini.store Mini.transform Mini.start 3
              "1000mb" "TMP" []) as [res log'] eqn:H.
  cbn [fst] in Hr. subst res.
  destruct (part000_data_variables_lead_with_time _ _ Mini.first_value
              _ _ _ _ _ _ _ H ltac:(lia))
    as (parts & Hparts & Hst).
  rewrite Hparts in Hne. cbn [fst holds] in Hne.
  apply andb_prop in Hne as [Hne Hsc]. apply bool_decide_eq_true in Hsc.
  destruct (Hst _ (proj1 (forallb_all _ _) Hne) Hsc) as [_ Hstd].
  destruct (Hstd v Hv Hk) as (da & Hda & Hname & _).
  exists r, da. split; [reflexivity|]. split; [exact Hda|exact Hname].
Defined.
